(** * ctpango: the transfer engine, embedded and checked against its description

    A shallow embedding of the parts of the repository that decide the
    properties below:

    - [internal/file/downloader] (download.go): [SelectParallel],
      [SelectBlockSizeAndInitRangeGen], [SelectCacheSize],
      [checkLoadBalancers] and [Execute];
    - [internal/functions/pandownload] (download_task_unit.go, utils.go):
      [download], [handleError], [checkFileValid], [CheckFileValid],
      [FileExist];
    - [internal/file/uploader] (multiworker.go): [MultiUploader.upload];
    - [internal/functions/pandownload] (download_task_unit.go): [Run];
    - [internal/functions/panupload] (utils.go): [getBlockSize];
    - [internal/config]: [AverageParallel], [stripPerSecond], [showMaxRate];
    - [internal/panupdate]: [GetLatestReleaseInfo] and the two requests it
      makes;
    - [internal/command]: [GetAppFileInfoByPaths], the settings of
      [RunDownload], [RunSwitchFamilyList] and the loop of [RunExportFiles].

    Go's [int64] and [int] are integers of [Z] with the wrap-around written
    out; a Go [error] is an [option error], [None] being [nil]; the file
    system is a finite map from paths to file sizes; goroutines are run by
    an explicit schedule, so that a statement over all schedules is a
    statement over all interleavings.  Console output and logging are left
    out. *)

From Stdlib Require Import ZArith Lia Bool.
From stdpp Require Import base list strings gmap.

Open Scope Z_scope.

(** ** Go integers

    [int] is taken as the 64-bit type that it is on the 64-bit targets. *)

Module Int64.

Definition min_int64 : Z := - 2 ^ 63.
Definition max_int64 : Z := 2 ^ 63 - 1.

(** Two's complement wrap-around of a mathematical result into [int64]. *)
Definition wrap (z : Z) : Z := (z + 2 ^ 63) mod 2 ^ 64 - 2 ^ 63.

Definition in_range (z : Z) : Prop := min_int64 <= z <= max_int64.

Definition add (a b : Z) : Z := wrap (a + b).

(** Go's [/] truncates toward zero and panics on a zero divisor: [None] is
    the run-time panic. *)
Definition quot (a b : Z) : option Z :=
  if b =? 0 then None else Some (wrap (Z.quot a b)).

End Int64.

(** ** Errors

    The error values that the embedded code creates, compares or switches
    on.  [ApiError] is [*apierror.ApiError] with its code, [PathError] is
    [*os.PathError]; the others are the package-level sentinels and the
    values built by [errors.New] and [fmt.Errorf]; the latter keep their
    arguments in place of the formatted text. *)

Inductive error : Type :=
| ApiError (code : Z)
| PathError (op path : string)
| ErrNoWokers
| ErrUnknownRangeGenMode
| ErrDownloadNotSupportChecksum
| ErrDownloadFileBanned
| ErrDownloadChecksumFailed
| ContextCanceled
| ErrorString (msg : string)
| Errorf (prefix : string) (cause : error)
| ErrorfNotDir (prefix dir : string).

#[global] Instance error_eq_dec : EqDecision error.
Proof. solve_decision. Defined.

(** ** The files of the machine: a path is mapped to the size of its file *)

Abbreviation FileSystem := (gmap string Z).

(** ** library/requester/transfer *)

Module Transfer.

(** [Range]: the half-open interval [Begin, End). *)
Record Range : Type := mkRange { Begin : Z; End : Z }.

#[global] Instance Range_eq_dec : EqDecision Range.
Proof. solve_decision. Defined.

Definition RangeList : Type := list Range.

(** [RangeGenMode]: the two modes the engine knows, and any other value of
    the underlying integer type. *)
Inductive RangeGenMode : Type :=
| RangeGenMode_Default
| RangeGenMode_BlockSize
| RangeGenMode_Other (v : Z).

Record RangeListGen : Type := mkRangeListGen {
  total : Z;
  begin : Z;
  blockSize : Z;
  parallel : Z;
  count : Z;
  rangeGenMode : RangeGenMode
}.

(** Modelled from the spec: [NewRangeListGenDefault] of
    library/requester/transfer, which is not among the sources.  "Default
    mode: divides totalSize evenly across parallelism workers." *)
Definition NewRangeListGenDefault (totalSize begin0 count0 parallel0 : Z)
  : RangeListGen :=
  {| total := totalSize; begin := begin0;
     blockSize := Z.quot (totalSize - begin0) (Z.max 1 parallel0);
     parallel := Z.max 1 parallel0; count := count0;
     rangeGenMode := RangeGenMode_Default |}.

(** Modelled from the spec: [NewRangeListGenBlockSize] of
    library/requester/transfer, which is not among the sources.
    "BlockSize mode: fixed chunk size". *)
Definition NewRangeListGenBlockSize (totalSize begin0 blockSize0 : Z)
  : RangeListGen :=
  {| total := totalSize; begin := begin0; blockSize := blockSize0;
     parallel := 0; count := 0; rangeGenMode := RangeGenMode_BlockSize |}.

(** Modelled from the spec: [RangeListGen.LoadBlockSize] of
    library/requester/transfer, which is not among the sources: the chunk
    size the generator works with. *)
Definition LoadBlockSize (gen : RangeListGen) : Z := blockSize gen.

(** Modelled from the spec: [RangeListGen.GenRange] of
    library/requester/transfer, which is not among the sources.  The
    generator "deterministically partitions a file's byte span
    [0, totalSize) into an ordered sequence of non-overlapping ranges";
    in BlockSize mode the chunk size is fixed and "the final range is
    clipped to totalSize"; in Default mode the span is divided evenly and
    the last worker takes what is left; "a Range's length is always
    positive", so an exhausted generator, or one without a positive block
    size, yields no range ([None] is Go's nil range). *)
Definition GenRange (gen : RangeListGen) : Z * option Range * RangeListGen :=
  match rangeGenMode gen with
  | RangeGenMode_BlockSize =>
      if (blockSize gen <=? 0) || (total gen <=? begin gen)
      then (count gen, None, gen)
      else
        let e0 := Int64.add (begin gen) (blockSize gen) in
        let e := if total gen <=? e0 then total gen else e0 in
        (count gen, Some (mkRange (begin gen) e),
         {| total := total gen; begin := e; blockSize := blockSize gen;
            parallel := parallel gen; count := count gen + 1;
            rangeGenMode := rangeGenMode gen |})
  | RangeGenMode_Default =>
      if total gen <=? begin gen
      then (count gen, None, gen)
      else
        let e := if count gen + 1 =? parallel gen then total gen
                 else Int64.add (begin gen) (blockSize gen) in
        (count gen, Some (mkRange (begin gen) e),
         {| total := total gen; begin := e; blockSize := blockSize gen;
            parallel := parallel gen; count := count gen + 1;
            rangeGenMode := rangeGenMode gen |})
  | RangeGenMode_Other _ => (0, None, gen)
  end.

(** The part of [DownloadStatus] that the plan reads and writes. *)
Record DownloadStatus : Type := mkDownloadStatus {
  totalSize : Z;
  rangeListGen : option RangeListGen
}.

Definition NewDownloadStatus : DownloadStatus :=
  {| totalSize := 0; rangeListGen := None |}.

Definition SetTotalSize (st : DownloadStatus) (n : Z) : DownloadStatus :=
  {| totalSize := n; rangeListGen := rangeListGen st |}.

Definition SetRangeListGen (st : DownloadStatus) (g : option RangeListGen)
  : DownloadStatus :=
  {| totalSize := totalSize st; rangeListGen := g |}.

(** [DownloadInstanceInfo]: what a saved InstanceState holds. *)
Record DownloadInstanceInfo : Type := mkDownloadInstanceInfo {
  DownloadStatus_ : option DownloadStatus;
  Ranges : RangeList
}.

End Transfer.

(** ** internal/file/downloader *)

Module Downloader.
Import Transfer.

Record Config : Type := mkConfig {
  Mode : RangeGenMode;
  MaxParallel : Z;
  CacheSize : Z;
  BlockSize : Z;
  MaxRate : Z;
  TryHTTP : bool;
  InstanceStatePath : string
}.

Section WithMinParallelSize.

(** [MinParallelSize] is a constant of the package declared in a file
    that is not among the sources; it is a non-zero constant, or the
    division below would not compile. *)
Variable MinParallelSize : Z.

(** [SelectParallel].  The [maxParallel] argument is not read: the code
    takes [der.config.MaxParallel]. *)
Definition SelectParallel (cfg : Config) (single : bool) (maxParallel : Z)
    (totalSize : Z) (instanceRangeList : RangeList) : Z :=
  let isRange := negb (length instanceRangeList =? 0)%nat in
  let parallel :=
    if single then 1
    else if isRange then Z.of_nat (length instanceRangeList)
    else
      let p := MaxParallel cfg in
      if Z.quot totalSize MinParallelSize <? p
      then Int64.add (Z.quot totalSize MinParallelSize) 1
      else p in
  if parallel <? 1 then 1 else parallel.

End WithMinParallelSize.

(** [SelectBlockSizeAndInitRangeGen]: the block size, the initialisation
    error and the status with its generator set.  [None] is the panic of
    the division when [parallel] is 0. *)
Definition SelectBlockSizeAndInitRangeGen (cfg : Config) (single : bool)
    (status : DownloadStatus) (parallel : Z)
  : option (Z * option error * DownloadStatus) :=
  if single then Some (-1, None, status)
  else
    match rangeListGen status with
    | None =>
        match Mode cfg with
        | RangeGenMode_Default =>
            let gen := NewRangeListGenDefault (totalSize status) 0 0 parallel in
            Some (LoadBlockSize gen, None, SetRangeListGen status (Some gen))
        | RangeGenMode_BlockSize =>
            match Int64.quot (totalSize status) parallel with
            | None => None
            | Some q =>
                let b2 := Int64.add q 1 in
                let blockSize := if BlockSize cfg <? b2 then BlockSize cfg else b2 in
                let gen := NewRangeListGenBlockSize (totalSize status) 0 blockSize in
                Some (blockSize, None, SetRangeListGen status (Some gen))
            end
        | RangeGenMode_Other _ => Some (0, Some ErrUnknownRangeGenMode, status)
        end
    | Some gen =>
        Some (LoadBlockSize gen, None, SetRangeListGen status (Some gen))
    end.

(** [SelectCacheSize] *)
Definition SelectCacheSize (confCacheSize blockSize : Z) : Z :=
  if (0 <? blockSize) && (blockSize <? confCacheSize)
  then blockSize else confCacheSize.

(** The loop of [Execute] that draws at most [cap(bii.Ranges)] ranges from
    the generator and stops at the first nil range. *)
Fixpoint genRanges (n : nat) (gen : RangeListGen) (acc : RangeList)
  : RangeList * RangeListGen :=
  match n with
  | O => (acc, gen)
  | S n' =>
      match GenRange gen with
      | (_, None, gen') => (acc, gen')
      | (_, Some r, gen') => genRanges n' gen' (acc ++ [r])
      end
  end.

(** The range assignment of [Execute] ("数据平均分配给各个线程"): a
    resumed list is kept, a fresh one is generated.  [None] is the panic
    of a negative capacity or of a nil generator. *)
Definition assignRanges (single : bool) (fileSize : Z)
    (status : DownloadStatus) (parallel : Z) (ranges : RangeList)
  : option (RangeList * DownloadStatus) :=
  let isRange := negb (length ranges =? 0)%nat in
  if isRange then Some (ranges, status)
  else if parallel <? 0 then None
  else if single then Some ([mkRange 0 fileSize], status)
  else
    match rangeListGen status with
    | None => None
    | Some gen =>
        let '(rs, gen') := genRanges (Z.to_nat parallel) gen [] in
        Some (rs, SetRangeListGen status (Some gen'))
    end.

(** The data handling of [Execute] ("数据处理", "数据平均分配给各个线程")
    once [parallel] is selected: the block size, the cache size and the
    ranges, or the initialisation error that [Execute] returns. *)
Definition planRanges (cfg : Config) (single : bool) (fileSize : Z)
    (status : DownloadStatus) (parallel : Z) (ranges : RangeList)
  : option (error + Z * Z * RangeList * DownloadStatus) :=
  match SelectBlockSizeAndInitRangeGen cfg single status parallel with
  | None => None
  | Some (_, Some e, _) => Some (inl e)
  | Some (blockSize, None, status1) =>
      let cacheSize := SelectCacheSize (CacheSize cfg) blockSize in
      match assignRanges single fileSize status1 parallel ranges with
      | None => None
      | Some (rs, status2) => Some (inr (blockSize, cacheSize, rs, status2))
      end
  end.

(** The plan of a download that starts without saved state: [Execute]
    creates the status and finds no saved ranges. *)
Definition freshPlan (cfg : Config) (fileSize parallel : Z)
  : option (error + Z * RangeList) :=
  match planRanges cfg false fileSize (SetTotalSize NewDownloadStatus fileSize)
          parallel [] with
  | None => None
  | Some (inl e) => Some (inl e)
  | Some (inr (blockSize, _, rs, _)) => Some (inr (blockSize, rs))
  end.

(** *** Mirror probing *)

(** [net/url.URL] as far as the code reads it: the scheme, and what
    follows it in the string form. *)
Record URL : Type := mkURL { Scheme : string; Opaque : string }.

Definition URL_String (u : URL) : string := Scheme u +:+ "://" +:+ Opaque u.

(** [*http.Response] as far as the code reads it; [Request] may be nil. *)
Record Response : Type := mkResponse {
  StatusCode : Z;
  Status : string;
  ContentLength : Z;
  Request : option URL
}.

(** What [client.Req] returns: a response and no error, or an error with
    or without a response. *)
Inductive ReqResult : Type :=
| ReqOk (resp : Response)
| ReqErr (resp : option Response) (e : error).

(** [DefaultDURLCheckFunc], the only value [durlCheckFunc] takes. *)
Definition DefaultDURLCheckFunc (client : string -> ReqResult) (durl : string)
  : Z * option Response * option error :=
  match client durl with
  | ReqErr _ e => (0, None, Some e)
  | ReqOk resp => (ContentLength resp, Some resp, None)
  end.

Record LoadBalancerResponse : Type := mkLoadBalancerResponse { lbURL : string }.

#[global] Instance LoadBalancerResponse_eq_dec : EqDecision LoadBalancerResponse.
Proof. solve_decision. Defined.

(** The closure [handleLoadBalancer] of [checkLoadBalancers]. *)
Definition handleLoadBalancer (cfg : Config) (req : option URL)
    (acc : list LoadBalancerResponse) : list LoadBalancerResponse :=
  match req with
  | None => acc
  | Some u =>
      let u' := if TryHTTP cfg then mkURL "http" (Opaque u) else u in
      acc ++ [mkLoadBalancerResponse (URL_String u')]
  end.

(** The body of the goroutine that [checkLoadBalancers] starts for one
    mirror, as a transformer of the shared slice.  [None] is the nil
    dereference of a check function that returns neither a response nor
    an error, which [DefaultDURLCheckFunc] never does. *)
Definition probeOne (cfg : Config) (fileSize : Z)
    (client : string -> ReqResult) (loadBalanser : string)
    (acc : list LoadBalancerResponse) : option (list LoadBalancerResponse) :=
  match DefaultDURLCheckFunc client loadBalanser with
  | (_, _, Some _) => Some acc
  | (_, None, None) => None
  | (subContentLength, Some subResp, None) =>
      let class := Z.quot (StatusCode subResp) 100 in
      if (class =? 4) || (class =? 5) then Some acc
      else if negb (fileSize =? subContentLength) then Some acc
      else Some (handleLoadBalancer cfg (Request subResp) acc)
  end.

(** The goroutines append to the slice in the order in which they get
    there: [order] lists the indices of [loadBalansers] in that order.
    Every order the scheduler can produce is such a list.  The appends are
    taken one at a time: the code does not lock the slice, and an append
    lost to this race is not modelled. *)
Fixpoint probeAll (cfg : Config) (fileSize : Z) (client : string -> ReqResult)
    (loadBalansers : list string) (order : list nat)
    (acc : list LoadBalancerResponse) : option (list LoadBalancerResponse) :=
  match order with
  | [] => Some acc
  | i :: rest =>
      match loadBalansers !! i with
      | None => probeAll cfg fileSize client loadBalansers rest acc
      | Some m =>
          match probeOne cfg fileSize client m acc with
          | None => None
          | Some acc' => probeAll cfg fileSize client loadBalansers rest acc'
          end
      end
  end.

Record LoadBalancerResponseList : Type := mkLoadBalancerResponseList {
  lbr : list LoadBalancerResponse;
  cursor : nat
}.

(** Modelled from the spec: [NewLoadBalancerResponseList] of the
    downloader package, which is not among the sources: "an ordered,
    round-robin-consumable candidate list". *)
Definition NewLoadBalancerResponseList (l : list LoadBalancerResponse)
  : LoadBalancerResponseList :=
  {| lbr := l; cursor := 0 |}.

(** Modelled from the spec: [SequentialGet] of the downloader package,
    which is not among the sources: "Workers consume from this list
    round-robin".  An empty list gives nil. *)
Definition SequentialGet (l : LoadBalancerResponseList)
  : option LoadBalancerResponse * LoadBalancerResponseList :=
  match lbr l with
  | [] => (None, l)
  | _ =>
      let c := if (length (lbr l) <=? cursor l)%nat then O else cursor l in
      (lbr l !! c, {| lbr := lbr l; cursor := S c |})
  end.

(** The entry that [checkLoadBalancers] appends before it probes
    ("加入第一个"): its URL is the string literal of the source. *)
Definition firstLoadBalancer : LoadBalancerResponse :=
  mkLoadBalancerResponse "der.durl".

(** [checkLoadBalancers] *)
Definition checkLoadBalancers (cfg : Config) (fileSize : Z)
    (client : string -> ReqResult) (loadBalansers : list string)
    (order : list nat) : option LoadBalancerResponseList :=
  match probeAll cfg fileSize client loadBalansers order [firstLoadBalancer] with
  | None => None
  | Some l => Some (NewLoadBalancerResponseList l)
  end.

(** *** Execute *)

(** [cloudpan.AppFileEntity] as far as the engine reads it. *)
Record AppFileEntity : Type := mkAppFileEntity {
  FileId : string;
  FileSize : Z;
  IsFolder : bool
}.

(** The remote service: the two calls that resolve a download URL.  The
    answer of a remote call may change from one call to the next, so each
    takes the number of the call. *)
Record PanClient : Type := mkPanClient {
  AppGetFileDownloadUrl : string -> nat -> string * option error;
  AppFamilyGetFileDownloadUrl : Z -> string -> nat -> string * option error
}.

Record Worker : Type := mkWorker {
  wID : Z;
  wFamilyId : Z;
  wFileId : string;
  wURL : string;
  wRange : Range
}.

Record DownloaderT : Type := mkDownloader {
  config : Config;
  fileInfo : AppFileEntity;
  familyId : Z;
  loadBalansers : list string;
  writerPath : string;
  panClient : PanClient
}.

(** What the surroundings of one [Execute] decide: the answers of the
    mirrors and the order in which the probes finish, whether the state
    file can be opened and what it holds, and what the monitor reports
    for the workers it is given: its error and the size of the output
    file when it stops. *)
Record ExecEnv : Type := mkExecEnv {
  client : string -> ReqResult;
  probeOrder : list nat;
  instanceStateOpenFails : bool;
  savedInstance : option DownloadInstanceInfo;
  monitorRun : list Worker -> DownloadStatus -> option error * Z
}.

Inductive ExecEvent : Type := OnExecute | OnSuccess | OnFinish.

Record ExecResult : Type := mkExecResult {
  execErr : option error;
  execFs : FileSystem;
  execEvents : list ExecEvent;
  execWorkers : list Worker
}.

(** Modelled from the spec: [initInstanceState] and [instanceState.Get] of
    the downloader package, which are not among the sources.  The state
    file is "created at transfer start if absent" and "loaded at transfer
    start"; it fails when the file cannot be opened. *)
Definition initInstanceState (env : ExecEnv) (path : string) (fs : FileSystem)
  : option error * FileSystem * option DownloadInstanceInfo :=
  if instanceStateOpenFails env then (Some (PathError "open" path), fs, None)
  else
    match fs !! path with
    | Some _ => (None, fs, savedInstance env)
    | None => (None, <[path := 0]> fs, None)
    end.

(** Modelled from the spec: [removeInstanceState] of the downloader
    package, which is not among the sources: the state file is "deleted
    on success". *)
Definition removeInstanceState (path : string) (fs : FileSystem) : FileSystem :=
  delete path fs.

(** The loop of [Execute] that builds one worker per range. *)
Fixpoint spawnWorkers (der : DownloaderT) (k : nat) (ranges : RangeList)
    (lbl : LoadBalancerResponseList) (acc : list Worker)
  : list Worker * LoadBalancerResponseList :=
  match ranges with
  | [] => (acc, lbl)
  | r :: rest =>
      let '(loadBalancer, lbl') := SequentialGet lbl in
      match loadBalancer with
      | None => spawnWorkers der (S k) rest lbl' acc
      | Some _ =>
          let '(durl, apierr) :=
            if 0 <? familyId der
            then AppFamilyGetFileDownloadUrl (panClient der) (familyId der)
                   (FileId (fileInfo der)) k
            else AppGetFileDownloadUrl (panClient der) (FileId (fileInfo der)) k in
          match apierr with
          | Some _ => spawnWorkers der (S k) rest lbl' acc
          | None =>
              let worker :=
                mkWorker (Z.of_nat k) (familyId der) (FileId (fileInfo der)) durl r in
              spawnWorkers der (S k) rest lbl' (acc ++ [worker])
          end
      end
  end.

(** The end of [Execute] ("检查错误"): what is triggered, what happens to
    the state file and what is returned, given the monitor's error. *)
Definition finishExecute (der : DownloaderT) (err : option error)
    (fs : FileSystem) : option error * FileSystem * list ExecEvent :=
  match err with
  | None =>
      (err, removeInstanceState (InstanceStatePath (config der)) fs,
       [OnSuccess; OnFinish])
  | Some e =>
      if bool_decide (e = ErrNoWokers) && (FileSize (fileInfo der) =? 0)
      then (err, removeInstanceState (InstanceStatePath (config der)) fs,
            [OnSuccess; OnFinish])
      else (err, fs, [OnFinish])
  end.

Section ExecuteWithMinParallelSize.

Variable MinParallelSize : Z.

(** [Execute].  [single] is the local constant [false] of the source.
    [None] is a run-time panic. *)
Definition Execute (env : ExecEnv) (der : DownloaderT) (fs : FileSystem)
  : option ExecResult :=
  let cfg := config der in
  let single := false in
  match checkLoadBalancers cfg (FileSize (fileInfo der)) (client env)
          (loadBalansers der) (probeOrder env) with
  | None => None
  | Some loadBalancerResponseList =>
      match initInstanceState env (InstanceStatePath cfg) fs with
      | (Some e, fs1, _) => Some (mkExecResult (Some e) fs1 [] [])
      | (None, fs1, saved) =>
          let bii := default (mkDownloadInstanceInfo None []) saved in
          let status :=
            match DownloadStatus_ bii with
            | Some st => st
            | None => SetTotalSize NewDownloadStatus (FileSize (fileInfo der))
            end in
          let parallel :=
            SelectParallel MinParallelSize cfg single (MaxParallel cfg)
              (totalSize status) (Ranges bii) in
          match planRanges cfg single (FileSize (fileInfo der)) status parallel
                  (Ranges bii) with
          | None => None
          | Some (inl e) => Some (mkExecResult (Some e) fs1 [] [])
          | Some (inr (blockSize, cacheSize, ranges, status2)) =>
              let '(workers, _) :=
                spawnWorkers der 0 ranges loadBalancerResponseList [] in
              let '(merr, size) := monitorRun env workers status2 in
              let fs2 := <[writerPath der := size]> fs1 in
              let '(err, fs3, evs) := finishExecute der merr fs2 in
              Some (mkExecResult err fs3 (OnExecute :: evs) workers)
          end
      end
  end.

End ExecuteWithMinParallelSize.

End Downloader.

(** ** internal/functions/pandownload *)

Module Pandownload.
Import Transfer.

Definition DownloadSuffix : string := ".cloudpan189-downloading".
Definition StrDownloadInitError : string := "初始化下载发生错误".
Definition StrDownloadFailed : string := "下载文件失败".
Definition StrDownloadChecksumFailed : string := "检测文件有效性失败".

(** [taskframework.TaskUnitRunResult] *)
Record TaskUnitRunResult : Type := mkTaskUnitRunResult {
  Succeed : bool;
  NeedRetry : bool;
  Err : option error;
  ResultMessage : string
}.

Definition emptyResult : TaskUnitRunResult :=
  {| Succeed := false; NeedRetry := false; Err := None; ResultMessage := "" |}.

Definition setNeedRetry (b : bool) (r : TaskUnitRunResult) : TaskUnitRunResult :=
  {| Succeed := Succeed r; NeedRetry := b; Err := Err r;
     ResultMessage := ResultMessage r |}.

Definition setFailure (msg : string) (e : error) (r : TaskUnitRunResult)
  : TaskUnitRunResult :=
  {| Succeed := Succeed r; NeedRetry := NeedRetry r; Err := Some e;
     ResultMessage := msg |}.

Definition setSucceed (r : TaskUnitRunResult) : TaskUnitRunResult :=
  {| Succeed := true; NeedRetry := NeedRetry r; Err := Err r;
     ResultMessage := ResultMessage r |}.

(** [DownloadTaskUnit], without the fields that only steer the output. *)
Record DownloadTaskUnit : Type := mkDownloadTaskUnit {
  Cfg : Downloader.Config;
  PanClient : Downloader.PanClient;
  IsExecutedPermission : bool;
  IsOverwrite : bool;
  NoCheck : bool;
  FilePanPath : string;
  SavePath : string;
  FamilyId : Z;
  fileInfo : Downloader.AppFileEntity
}.

Definition setIsOverwrite (b : bool) (dtu : DownloadTaskUnit) : DownloadTaskUnit :=
  {| Cfg := Cfg dtu; PanClient := PanClient dtu;
     IsExecutedPermission := IsExecutedPermission dtu; IsOverwrite := b;
     NoCheck := NoCheck dtu; FilePanPath := FilePanPath dtu;
     SavePath := SavePath dtu; FamilyId := FamilyId dtu;
     fileInfo := fileInfo dtu |}.

Definition setInstanceStatePath (p : string) (dtu : DownloadTaskUnit)
  : DownloadTaskUnit :=
  {| Cfg := {| Downloader.Mode := Downloader.Mode (Cfg dtu);
               Downloader.MaxParallel := Downloader.MaxParallel (Cfg dtu);
               Downloader.CacheSize := Downloader.CacheSize (Cfg dtu);
               Downloader.BlockSize := Downloader.BlockSize (Cfg dtu);
               Downloader.MaxRate := Downloader.MaxRate (Cfg dtu);
               Downloader.TryHTTP := Downloader.TryHTTP (Cfg dtu);
               Downloader.InstanceStatePath := p |};
     PanClient := PanClient dtu;
     IsExecutedPermission := IsExecutedPermission dtu;
     IsOverwrite := IsOverwrite dtu; NoCheck := NoCheck dtu;
     FilePanPath := FilePanPath dtu; SavePath := SavePath dtu;
     FamilyId := FamilyId dtu; fileInfo := fileInfo dtu |}.

(** [CheckFileValid] (utils.go): the three checks are comments, the body
    is [return nil]. *)
Definition CheckFileValid (filePath : string)
    (fileInfo : Downloader.AppFileEntity) : option error := None.

(** [FileExist] (utils.go) *)
Definition FileExist (fs : FileSystem) (path : string) : bool :=
  match fs !! path with
  | Some size =>
      if size =? 0 then false
      else match fs !! (path +:+ DownloadSuffix) with
           | None => true
           | Some _ => false
           end
  | None => false
  end.

(** The body of [checkFileValid] over the validation it calls: the result
    [ok], the unit and the run result as the method leaves them. *)
Definition checkFileValidWith
    (check : string -> Downloader.AppFileEntity -> option error)
    (dtu : DownloadTaskUnit) (result : TaskUnitRunResult)
  : bool * DownloadTaskUnit * TaskUnitRunResult :=
  if NoCheck dtu then (false, dtu, result)
  else
    match check (SavePath dtu) (fileInfo dtu) with
    | Some err =>
        let result1 := setFailure StrDownloadChecksumFailed err result in
        match err with
        | ErrDownloadNotSupportChecksum =>
            (true, dtu, setFailure "检验文件有效性" err result1)
        | ErrDownloadFileBanned =>
            (false, dtu, setNeedRetry false result1)
        | ErrDownloadChecksumFailed =>
            (false, setIsOverwrite true dtu, setNeedRetry true result1)
        | _ =>
            (false, dtu, setNeedRetry false result1)
        end
    | None => (true, dtu, result)
    end.

(** [checkFileValid] *)
Definition checkFileValid (dtu : DownloadTaskUnit) (result : TaskUnitRunResult)
  : bool * DownloadTaskUnit * TaskUnitRunResult :=
  checkFileValidWith CheckFileValid dtu result.

(** What [os.Stat] says of the directory of the destination. *)
Inductive StatDir : Type := StatIsDir | StatNotDir | StatError.

(** What the surroundings of one [download] decide. *)
Record DownloadEnv : Type := mkDownloadEnv {
  statDir : StatDir;
  mkdirAllErr : option error;
  openErr : option error;
  execEnv : Downloader.ExecEnv;
  fileStatErr : option error;
  removeErr : option error;
  chmodErr : option error
}.

Section Unit.

(** Constants and functions of code that is not part of the repository:
    the code of the remote "file not found" answer, the least size per
    worker, and [filepath.Dir]. *)
Variable ApiCodeFileNotFoundCode : Z.
Variable MinParallelSize : Z.
Variable filepath_Dir : string -> string.

(** [handleError] *)
Definition handleError (result : TaskUnitRunResult) : TaskUnitRunResult :=
  match Err result with
  | Some (ApiError code) =>
      if code =? ApiCodeFileNotFoundCode
      then setNeedRetry false result
      else setNeedRetry true result
  | Some (PathError _ _) => setNeedRetry false result
  | _ => setNeedRetry true result
  end.

(** The start of [download]: the directory of the destination and the
    destination itself, opened with [O_CREATE|O_WRONLY], which creates
    an empty file where there is none and leaves an existing file as it
    is. *)
Definition openDestination (env : DownloadEnv) (dtu : DownloadTaskUnit)
    (fs : FileSystem) : error + FileSystem :=
  let open :=
    match openErr env with
    | Some e => inl (Errorf StrDownloadInitError e)
    | None =>
        match fs !! SavePath dtu with
        | Some _ => inr fs
        | None => inr (<[SavePath dtu := 0]> fs)
        end
    end in
  match statDir env with
  | StatError =>
      match mkdirAllErr env with
      | Some e => inl e
      | None => open
      end
  | StatNotDir =>
      inl (ErrorfNotDir StrDownloadInitError (filepath_Dir (SavePath dtu)))
  | StatIsDir => open
  end.

(** The end of [download], from [if err != nil] on. *)
Definition finishDownload (env : DownloadEnv) (dtu : DownloadTaskUnit)
    (err : option error) (fs : FileSystem) : option error * FileSystem :=
  match err with
  | Some e =>
      if bool_decide (e = ErrNoWokers)
         && (Downloader.FileSize (fileInfo dtu) =? 0)
      then (None, fs)
      else
        match fileStatErr env with
        | Some _ => (Some e, fs)
        | None =>
            if bool_decide (fs !! SavePath dtu = Some 0)
            then match removeErr env with
                 | None => (Some e, delete (SavePath dtu) fs)
                 | Some _ => (Some e, fs)
                 end
            else (Some e, fs)
        end
  | None => (None, fs)
  end.

(** [downloader.NewDownloader] with [SetFileInfo] and [SetFamilyId], as
    [download] calls them: no mirror is ever set. *)
Definition newDownloader (dtu : DownloadTaskUnit) : Downloader.DownloaderT :=
  Downloader.mkDownloader (Cfg dtu) (fileInfo dtu) (FamilyId dtu) []
    (SavePath dtu) (PanClient dtu).

(** [download]: the error it returns, the files it leaves and the unit
    with its state path set.  [None] is a run-time panic of the engine. *)
Definition download (env : DownloadEnv) (dtu : DownloadTaskUnit)
    (fs : FileSystem) : option (option error * FileSystem * DownloadTaskUnit) :=
  let dtu1 := setInstanceStatePath (SavePath dtu +:+ DownloadSuffix) dtu in
  match openDestination env dtu1 fs with
  | inl e => Some (Some e, fs, dtu1)
  | inr fs1 =>
      match Downloader.Execute MinParallelSize (execEnv env)
              (newDownloader dtu1) fs1 with
      | None => None
      | Some res =>
          let '(err, fs2) :=
            finishDownload env dtu1 (Downloader.execErr res)
              (Downloader.execFs res) in
          Some (err, fs2, dtu1)
      end
  end.

(** The part of [Run] that downloads one file and validates it. *)
Definition runDownload (env : DownloadEnv) (dtu : DownloadTaskUnit)
    (fs : FileSystem)
  : option (TaskUnitRunResult * FileSystem * DownloadTaskUnit) :=
  let result := emptyResult in
  if negb (IsOverwrite dtu) && FileExist fs (SavePath dtu)
  then Some (setSucceed result, fs, dtu)
  else
    match download env dtu fs with
    | None => None
    | Some (Some er, fs1, dtu1) =>
        Some (handleError (setFailure StrDownloadFailed er result), fs1, dtu1)
    | Some (None, fs1, dtu1) =>
        let '(ok, dtu2, result1) := checkFileValid dtu1 result in
        if ok then Some (setSucceed result1, fs1, dtu2)
        else Some (result1, fs1, dtu2)
    end.

End Unit.

End Pandownload.

(** ** internal/file/uploader *)

Module Uploader.

(** [SplitUnit] as far as [upload] uses it: the range of the part and the
    read cursor that [Seek(0, os.SEEK_SET)] resets. *)
Record SplitUnit : Type := mkSplitUnit {
  suRange : Transfer.Range;
  readed : Z
}.

Record worker : Type := mkworker {
  id : Z;
  partOffset : Z;
  splitUnit : SplitUnit;
  uploadDone : bool
}.

(** The workers are shared by pointer between [muer.workers], the queue
    and the goroutines: the store is the list, a pointer is an index. *)
Definition workerList : Type := list worker.

Definition workerList_Readed (werl : workerList) : Z :=
  foldl (fun acc wer => Int64.add acc (readed (splitUnit wer))) 0 werl.

(** The errors [UploadFile] returns: a [*MultiError] with its
    [Terminated] flag and its [Err], or any other error. *)
Inductive uploadError : Type :=
| MultiError (Terminated : bool) (Err : option error)
| OtherError (e : error).

(** One answer of [multiUpload.UploadFile]: the done flag, the error and
    the number of bytes it has read from the part. *)
Record UploadOutcome : Type := mkUploadOutcome {
  ufDone : bool;
  ufErr : option uploadError;
  ufRead : Z
}.

(** The calls to the [MultiUpload] interface, in the order they are made. *)
Inductive Call : Type :=
| CallPrecreate
| CallUploadFile (part : Z) (offset : Z) (last : Z)
| CallCommitFile.

#[global] Instance Call_eq_dec : EqDecision Call.
Proof. solve_decision. Defined.

(** Where the goroutine that runs [upload] is: in the inner loop that
    empties the queue, at [wg.Wait()], or returned. *)
Inductive Phase : Type :=
| Queueing
| Waiting
| Returned (uperr : option error).

Record State : Type := mkState {
  workers : workerList;
  uploadDeque : list nat;
  running : list nat;
  canceled : bool;
  uperr : option error;
  calls : list Call;
  pc : Phase
}.

(** What the scheduler and the surroundings choose next: a turn of the
    inner loop of [upload]; the return of [wg.Wait()] with what follows it,
    [commit] being the answer that [CommitFile] gives if it is called; the
    goroutine of part [w] taking [case <-doneChan] with the outcome of its
    [UploadFile], or taking [case <-muer.canceled], in which case the part
    is left as it is; the closing of [muer.canceled] from outside. *)
Inductive Step : Type :=
| MainShift
| MainWait (commit : option error)
| WorkerDone (w : nat) (o : UploadOutcome)
| WorkerCanceled (w : nat)
| Cancel.

(** Modelled from the spec: [waitgroup.AddDelta] of internal/waitgroup,
    which is not among the sources: "a counting concurrency gate sized to
    the configured parallelism".  A size below 1 is taken as no bound,
    which adds schedules and removes none. *)
Definition gateOpen (parallel : Z) (inFlight : nat) : bool :=
  (parallel <=? 0) || (Z.of_nat inFlight <? parallel).

Definition leave (w : nat) (l : list nat) : list nat :=
  filter (fun j => j ≠ w) l.

Definition setUploadDone (b : bool) (wer : worker) : worker :=
  {| id := id wer; partOffset := partOffset wer; splitUnit := splitUnit wer;
     uploadDone := b |}.

Definition setReaded (n : Z) (wer : worker) : worker :=
  {| id := id wer; partOffset := partOffset wer;
     splitUnit := {| suRange := suRange (splitUnit wer); readed := n |};
     uploadDone := uploadDone wer |}.

(** The call that the inner goroutine of a part makes: [UploadFile] when
    the part is not done, none when it is. *)
Definition startedCall (wer : worker) : list Call :=
  if uploadDone wer then []
  else [CallUploadFile (id wer) (partOffset wer)
          (Transfer.End (suRange (splitUnit wer)))].

(** The inner goroutine seen from [case <-doneChan]: [UploadFile] is called
    when the part is not done, and [uploadDone] is true without a call when
    it is. *)
Definition innerCall (wer : worker) (o : UploadOutcome)
  : bool * option uploadError * worker * list Call :=
  if uploadDone wer then (true, None, wer, startedCall wer)
  else (ufDone o, ufErr o,
        setReaded (Int64.add (readed (splitUnit wer)) (ufRead o)) wer,
        startedCall wer).

(** The end of [upload], from the last [select] on. *)
Definition finishUpload (commit : option error) (s : State) : State :=
  if canceled s then
    {| workers := workers s; uploadDeque := uploadDeque s; running := running s;
       canceled := canceled s; uperr := uperr s; calls := calls s;
       pc := Returned (match uperr s with
                       | Some e => Some e
                       | None => Some ContextCanceled
                       end) |}
  else if forallb uploadDone (workers s) then
    {| workers := workers s; uploadDeque := uploadDeque s; running := running s;
       canceled := canceled s; uperr := uperr s;
       calls := calls s ++ [CallCommitFile];
       pc := Returned (match commit with
                       | Some e => Some e
                       | None => uperr s
                       end) |}
  else
    {| workers := workers s; uploadDeque := uploadDeque s; running := running s;
       canceled := canceled s; uperr := uperr s; calls := calls s;
       pc := Returned (uperr s) |}.

(** One step of [upload]; [None] when the step cannot be taken. *)
Definition step (parallel : Z) (s : State) (st : Step) : option State :=
  match st with
  | MainShift =>
      match pc s with
      | Queueing =>
          match uploadDeque s with
          | [] =>
              Some {| workers := workers s; uploadDeque := []; running := running s;
                      canceled := canceled s; uperr := uperr s; calls := calls s;
                      pc := Waiting |}
          | e :: rest =>
              if gateOpen parallel (length (running s)) then
                Some {| workers := workers s; uploadDeque := rest;
                        running := running s ++ [e];
                        canceled := canceled s; uperr := uperr s;
                        calls := calls s; pc := Queueing |}
              else None
          end
      | _ => None
      end
  | MainWait commit =>
      match pc s, running s with
      | Waiting, [] =>
          match uploadDeque s with
          | [] => Some (finishUpload commit s)
          | _ :: _ =>
              Some {| workers := workers s; uploadDeque := uploadDeque s;
                      running := running s; canceled := canceled s;
                      uperr := uperr s; calls := calls s; pc := Queueing |}
          end
      | _, _ => None
      end
  | WorkerDone w o =>
      if bool_decide (w ∈ running s) then
        match workers s !! w with
        | None => None
        | Some wer =>
            let '(done, terr, wer1, cs) := innerCall wer o in
            match terr with
            | Some (MultiError true e) =>
                Some {| workers := <[w := wer1]> (workers s);
                        uploadDeque := uploadDeque s;
                        running := leave w (running s);
                        canceled := true; uperr := e;
                        calls := calls s ++ cs; pc := pc s |}
            | Some _ =>
                Some {| workers := <[w := setReaded 0 wer1]> (workers s);
                        uploadDeque := uploadDeque s ++ [w];
                        running := leave w (running s);
                        canceled := canceled s; uperr := uperr s;
                        calls := calls s ++ cs; pc := pc s |}
            | None =>
                Some {| workers := <[w := setUploadDone done wer1]> (workers s);
                        uploadDeque := uploadDeque s;
                        running := leave w (running s);
                        canceled := canceled s; uperr := uperr s;
                        calls := calls s ++ cs; pc := pc s |}
            end
        end
      else None
  | WorkerCanceled w =>
      if bool_decide (w ∈ running s) && canceled s then
        match workers s !! w with
        | None => None
        | Some wer =>
            Some {| workers := workers s; uploadDeque := uploadDeque s;
                    running := leave w (running s);
                    canceled := canceled s; uperr := uperr s;
                    calls := calls s ++ startedCall wer; pc := pc s |}
        end
      else None
  | Cancel =>
      Some {| workers := workers s; uploadDeque := uploadDeque s;
              running := running s; canceled := true; uperr := uperr s;
              calls := calls s; pc := pc s |}
  end.

(** The indices of the parts that go into the queue ("加入队列"). *)
Fixpoint notDone (i : nat) (ws : workerList) : list nat :=
  match ws with
  | [] => []
  | wer :: rest =>
      if uploadDone wer then notDone (S i) rest else i :: notDone (S i) rest
  end.

(** The state of [upload] when it reaches its loop, or when [Precreate]
    has failed. *)
Definition start (precreate : option error) (ws : workerList) : State :=
  match precreate with
  | Some e =>
      {| workers := ws; uploadDeque := []; running := []; canceled := false;
         uperr := None; calls := [CallPrecreate]; pc := Returned (Some e) |}
  | None =>
      {| workers := ws; uploadDeque := notDone 0 ws; running := [];
         canceled := false; uperr := None; calls := [CallPrecreate];
         pc := Queueing |}
  end.

(** A schedule is run step by step; a step that cannot be taken is
    skipped. *)
Definition runSchedule (parallel : Z) (s : State) (sched : list Step) : State :=
  foldl (fun s st => default s (step parallel s st)) s sched.

(** [upload] under a schedule. *)
Definition upload (parallel : Z) (precreate : option error)
    (ws : workerList) (sched : list Step) : State :=
  runSchedule parallel (start precreate ws) sched.

End Uploader.

(** ** internal/functions/panupload *)

Module Panupload.

Section Sizes.

(** [converter.MB], a constant of the library ctlibgo. *)
Variable MB : Z.

Definition MinUploadBlockSize : Z := 4 * MB.

(** [getBlockSize].  The divisors are non-zero constants. *)
Definition getBlockSize (fileSize : Z) : Z :=
  let blockNum := Z.quot fileSize MinUploadBlockSize in
  if 999 <? blockNum then Int64.add (Z.quot fileSize 999) 1
  else MinUploadBlockSize.

End Sizes.

End Panupload.

(** ** internal/config *)

Module Config.

(** [AverageParallel] *)
Definition AverageParallel (parallel downloadLoad : Z) : Z :=
  if downloadLoad <? 1 then 1
  else
    let p := Z.quot parallel downloadLoad in
    if p <? 1 then 1 else p.

(** [strings.LastIndex] for a separator of one byte: the index of its last
    occurrence, or -1. *)
Fixpoint lastIndexByte (sep : Ascii.ascii) (s : string) : option nat :=
  match s with
  | EmptyString => None
  | String a rest =>
      match lastIndexByte sep rest with
      | Some i => Some (S i)
      | None => if Ascii.eqb a sep then Some O else None
      end
  end.

Definition LastIndex (s : string) (sep : Ascii.ascii) : Z :=
  match lastIndexByte sep s with
  | Some i => Z.of_nat i
  | None => -1
  end.

(** The byte of "/". *)
Definition slash : Ascii.ascii := Eval cbv in Ascii.ascii_of_nat 47.

(** [stripPerSecond] *)
Definition stripPerSecond (sizeStr : string) : string :=
  let i := LastIndex sizeStr slash in
  if i <? 0 then sizeStr else String.substring 0 (Z.to_nat i) sizeStr.

Section Rates.

(** [converter.ConvertFileSize], a function of the library ctlibgo. *)
Variable ConvertFileSize : Z -> Z -> string.

(** [showMaxRate] *)
Definition showMaxRate (size : Z) : string :=
  if size <=? 0 then "不限制"
  else ConvertFileSize size 2 +:+ "/s".

End Rates.

End Config.

(** ** internal/panupdate *)

Module Panupdate.

Record Asset : Type := mkAsset {
  Name : string;
  State : string;
  Size : Z;
  BrowserDownloadURL : string
}.

Record ReleaseInfo : Type := mkReleaseInfo {
  TagName : string;
  Assets : list (option Asset)
}.

(** What one request for the latest release meets: the request fails, the
    body is not the expected JSON, or it is decoded, with the code that the
    tickstep server puts around the data. *)
Inductive Answer : Type :=
| RequestFails
| BadJSON
| Decoded (code : Z) (info : ReleaseInfo).

(** [getReleaseFromTicstep] *)
Definition getReleaseFromTicstep (a : Answer) : option ReleaseInfo :=
  match a with
  | RequestFails => None
  | BadJSON => None
  | Decoded code info => if code =? 0 then Some info else None
  end.

(** [getReleaseFromGithub] *)
Definition getReleaseFromGithub (a : Answer) : option ReleaseInfo :=
  match a with
  | RequestFails => None
  | BadJSON => None
  | Decoded _ info => Some info
  end.

(** The loop [for idx := 0; idx < 3; idx++] of [GetLatestReleaseInfo]: the
    release it ends with and the number of times it has slept for five
    seconds.  [n] is the number of turns left, [idx] the current one. *)
Fixpoint tryServer (get : Answer -> option ReleaseInfo) (answers : nat -> Answer)
    (n idx sleeps : nat) : option ReleaseInfo * nat :=
  match n with
  | O => (None, sleeps)
  | S n' =>
      match get (answers idx) with
      | Some info => (Some info, sleeps)
      | None => tryServer get answers n' (S idx) (S sleeps)
      end
  end.

(** [GetLatestReleaseInfo]: the release it returns and the number of sleeps.
    [tickstep] and [github] give the answer of each server to each of its
    requests. *)
Definition GetLatestReleaseInfo (PreferUpdateSrv : string)
    (tickstep github : nat -> Answer) : option ReleaseInfo * nat :=
  let '(tsReleaseInfo, sleeps1) := tryServer getReleaseFromTicstep tickstep 3 0 0 in
  let '(ghReleaseInfo, sleeps2) := tryServer getReleaseFromGithub github 3 0 sleeps1 in
  let releaseInfo :=
    if String.eqb PreferUpdateSrv "tickstep" then tsReleaseInfo
    else
      match ghReleaseInfo with
      | Some _ => ghReleaseInfo
      | None => tsReleaseInfo
      end in
  (releaseInfo, sleeps2).

End Panupdate.

(** ** internal/command *)

Module Command.

(** The further fields of [cloudpan.AppFileEntity] that the commands read,
    beside those the engine reads. *)
Record FileEntry : Type := mkFileEntry {
  entity : Downloader.AppFileEntity;
  Path : string;
  FileMd5 : string;
  LastOpTime : string
}.

(** One call of the visitor that [AppFilesDirectoriesRecurseList] is given:
    an error of the remote service, or an entry that was found. *)
Inductive Visit : Type :=
| VisitError (apiError : error)
| VisitEntry (fd : FileEntry).

(** [IsFamilyCloud] *)
Definition IsFamilyCloud (familyId : Z) : bool := 0 <? familyId.

(** [GetFamilyCloudMark] *)
Definition GetFamilyCloudMark (familyId : Z) : string :=
  if 0 <? familyId then "家庭云" else "个人云".

Section Paths.

(** [activeUser.PathJoin] and [path.Clean], and the remote
    [AppFileInfoByPath], whose answer may differ from call to call. *)
Variable PathJoin : Z -> string -> string.
Variable Clean : string -> string.
Variable AppFileInfoByPath : nat -> Z -> string -> error + FileEntry.

(** The loop of [GetAppFileInfoByPaths], from index [idx] on. *)
Fixpoint fileInfoLoop (familyId : Z) (idx : nat) (paths : list string)
    (fileInfoList : list FileEntry) (failedPaths : list string)
  : list FileEntry * list string :=
  match paths with
  | [] => (fileInfoList, failedPaths)
  | p :: rest =>
      let absolutePath := Clean (PathJoin familyId p) in
      match AppFileInfoByPath idx familyId absolutePath with
      | inl _ =>
          fileInfoLoop familyId (S idx) rest fileInfoList
            (failedPaths ++ [absolutePath])
      | inr fe =>
          fileInfoLoop familyId (S idx) rest (fileInfoList ++ [fe]) failedPaths
      end
  end.

(** [GetAppFileInfoByPaths] *)
Definition GetAppFileInfoByPaths (familyId : Z) (paths : list string)
  : list FileEntry * list string * option error :=
  if (length paths <=? 0)%nat then ([], [], Some (ErrorString "请指定文件路径"))
  else
    let '(fileInfoList, failedPaths) := fileInfoLoop familyId 0 paths [] [] in
    (fileInfoList, failedPaths, None).

(** [matchPathByShellPattern] *)
Definition matchPathByShellPattern (familyId : Z) (patterns : list string)
  : list string * option error :=
  (map (PathJoin familyId) patterns, None).

End Paths.

(** *** download *)

Record DownloadOptions : Type := mkDownloadOptions {
  IsPrintStatus : bool;
  IsExecutedPermission : bool;
  IsOverwrite : bool;
  SaveTo : string;
  Parallel : Z;
  Load : Z;
  MaxRetry : Z;
  NoCheck : bool;
  ShowProgress : bool;
  FamilyId : Z
}.

(** The fields of [config.Config] that [RunDownload] reads. *)
Record AppConfig : Type := mkAppConfig {
  MaxDownloadLoad : Z;
  CacheSize : Z;
  MaxDownloadRate : Z;
  MaxDownloadParallel : Z
}.

Definition DefaultDownloadMaxRetry : Z := 3.

(** The visitor that [RunDownload] passes to count the files: the new count
    and whether the listing goes on. *)
Definition countVisit (load : Z) (loadCount : Z) (v : Visit) : Z * bool :=
  match v with
  | VisitError _ => (loadCount, true)
  | VisitEntry fd =>
      if Downloader.IsFolder (entity fd) then (loadCount, true)
      else
        let loadCount' := Int64.add loadCount 1 in
        if load <=? loadCount' then (loadCount', false) else (loadCount', true)
  end.

(** One listing: the remote service calls the visitor for the entries one
    after the other and stops when the visitor answers [false]. *)
Fixpoint countListing (load : Z) (loadCount : Z) (visits : list Visit) : Z :=
  match visits with
  | [] => loadCount
  | v :: rest =>
      let '(loadCount', continue) := countVisit load loadCount v in
      if continue then countListing load loadCount' rest else loadCount'
  end.

(** The loop of [RunDownload] over the paths ("预测要下载的文件数量"):
    [listings] holds, path by path, what the remote service would list. *)
Fixpoint countLoad (load : Z) (loadCount : Z) (listings : list (list Visit)) : Z :=
  match listings with
  | [] => loadCount
  | visits :: rest =>
      let loadCount' := countListing load loadCount visits in
      if load <=? loadCount' then loadCount' else countLoad load loadCount' rest
  end.

Section Download.

(** [converter.KB] and [converter.MB], constants of the library ctlibgo. *)
Variable KB MB : Z.

Definition MaxDownloadRangeSize : Z := 55 * MB.
Definition DownloadCacheSize : Z := 64 * KB.

(** The start of [RunDownload], up to the configuration of the units: the
    options as the units see them and the configuration that each unit
    copies.  [windows] is [runtime.GOOS == "windows"]. *)
Definition downloadSettings (conf : AppConfig) (windows : bool)
    (options : DownloadOptions) (listings : list (list Visit))
  : DownloadOptions * Downloader.Config :=
  let load := if Load options <=? 0 then MaxDownloadLoad conf else Load options in
  let maxRetry :=
    if MaxRetry options <? 0 then DefaultDownloadMaxRetry else MaxRetry options in
  let executed := if windows then false else IsExecutedPermission options in
  let cacheSize := if CacheSize conf =? 0 then DownloadCacheSize else CacheSize conf in
  let parallel :=
    if Parallel options <? 1 then MaxDownloadParallel conf else Parallel options in
  let loadCount := countLoad load 0 listings in
  let load' := if 0 <? loadCount then loadCount else load in
  let maxParallel :=
    if 0 <? loadCount then Config.AverageParallel parallel loadCount else parallel in
  ({| IsPrintStatus := IsPrintStatus options;
      IsExecutedPermission := executed;
      IsOverwrite := IsOverwrite options;
      SaveTo := SaveTo options;
      Parallel := parallel;
      Load := load';
      MaxRetry := maxRetry;
      NoCheck := NoCheck options;
      ShowProgress := ShowProgress options;
      FamilyId := FamilyId options |},
   {| Downloader.Mode := Transfer.RangeGenMode_BlockSize;
      Downloader.MaxParallel := maxParallel;
      Downloader.CacheSize := cacheSize;
      Downloader.BlockSize := MaxDownloadRangeSize;
      Downloader.MaxRate := MaxDownloadRate conf;
      Downloader.TryHTTP := false;
      Downloader.InstanceStatePath := "" |}).

End Download.

(** *** family *)

Record AppFamilyInfo : Type := mkAppFamilyInfo {
  familyInfoId : Z;
  RemarkName : string;
  CreateTime : string
}.

(** The fields of the active user that [RunSwitchFamilyList] reads and
    writes. *)
Record PanUser : Type := mkPanUser {
  ActiveFamilyId : Z;
  ActiveFamilyInfo : AppFamilyInfo;
  FamilyWorkdir : string;
  FamilyWorkdirFileEntity : Downloader.AppFileEntity
}.

Definition personCloud : AppFamilyInfo :=
  {| familyInfoId := 0; RemarkName := "个人云"; CreateTime := "-" |}.

(** [getFamilyOptionList], without the rendered table: nil when the remote
    call fails. *)
Definition getFamilyOptionList (remote : error + list AppFamilyInfo)
  : option (list AppFamilyInfo) :=
  match remote with
  | inl _ => None
  | inr familyInfoList => Some ([personCloud] ++ familyInfoList)
  end.

(** What the user types at the prompt: [fmt.Scanln] fails, or it reads a
    word that [strconv.Atoi] rejects or turns into a number. *)
Inductive Typed : Type :=
| ScanFails
| NotANumber
| Number (n : Z).

(** The loop of [RunSwitchFamilyList] that looks for the family. *)
Fixpoint findFamily (targetFamilyId : Z) (familyList : list AppFamilyInfo)
  : option AppFamilyInfo :=
  match familyList with
  | [] => None
  | familyInfo :: rest =>
      if familyInfoId familyInfo =? targetFamilyId then Some familyInfo
      else findFamily targetFamilyId rest
  end.

(** [RunSwitchFamilyList]: the active user as the command leaves it.
    [rootDir] is [cloudpan.NewAppFileEntityForRootDir()]. *)
Definition RunSwitchFamilyList (rootDir : Downloader.AppFileEntity)
    (remote : error + list AppFamilyInfo) (typed : Typed)
    (targetFamilyId : Z) (user : PanUser) : PanUser :=
  let currentFamilyId := ActiveFamilyId user in
  match getFamilyOptionList remote with
  | None => user
  | Some [] => user
  | Some familyList =>
      let activeFamilyInfo :=
        if targetFamilyId <? 0 then
          match typed with
          | ScanFails => None
          | NotANumber => None
          | Number n =>
              if (0 <=? n) && (n <? Z.of_nat (length familyList))
              then familyList !! Z.to_nat n
              else None
          end
        else findFamily targetFamilyId familyList in
      match activeFamilyInfo with
      | None => user
      | Some info =>
          if negb (currentFamilyId =? familyInfoId info) then
            {| ActiveFamilyId := familyInfoId info; ActiveFamilyInfo := info;
               FamilyWorkdir := "/"; FamilyWorkdirFileEntity := rootDir |}
          else
            {| ActiveFamilyId := familyInfoId info; ActiveFamilyInfo := info;
               FamilyWorkdir := FamilyWorkdir user;
               FamilyWorkdirFileEntity := FamilyWorkdirFileEntity user |}
      end
  end.

(** *** export *)

Record ImportExportFileItem : Type := mkImportExportFileItem {
  itemFileMd5 : string;
  itemFileSize : Z;
  itemPath : string;
  itemLastOpTime : string
}.

Section ExportFiles.

(** [json.Marshal] on an item: the text, or nothing when it fails. *)
Variable Marshal : ImportExportFileItem -> option string.

(** The visitor of [RunExportFiles]: the lines written so far, the count,
    and whether the listing goes on. *)
Definition exportVisit (lines : list string) (totalCount : Z) (v : Visit)
  : list string * Z * bool :=
  match v with
  | VisitError _ => (lines, totalCount, true)
  | VisitEntry fd =>
      if Downloader.IsFolder (entity fd) then (lines, totalCount, true)
      else
        let item :=
          {| itemFileMd5 := FileMd5 fd;
             itemFileSize := Downloader.FileSize (entity fd);
             itemPath := Path fd;
             itemLastOpTime := LastOpTime fd |} in
        match Marshal item with
        | None => (lines, totalCount, false)
        | Some jstr =>
            (lines ++ [jstr +:+ String (Ascii.ascii_of_nat 10) EmptyString],
             Int64.add totalCount 1, true)
        end
  end.

Fixpoint exportListing (lines : list string) (totalCount : Z)
    (visits : list Visit) : list string * Z :=
  match visits with
  | [] => (lines, totalCount)
  | v :: rest =>
      let '(lines', totalCount', continue) := exportVisit lines totalCount v in
      if continue then exportListing lines' totalCount' rest
      else (lines', totalCount')
  end.

(** The loop of [RunExportFiles] over the paths: what is written to the
    file and the count that is printed. *)
Fixpoint exportAll (lines : list string) (totalCount : Z)
    (listings : list (list Visit)) : list string * Z :=
  match listings with
  | [] => (lines, totalCount)
  | visits :: rest =>
      let '(lines', totalCount') := exportListing lines totalCount visits in
      exportAll lines' totalCount' rest
  end.

End ExportFiles.

End Command.

(** ** internal/functions/pandownload: the unit as the executor runs it *)

Module DownloadRun.

(** The unit with the fields that [Run] reads beside those of [download]:
    whether [fileInfo] is set (it is nil before the first lookup), the root
    of the local tree, and the retry count and bound of its task info. *)
Record TaskUnit : Type := mkTaskUnit {
  dtu : Pandownload.DownloadTaskUnit;
  fileInfoSet : bool;
  OriginSaveRootPath : string;
  Retry : Z;
  MaxRetry : Z
}.

(** What the surroundings of one [Run] decide: the answer of
    [AppFileInfoByPath] (the code of the [ApiError], or the entry), the
    error of [os.Stat] on the save path, the list that
    [AppFilesDirectoriesRecurseList] returns (nil when it fails), and what
    [download] meets. *)
Record RunEnv : Type := mkRunEnv {
  AppFileInfoByPath : Z -> string -> Z + Command.FileEntry;
  statSavePath : option error;
  AppFilesDirectoriesRecurseList : Z -> string -> option (list Command.FileEntry);
  downloadEnv : Pandownload.DownloadEnv
}.

Definition setFileInfo (fe : Downloader.AppFileEntity)
    (u : Pandownload.DownloadTaskUnit) : Pandownload.DownloadTaskUnit :=
  {| Pandownload.Cfg := Pandownload.Cfg u;
     Pandownload.PanClient := Pandownload.PanClient u;
     Pandownload.IsExecutedPermission := Pandownload.IsExecutedPermission u;
     Pandownload.IsOverwrite := Pandownload.IsOverwrite u;
     Pandownload.NoCheck := Pandownload.NoCheck u;
     Pandownload.FilePanPath := Pandownload.FilePanPath u;
     Pandownload.SavePath := Pandownload.SavePath u;
     Pandownload.FamilyId := Pandownload.FamilyId u;
     Pandownload.fileInfo := fe |}.

Section Run.

Variable ApiCodeFileNotFoundCode : Z.
Variable MinParallelSize : Z.
Variable filepath_Dir : string -> string.
Variable filepath_Join : string -> string -> string.

(** The unit that [Run] appends to the queue of its parent for one file of
    a directory: a copy of the unit, with a copy of its configuration, for
    that file. *)
Definition subUnit (u : TaskUnit) (fe : Command.FileEntry)
  : Pandownload.DownloadTaskUnit :=
  {| Pandownload.Cfg := Pandownload.Cfg (dtu u);
     Pandownload.PanClient := Pandownload.PanClient (dtu u);
     Pandownload.IsExecutedPermission := Pandownload.IsExecutedPermission (dtu u);
     Pandownload.IsOverwrite := Pandownload.IsOverwrite (dtu u);
     Pandownload.NoCheck := Pandownload.NoCheck (dtu u);
     Pandownload.FilePanPath := Command.Path fe;
     Pandownload.SavePath := filepath_Join (OriginSaveRootPath u) (Command.Path fe);
     Pandownload.FamilyId := Pandownload.FamilyId (dtu u);
     Pandownload.fileInfo := Command.entity fe |}.

(** The loop of [Run] over the list of a directory: the calls of
    [ParentTaskExecutor.Append], each with the unit and the retry bound. *)
Fixpoint appendFiles (u : TaskUnit) (fileList : list Command.FileEntry)
    (appended : list (Pandownload.DownloadTaskUnit * Z))
  : list (Pandownload.DownloadTaskUnit * Z) :=
  match fileList with
  | [] => appended
  | fe :: rest =>
      if Downloader.IsFolder (Command.entity fe) then appendFiles u rest appended
      else appendFiles u rest (appended ++ [(subUnit u fe, MaxRetry u)])
  end.

Record RunOutcome : Type := mkRunOutcome {
  result : Pandownload.TaskUnitRunResult;
  files : FileSystem;
  unit' : TaskUnit;
  appended : list (Pandownload.DownloadTaskUnit * Z)
}.

Definition withUnit (d : Pandownload.DownloadTaskUnit) (set : bool) (u : TaskUnit)
  : TaskUnit :=
  {| dtu := d; fileInfoSet := set; OriginSaveRootPath := OriginSaveRootPath u;
     Retry := Retry u; MaxRetry := MaxRetry u |}.

(** [Run].  The directories that it creates are not part of the files that
    are modelled.  After a look-up that fails, [fileInfo] is what the remote
    call returned beside its error, taken as nil.  [None] is a run-time
    panic of the engine. *)
Definition Run (env : RunEnv) (u : TaskUnit) (fs : FileSystem) : option RunOutcome :=
  let result0 := Pandownload.emptyResult in
  let lookup :=
    if negb (fileInfoSet u) || (0 <? Retry u) then
      match AppFileInfoByPath env (Pandownload.FamilyId (dtu u))
              (Pandownload.FilePanPath (dtu u)) with
      | inl code => inl code
      | inr fe => inr (withUnit (setFileInfo (Command.entity fe) (dtu u)) true u)
      end
    else inr u in
  match lookup with
  | inl code =>
      Some (mkRunOutcome
              (Pandownload.handleError ApiCodeFileNotFoundCode
                 (Pandownload.setFailure "获取下载路径信息错误" (ApiError code) result0))
              fs (withUnit (dtu u) false u) [])
  | inr u1 =>
      if Downloader.IsFolder (Pandownload.fileInfo (dtu u1)) then
        match AppFilesDirectoriesRecurseList env (Pandownload.FamilyId (dtu u1))
                (Pandownload.FilePanPath (dtu u1)) with
        | None =>
            Some (mkRunOutcome
                    {| Pandownload.Succeed := false; Pandownload.NeedRetry := true;
                       Pandownload.Err := statSavePath env;
                       Pandownload.ResultMessage := "获取目录信息错误" |}
                    fs u1 [])
        | Some fileList =>
            Some (mkRunOutcome (Pandownload.setSucceed result0) fs u1
                    (appendFiles u1 fileList []))
        end
      else
        match Pandownload.runDownload ApiCodeFileNotFoundCode MinParallelSize
                filepath_Dir (downloadEnv env) (dtu u1) fs with
        | None => None
        | Some (r, fs1, d1) => Some (mkRunOutcome r fs1 (withUnit d1 true u1) [])
        end
  end.

End Run.

End DownloadRun.

(** * Vocabulary of the statements and sample inputs *)

Definition MiB : Z := 1048576.

(** The configuration of the example: BlockSize mode, at most 3 workers,
    blocks of 4 MiB. *)
Definition cfg_4MiB_3 : Downloader.Config :=
  Downloader.mkConfig Transfer.RangeGenMode_BlockSize 3 0 (4 * MiB) 0 false "".

Definition isPathError (e : error) : Prop := exists op path, e = PathError op path.

(** [n] calls of [SequentialGet] in a row. *)
Fixpoint sequentialGets (n : nat) (l : Downloader.LoadBalancerResponseList)
  : list (option Downloader.LoadBalancerResponse)
    * Downloader.LoadBalancerResponseList :=
  match n with
  | O => ([], l)
  | S n' =>
      let '(x, l1) := Downloader.SequentialGet l in
      let '(xs, l2) := sequentialGets n' l1 in
      (x :: xs, l2)
  end.

(** The probe of mirror [m] met every condition and [x] is the entry made
    from its response. *)
Definition accepted (cfg : Downloader.Config) (fileSize : Z)
    (client : string -> Downloader.ReqResult) (m : string)
    (x : Downloader.LoadBalancerResponse) : Prop :=
  exists resp u,
    client m = Downloader.ReqOk resp
    /\ Z.quot (Downloader.StatusCode resp) 100 <> 4
    /\ Z.quot (Downloader.StatusCode resp) 100 <> 5
    /\ Downloader.ContentLength resp = fileSize
    /\ Downloader.Request resp = Some u
    /\ x = Downloader.mkLoadBalancerResponse
             (Downloader.URL_String
                (if Downloader.TryHTTP cfg
                 then Downloader.mkURL "http" (Downloader.Opaque u) else u)).

(** What holds of [upload] at every step: it returns only when no goroutine
    is left, [uperr] is set only together with the cancellation, and
    [CommitFile] has been called only in a returned state with every part
    done and the queue empty. *)
Definition uploadInv (s : Uploader.State) : Prop :=
  (forall r, Uploader.pc s = Uploader.Returned r -> Uploader.running s = [])
  /\ (Uploader.canceled s = false -> Uploader.uperr s = None)
  /\ (In Uploader.CallCommitFile (Uploader.calls s) ->
      (exists r, Uploader.pc s = Uploader.Returned r)
      /\ forallb Uploader.uploadDone (Uploader.workers s) = true
      /\ Uploader.uploadDeque s = []).

(** A remote service that resolves every request to the same URL. *)
Definition samplePan : Downloader.PanClient :=
  Downloader.mkPanClient
    (fun _ _ => ("https://download.cloud.189.cn/file/1", None))
    (fun _ _ _ => ("https://download.cloud.189.cn/family/1", None)).

(** The unit that downloads a file of [size] bytes to "/d/f". *)
Definition sampleUnit (size : Z) : Pandownload.DownloadTaskUnit :=
  Pandownload.mkDownloadTaskUnit cfg_4MiB_3 samplePan false false false
    "/cloud/f" "/d/f" 0 (Downloader.mkAppFileEntity "file-1" size false).

(** No mirror answers, no state is saved, and the monitor stops with
    [merr], the output file being [size] bytes long. *)
Definition sampleExecEnv (merr : option error) (size : Z) : Downloader.ExecEnv :=
  Downloader.mkExecEnv (fun _ => Downloader.ReqErr None (ErrorString "timeout"))
    [] false None (fun _ _ => (merr, size)).

Definition sampleEnv (openErr merr : option error) (size : Z)
    (removeErr : option error) : Pandownload.DownloadEnv :=
  Pandownload.mkDownloadEnv Pandownload.StatIsDir None openErr
    (sampleExecEnv merr size) None removeErr None.

Definition sampleDownloader : Downloader.DownloaderT :=
  Pandownload.newDownloader
    (Pandownload.setInstanceStatePath "/d/f.cloudpan189-downloading"
       (sampleUnit (10 * MiB))).

(** Three mirrors: the first answers 404, the second answers 200 with the
    right length, the third does not answer. *)
Definition sampleNet (url : string) : Downloader.ReqResult :=
  if String.eqb url "https://m1.example/f" then
    Downloader.ReqOk
      (Downloader.mkResponse 200 "200 OK" (10 * MiB)
         (Some (Downloader.mkURL "https" "m1.example/f")))
  else if String.eqb url "https://m2.example/f" then
    Downloader.ReqOk
      (Downloader.mkResponse 404 "404 Not Found" (10 * MiB)
         (Some (Downloader.mkURL "https" "m2.example/f")))
  else Downloader.ReqErr None (ErrorString "timeout").

Definition sampleMirrors : list string :=
  ["https://m2.example/f"; "https://m1.example/f"; "https://m3.example/f"].

(** A validation that always answers [err]. *)
Definition checkAnswers (err : error) (filePath : string)
    (fileInfo : Downloader.AppFileEntity) : option error := Some err.

(** Two parts of four bytes each, none uploaded yet. *)
Definition sampleWorkers : Uploader.workerList :=
  [Uploader.mkworker 1 0 (Uploader.mkSplitUnit (Transfer.mkRange 0 4) 0) false;
   Uploader.mkworker 2 4 (Uploader.mkSplitUnit (Transfer.mkRange 4 8) 0) false].

(** Both parts are uploaded, the second one first. *)
Definition scheduleAllDone : list Uploader.Step :=
  [Uploader.MainShift; Uploader.MainShift;
   Uploader.WorkerDone 1 (Uploader.mkUploadOutcome true None 4);
   Uploader.WorkerDone 0 (Uploader.mkUploadOutcome true None 4);
   Uploader.MainShift; Uploader.MainWait None].

(** The first part fails once and is queued again; on its second attempt
    [UploadFile] answers "not done" without an error. *)
Definition scheduleNotDone : list Uploader.Step :=
  [Uploader.MainShift; Uploader.MainShift;
   Uploader.WorkerDone 0
     (Uploader.mkUploadOutcome false
        (Some (Uploader.OtherError (ErrorString "connection reset"))) 2);
   Uploader.WorkerDone 1 (Uploader.mkUploadOutcome true None 4);
   Uploader.MainShift;
   Uploader.WorkerDone 0 (Uploader.mkUploadOutcome false None 4);
   Uploader.MainShift].

(** Whether a visit brings a file, the only visits that the commands count
    and export. *)
Definition isFileVisit (v : Command.Visit) : bool :=
  match v with
  | Command.VisitError _ => false
  | Command.VisitEntry fd => negb (Downloader.IsFolder (Command.entity fd))
  end.

(** The number of files in the listings of several paths. *)
Definition fileCount (listings : list (list Command.Visit)) : Z :=
  Z.of_nat (length (filter (fun v => isFileVisit v = true) (concat listings))).


(** A remote directory "/cloud/dir" with a file, a folder and a second
    file; the look-up of a path is not needed for it. *)
Definition sampleListing : list Command.FileEntry :=
  [Command.mkFileEntry (Downloader.mkAppFileEntity "file-1" 10 false)
     "/cloud/dir/a" "md5-a" "2020-01-01";
   Command.mkFileEntry (Downloader.mkAppFileEntity "dir-2" 0 true)
     "/cloud/dir/sub" "" "2020-01-02";
   Command.mkFileEntry (Downloader.mkAppFileEntity "file-3" 20 false)
     "/cloud/dir/sub/b" "md5-b" "2020-01-03"].

Definition sampleRunEnv : DownloadRun.RunEnv :=
  DownloadRun.mkRunEnv (fun _ _ => inl 500) None (fun _ _ => Some sampleListing)
    (sampleEnv None None 0 None).

(** The unit of the directory "/cloud/dir", its file information set. *)
Definition sampleDirUnit : DownloadRun.TaskUnit :=
  DownloadRun.mkTaskUnit
    (Pandownload.mkDownloadTaskUnit cfg_4MiB_3 samplePan false false false
       "/cloud/dir" "/d/dir" 0 (Downloader.mkAppFileEntity "dir-1" 0 true))
    true "/d" 0 3.

(** The call of [UploadFile] for a part. *)
Definition uploadCall (wer : Uploader.worker) : Uploader.Call :=
  Uploader.CallUploadFile (Uploader.id wer) (Uploader.partOffset wer)
    (Transfer.End (Uploader.suRange (Uploader.splitUnit wer))).

(** The schedule without concurrency and without failures: each part of
    the queue is started and its [UploadFile] answers "done" after reading
    [n] bytes before the next part is taken; then the queue is found empty,
    [wg.Wait()] returns and [CommitFile] answers [commit]. *)
Definition sequentialSchedule (ws : Uploader.workerList) (n : Z)
    (commit : option error) : list Uploader.Step :=
  flat_map
    (fun i => [Uploader.MainShift;
               Uploader.WorkerDone i (Uploader.mkUploadOutcome true None n)])
    (Uploader.notDone 0 ws)
  ++ [Uploader.MainShift; Uploader.MainWait commit].

(** What holds of [upload] once the job is cancelled before it returns. *)
Definition canceledInv (s : Uploader.State) : Prop :=
  Uploader.canceled s = true
  /\ ~ In Uploader.CallCommitFile (Uploader.calls s)
  /\ forall r, Uploader.pc s = Uploader.Returned r ->
       Uploader.running s = []
       /\ r = Some (default ContextCanceled (Uploader.uperr s)).

(** What ties a state of [upload] to the parts [ws] it was started with:
    the parts keep their number, id, offset and range; only parts that were
    not done at the start are queued or running; and every [UploadFile]
    that was called is the call of such a part. *)
Definition partsInv (ws : Uploader.workerList) (s : Uploader.State) : Prop :=
  (forall i wer, Uploader.workers s !! i = Some wer ->
     exists wer0, ws !! i = Some wer0 /\ uploadCall wer = uploadCall wer0)
  /\ (forall i, In i (Uploader.uploadDeque s ++ Uploader.running s) ->
        exists wer0, ws !! i = Some wer0 /\ Uploader.uploadDone wer0 = false)
  /\ (forall part offset last,
        In (Uploader.CallUploadFile part offset last) (Uploader.calls s) ->
        exists wer0, In wer0 ws /\ Uploader.uploadDone wer0 = false
                     /\ uploadCall wer0 = Uploader.CallUploadFile part offset last).

(** The listings of two paths: the first lists a file, an entry that
    fails and a folder, the second lists two files. *)
Definition sampleVisits : list (list Command.Visit) :=
  [[Command.VisitEntry
      (Command.mkFileEntry (Downloader.mkAppFileEntity "file-1" 10 false)
         "/cloud/dir/a" "md5-a" "2020-01-01");
    Command.VisitError (ApiError 500);
    Command.VisitEntry
      (Command.mkFileEntry (Downloader.mkAppFileEntity "dir-2" 0 true)
         "/cloud/dir/sub" "" "2020-01-02")];
   [Command.VisitEntry
      (Command.mkFileEntry (Downloader.mkAppFileEntity "file-3" 20 false)
         "/cloud/other/b" "md5-b" "2020-01-03");
    Command.VisitEntry
      (Command.mkFileEntry (Downloader.mkAppFileEntity "file-4" 30 false)
         "/cloud/other/c" "md5-c" "2020-01-04")]].

(** Options that ask for two files at a time and eight connections. *)
Definition sampleOptions : Command.DownloadOptions :=
  Command.mkDownloadOptions false true false "/d" 8 2 3 false true 0.

Definition sampleAppConfig : Command.AppConfig :=
  Command.mkAppConfig 5 0 0 4.

Definition sampleRelease : Panupdate.ReleaseInfo :=
  Panupdate.mkReleaseInfo "v0.1.0" [].

(** The tickstep server never answers; GitHub answers at the second
    request. *)
Definition sampleTickstep (i : nat) : Panupdate.Answer := Panupdate.RequestFails.

Definition sampleGithub (i : nat) : Panupdate.Answer :=
  match i with
  | O => Panupdate.BadJSON
  | S _ => Panupdate.Decoded 0 sampleRelease
  end.

(** A remote service that knows "/cloud/a" only. *)
Definition sampleLookup (idx : nat) (familyId : Z) (p : string)
  : error + Command.FileEntry :=
  if String.eqb p "/cloud/a"
  then inr (Command.mkFileEntry (Downloader.mkAppFileEntity "file-1" 10 false)
              "/cloud/a" "md5-a" "2020-01-01")
  else inl (ApiError 404).

(** * Properties *)

(** ** Integers *)

Lemma wrap_in_range (z : Z) : Int64.in_range z -> Int64.wrap z = z.
Proof.
  unfold Int64.in_range, Int64.min_int64, Int64.max_int64, Int64.wrap.
  intros Hz. rewrite Z.mod_small; lia.
Qed.

Lemma quot_in_range (a b : Z) :
  0 <= a <= Int64.max_int64 -> 1 <= b ->
  Int64.quot a b = Some (a / b) /\ 0 <= a / b <= a.
Proof.
  intros Ha Hb. unfold Int64.quot.
  destruct (Z.eqb_spec b 0) as [->|_]; [lia|].
  rewrite Z.quot_div_nonneg by lia.
  assert (0 <= a / b <= a) as Hq.
  { split; [apply Z.div_pos; lia|]. apply Z.div_le_upper_bound; nia. }
  split; [|exact Hq]. f_equal. apply wrap_in_range.
  unfold Int64.in_range, Int64.min_int64, Int64.max_int64 in *. lia.
Qed.

(** ** The plan of a download *)

(** C2, as the code has it: in BlockSize mode, for a download that is not
    single-threaded ([single = false]), a status without a generator, a
    total size above 0, a parallelism of at least 1, and as long as
    [totalSize / parallel + 1] is an [int64],
    [SelectBlockSizeAndInitRangeGen] returns the lesser of the configured
    block size and [totalSize / parallel + 1], without an error, and leaves
    the BlockSize generator of that size in the status. *)
Theorem SelectBlockSize_BlockSize_mode
    (cfg : Downloader.Config) (status : Transfer.DownloadStatus) (parallel : Z) :
  Downloader.Mode cfg = Transfer.RangeGenMode_BlockSize ->
  Transfer.rangeListGen status = None ->
  0 < Transfer.totalSize status <= Int64.max_int64 ->
  1 <= parallel ->
  Transfer.totalSize status / parallel < Int64.max_int64 ->
  let blockSize :=
    Z.min (Downloader.BlockSize cfg) (Transfer.totalSize status / parallel + 1) in
  Downloader.SelectBlockSizeAndInitRangeGen cfg false status parallel
  = Some (blockSize, None,
          Transfer.SetRangeListGen status
            (Some (Transfer.NewRangeListGenBlockSize
                     (Transfer.totalSize status) 0 blockSize))).
Proof.
  intros Hmode Hgen Ht Hp Hq blockSize.
  unfold Downloader.SelectBlockSizeAndInitRangeGen.
  rewrite Hgen, Hmode.
  destruct (quot_in_range (Transfer.totalSize status) parallel) as [-> Hb]; [lia|lia|].
  unfold Int64.add. rewrite wrap_in_range.
  2:{ unfold Int64.in_range, Int64.min_int64, Int64.max_int64 in *. lia. }
  assert ((if Downloader.BlockSize cfg <? Transfer.totalSize status / parallel + 1
           then Downloader.BlockSize cfg
           else Transfer.totalSize status / parallel + 1) = blockSize) as ->.
  { subst blockSize. destruct (Z.ltb_spec (Downloader.BlockSize cfg)
      (Transfer.totalSize status / parallel + 1)); lia. }
  reflexivity.
Qed.

Lemma SelectBlockSize_BlockSize_mode_witness :
  Downloader.SelectBlockSizeAndInitRangeGen cfg_4MiB_3 false
    (Transfer.mkDownloadStatus (10 * MiB) None) 3
  = Some (3495254, None,
          Transfer.mkDownloadStatus (10 * MiB)
            (Some (Transfer.NewRangeListGenBlockSize (10 * MiB) 0 3495254))).
Proof.
  apply (SelectBlockSize_BlockSize_mode cfg_4MiB_3
           (Transfer.mkDownloadStatus (10 * MiB) None) 3).
  - reflexivity.
  - reflexivity.
  - vm_compute. split; [reflexivity | discriminate].
  - lia.
  - vm_compute. reflexivity.
Defined.

(** C2, as it is written, fails on two inputs that meet its conditions:
    with [single = true] the function returns -1 whatever the mode, and
    with a total size of 2^63 - 1 and a parallelism of 1 the sum
    [totalSize / parallel + 1] wraps around to -2^63, which is then the
    block size. *)
Lemma SelectBlockSize_single_or_wrapped :
  (Downloader.SelectBlockSizeAndInitRangeGen cfg_4MiB_3 true
     (Transfer.mkDownloadStatus (10 * MiB) None) 3
   = Some (-1, None, Transfer.mkDownloadStatus (10 * MiB) None)
   /\ Z.min (Downloader.BlockSize cfg_4MiB_3) (10 * MiB / 3 + 1) = 3495254)
  /\
  (fst <$> (fst <$> Downloader.SelectBlockSizeAndInitRangeGen cfg_4MiB_3 false
                      (Transfer.mkDownloadStatus Int64.max_int64 None) 1)
   = Some Int64.min_int64
   /\ Z.min (Downloader.BlockSize cfg_4MiB_3) (Int64.max_int64 / 1 + 1) = 4 * MiB).
Proof. vm_compute. repeat split; reflexivity. Qed.

(** C3, as the code has it: for a file of 10 MiB, a configured block size
    of 4 MiB and a parallelism of 3, the block size is
    min(4 MiB, 10 MiB / 3 + 1) = 3495254 and the plan is the three ranges
    [0, 3495254), [3495254, 6990508), [6990508, 10485760). *)
Theorem plan_10MiB_block_4MiB_parallel_3 :
  Downloader.freshPlan cfg_4MiB_3 (10 * MiB) 3
  = Some (inr (3495254,
               [Transfer.mkRange 0 3495254; Transfer.mkRange 3495254 6990508;
                Transfer.mkRange 6990508 (10 * MiB)])).
Proof. vm_compute. reflexivity. Qed.

(** C3, as it is written, fails: the plan is not made of blocks of 4 MiB. *)
Lemma plan_10MiB_is_not_4MiB_blocks :
  match Downloader.freshPlan cfg_4MiB_3 (10 * MiB) 3 with
  | Some (inr (_, ranges)) => Some ranges
  | _ => None
  end
  <> Some [Transfer.mkRange 0 (4 * MiB); Transfer.mkRange (4 * MiB) (8 * MiB);
           Transfer.mkRange (8 * MiB) (10 * MiB)].
Proof. vm_compute. discriminate. Qed.

(** ** The download unit: classification of failures *)

Lemma handleError_sets_flag (ApiCodeFileNotFoundCode : Z)
    (result : Pandownload.TaskUnitRunResult) :
  exists b, Pandownload.handleError ApiCodeFileNotFoundCode result
            = Pandownload.setNeedRetry b result.
Proof.
  unfold Pandownload.handleError.
  destruct (Pandownload.Err result) as [[code| | | | | | | | | |]|]; eauto.
  destruct (code =? ApiCodeFileNotFoundCode); eauto.
Qed.

(** C4: [handleError] sets [NeedRetry] to false for an [ApiError] whose code
    is the "file not found" code and for an [*os.PathError], and to true
    for every other error value (the nil error included); it changes
    nothing else of the result. *)
Theorem handleError_classifies (ApiCodeFileNotFoundCode : Z)
    (result : Pandownload.TaskUnitRunResult) :
  let result' := Pandownload.handleError ApiCodeFileNotFoundCode result in
  (Pandownload.Err result = Some (ApiError ApiCodeFileNotFoundCode) ->
   Pandownload.NeedRetry result' = false)
  /\ (forall e, Pandownload.Err result = Some e -> isPathError e ->
      Pandownload.NeedRetry result' = false)
  /\ (forall e, Pandownload.Err result = Some e ->
      e <> ApiError ApiCodeFileNotFoundCode -> ~ isPathError e ->
      Pandownload.NeedRetry result' = true)
  /\ (Pandownload.Err result = None -> Pandownload.NeedRetry result' = true)
  /\ Pandownload.Succeed result' = Pandownload.Succeed result
  /\ Pandownload.Err result' = Pandownload.Err result
  /\ Pandownload.ResultMessage result' = Pandownload.ResultMessage result.
Proof.
  cbn zeta. repeat split.
  - intros H. unfold Pandownload.handleError. rewrite H.
    now rewrite Z.eqb_refl.
  - intros e H (op & path & ->). unfold Pandownload.handleError.
    now rewrite H.
  - intros e H Hne Hnp. unfold Pandownload.handleError. rewrite H.
    destruct e as [code|op path| | | | | | | | |]; try reflexivity.
    + destruct (Z.eqb_spec code ApiCodeFileNotFoundCode) as [->|_];
        [congruence | reflexivity].
    + exfalso. apply Hnp. now exists op, path.
  - intros H. unfold Pandownload.handleError. now rewrite H.
  - now destruct (handleError_sets_flag ApiCodeFileNotFoundCode result) as [b ->].
  - now destruct (handleError_sets_flag ApiCodeFileNotFoundCode result) as [b ->].
  - now destruct (handleError_sets_flag ApiCodeFileNotFoundCode result) as [b ->].
Qed.

Lemma handleError_classifies_witness :
  let result (e : error) :=
    Pandownload.setFailure Pandownload.StrDownloadFailed e Pandownload.emptyResult in
  Pandownload.NeedRetry (Pandownload.handleError 12 (result (ApiError 12))) = false
  /\ Pandownload.NeedRetry
       (Pandownload.handleError 12 (result (PathError "open" "/d/f"))) = false
  /\ Pandownload.NeedRetry (Pandownload.handleError 12 (result (ApiError 500))) = true
  /\ Pandownload.NeedRetry (Pandownload.handleError 12 (result ErrNoWokers)) = true.
Proof.
  intros result. split; [|split; [|split]].
  - exact (proj1 (handleError_classifies 12 (result (ApiError 12))) eq_refl).
  - apply (proj1 (proj2 (handleError_classifies 12
                           (result (PathError "open" "/d/f"))))
             (PathError "open" "/d/f")); [reflexivity|].
    exists "open", "/d/f". reflexivity.
  - apply (proj1 (proj2 (proj2 (handleError_classifies 12 (result (ApiError 500)))))
             (ApiError 500)); [reflexivity | discriminate |].
    intros (op & path & H). discriminate H.
  - apply (proj1 (proj2 (proj2 (handleError_classifies 12 (result ErrNoWokers))))
             ErrNoWokers); [reflexivity | discriminate |].
    intros (op & path & H). discriminate H.
Defined.

(** C9: [CheckFileValid] returns nil for every path and every file entity;
    hence [checkFileValid], when the check is not switched off, answers
    [true] and leaves the unit and the result as they are. *)
Theorem CheckFileValid_always_nil :
  (forall (filePath : string) (fileInfo : Downloader.AppFileEntity),
     Pandownload.CheckFileValid filePath fileInfo = None)
  /\ (forall dtu result,
        Pandownload.checkFileValid dtu result
        = if Pandownload.NoCheck dtu then (false, dtu, result)
          else (true, dtu, result)).
Proof.
  split; [reflexivity|].
  intros dtu result.
  unfold Pandownload.checkFileValid, Pandownload.checkFileValidWith.
  now destruct (Pandownload.NoCheck dtu).
Qed.

(** C8: when the validation is run ([NoCheck] is off) and answers
    [ErrDownloadChecksumFailed], [checkFileValid] answers [false], sets
    [NeedRetry] to true and [IsOverwrite] to true; when it answers
    [ErrDownloadFileBanned], [checkFileValid] answers [false] and sets
    [NeedRetry] to false, leaving [IsOverwrite] as it was.  In both cases
    the error is recorded in the result. *)
Theorem checkFileValid_on_failure
    (check : string -> Downloader.AppFileEntity -> option error)
    (dtu : Pandownload.DownloadTaskUnit)
    (result : Pandownload.TaskUnitRunResult) (err : error) :
  Pandownload.NoCheck dtu = false ->
  check (Pandownload.SavePath dtu) (Pandownload.fileInfo dtu) = Some err ->
  let '(ok, dtu', result') := Pandownload.checkFileValidWith check dtu result in
  (err = ErrDownloadChecksumFailed ->
   ok = false /\ Pandownload.NeedRetry result' = true
   /\ Pandownload.IsOverwrite dtu' = true
   /\ Pandownload.Err result' = Some ErrDownloadChecksumFailed)
  /\ (err = ErrDownloadFileBanned ->
      ok = false /\ Pandownload.NeedRetry result' = false
      /\ Pandownload.IsOverwrite dtu' = Pandownload.IsOverwrite dtu
      /\ Pandownload.Err result' = Some ErrDownloadFileBanned).
Proof.
  intros Hno Hcheck. unfold Pandownload.checkFileValidWith.
  rewrite Hno, Hcheck.
  destruct err; cbn; (split; [intros Heq | intros Heq]);
    try discriminate Heq; repeat split.
Qed.

Lemma checkFileValid_on_failure_witness :
  (let '(ok, dtu', result') :=
     Pandownload.checkFileValidWith (checkAnswers ErrDownloadChecksumFailed)
       (sampleUnit (10 * MiB)) Pandownload.emptyResult in
   ok = false /\ Pandownload.NeedRetry result' = true
   /\ Pandownload.IsOverwrite dtu' = true
   /\ Pandownload.Err result' = Some ErrDownloadChecksumFailed)
  /\ (let '(ok, dtu', result') :=
        Pandownload.checkFileValidWith (checkAnswers ErrDownloadFileBanned)
          (sampleUnit (10 * MiB))
          (Pandownload.setNeedRetry true Pandownload.emptyResult) in
      ok = false /\ Pandownload.NeedRetry result' = false
      /\ Pandownload.IsOverwrite dtu' = false
      /\ Pandownload.Err result' = Some ErrDownloadFileBanned).
Proof.
  split.
  - pose proof (checkFileValid_on_failure (checkAnswers ErrDownloadChecksumFailed)
                  (sampleUnit (10 * MiB)) Pandownload.emptyResult
                  ErrDownloadChecksumFailed eq_refl eq_refl) as H.
    destruct (Pandownload.checkFileValidWith _ _ _) as [[ok dtu'] result'].
    exact (proj1 H eq_refl).
  - pose proof (checkFileValid_on_failure (checkAnswers ErrDownloadFileBanned)
                  (sampleUnit (10 * MiB))
                  (Pandownload.setNeedRetry true Pandownload.emptyResult)
                  ErrDownloadFileBanned eq_refl eq_refl) as H.
    destruct (Pandownload.checkFileValidWith _ _ _) as [[ok dtu'] result'].
    exact (proj2 H eq_refl).
Defined.

(** ** The download unit: the end of a transfer *)

Lemma planRanges_error (cfg : Downloader.Config) (single : bool) (fileSize : Z)
    (status : Transfer.DownloadStatus) (parallel : Z) (ranges : Transfer.RangeList)
    (e : error) :
  Downloader.planRanges cfg single fileSize status parallel ranges = Some (inl e) ->
  e = ErrUnknownRangeGenMode.
Proof.
  unfold Downloader.planRanges, Downloader.SelectBlockSizeAndInitRangeGen.
  intros H. repeat case_match; simplify_eq; reflexivity.
Qed.

(** What [Execute] returns is what the monitor reported, unless the state
    file could not be opened or the mode is unknown. *)
Lemma Execute_result (MinParallelSize : Z) (env : Downloader.ExecEnv)
    (der : Downloader.DownloaderT) (fs : FileSystem) (res : Downloader.ExecResult) :
  Downloader.Execute MinParallelSize env der fs = Some res ->
  (exists path, Downloader.execErr res = Some (PathError "open" path)
                /\ Downloader.execFs res = fs)
  \/ Downloader.execErr res = Some ErrUnknownRangeGenMode
  \/ exists fs2,
       (Downloader.execErr res, Downloader.execFs res,
        tail (Downloader.execEvents res))
       = Downloader.finishExecute der (Downloader.execErr res) fs2.
Proof.
  unfold Downloader.Execute, Downloader.initInstanceState. intros H.
  destruct (Downloader.checkLoadBalancers _ _ _ _ _) as [lbl|]; [|discriminate].
  destruct (Downloader.instanceStateOpenFails env).
  { simplify_eq. left. eauto. }
  destruct (fs !! Downloader.InstanceStatePath (Downloader.config der));
    cbv beta iota zeta in H.
  all: match type of H with
  | context [Downloader.planRanges ?a ?b ?c ?d ?e ?f] =>
      destruct (Downloader.planRanges a b c d e f) as [[e0|[[[bs cs] rs] st2]]|] eqn:Hplan
  end.
  all: try (apply planRanges_error in Hplan as ->; right; left;
            repeat case_match; simplify_eq; reflexivity).
  all: try discriminate H.
  all: right; right;
    repeat case_match; simplify_eq; cbn;
    match goal with
    | Hf : Downloader.finishExecute _ ?m ?fs2 = (?err, _, _) |- _ =>
        exists fs2; rewrite <- Hf;
        assert (err = m) as ->
          by (unfold Downloader.finishExecute in Hf;
              repeat case_match; simplify_eq; reflexivity);
        reflexivity
    end.
Qed.

Lemma SelectParallel_positive (MinParallelSize : Z) (cfg : Downloader.Config)
    (single : bool) (maxParallel totalSize : Z) (ranges : Transfer.RangeList) :
  1 <= Downloader.SelectParallel MinParallelSize cfg single maxParallel totalSize ranges.
Proof.
  unfold Downloader.SelectParallel.
  match goal with |- 1 <= (if ?p <? 1 then _ else _) => destruct (Z.ltb_spec p 1) end;
    lia.
Qed.

Lemma probeAll_returns (cfg : Downloader.Config) (fileSize : Z)
    (client : string -> Downloader.ReqResult) (mirrors : list string)
    (order : list nat) :
  forall acc, is_Some (Downloader.probeAll cfg fileSize client mirrors order acc).
Proof.
  induction order as [|i rest IH]; intros acc; cbn; [eauto|].
  destruct (mirrors !! i) as [m|]; [|apply IH].
  unfold Downloader.probeOne, Downloader.DefaultDURLCheckFunc.
  destruct (client m) as [resp|resp e]; [|apply IH].
  repeat case_match; simplify_eq; apply IH.
Qed.

Lemma planRanges_returns (cfg : Downloader.Config) (fileSize : Z)
    (status : Transfer.DownloadStatus) (parallel : Z) (ranges : Transfer.RangeList) :
  1 <= parallel ->
  is_Some (Downloader.planRanges cfg false fileSize status parallel ranges).
Proof.
  intros Hp.
  unfold Downloader.planRanges, Downloader.SelectBlockSizeAndInitRangeGen,
    Downloader.assignRanges, Int64.quot.
  destruct (Z.eqb_spec parallel 0) as [|_]; [lia|].
  destruct (Z.ltb_spec parallel 0) as [|_]; [lia|].
  repeat case_match; simplify_eq; eauto.
Qed.

(** [Execute] always returns: none of the panics of its parts can happen. *)
Lemma Execute_returns (MinParallelSize : Z) (env : Downloader.ExecEnv)
    (der : Downloader.DownloaderT) (fs : FileSystem) :
  is_Some (Downloader.Execute MinParallelSize env der fs).
Proof.
  unfold Downloader.Execute, Downloader.checkLoadBalancers.
  destruct (probeAll_returns (Downloader.config der)
              (Downloader.FileSize (Downloader.fileInfo der))
              (Downloader.client env) (Downloader.loadBalansers der)
              (Downloader.probeOrder env) [Downloader.firstLoadBalancer])
    as [l ->].
  destruct (Downloader.initInstanceState env _ fs) as [[[e|] fs1] saved]; [eauto|].
  match goal with
  | |- context [Downloader.planRanges ?a ?b ?c ?d ?e ?f] =>
      destruct (planRanges_returns a c d e f) as [[e0|[[[bs cs] rs] st2]] ->];
        [apply SelectParallel_positive| eauto |]
  end.
  repeat case_match; eauto.
Qed.

(** [download] always returns. *)
Lemma download_returns (MinParallelSize : Z) (filepath_Dir : string -> string)
    (env : Pandownload.DownloadEnv) (dtu : Pandownload.DownloadTaskUnit)
    (fs : FileSystem) :
  is_Some (Pandownload.download MinParallelSize filepath_Dir env dtu fs).
Proof.
  unfold Pandownload.download.
  destruct (Pandownload.openDestination _ _ _ _) as [e|fs1]; [eauto|].
  destruct (Execute_returns MinParallelSize (Pandownload.execEnv env)
              (Pandownload.newDownloader
                 (Pandownload.setInstanceStatePath
                    (Pandownload.SavePath dtu +:+ Pandownload.DownloadSuffix) dtu))
              fs1) as [res ->].
  destruct (Pandownload.finishDownload _ _ _ _). eauto.
Qed.

(** C5: when the engine reports [ErrNoWokers], a file of size 0 is a
    success: [Execute] triggers the success event, [download] returns nil
    and no state file is left; for a file of any other size [download]
    returns the error. *)
Theorem download_zero_workers (MinParallelSize : Z)
    (filepath_Dir : string -> string) (env : Pandownload.DownloadEnv)
    (dtu : Pandownload.DownloadTaskUnit) (fs fs1 : FileSystem)
    (res : Downloader.ExecResult) :
  let statePath := Pandownload.SavePath dtu +:+ Pandownload.DownloadSuffix in
  let dtu1 := Pandownload.setInstanceStatePath statePath dtu in
  Pandownload.openDestination filepath_Dir env dtu1 fs = inr fs1 ->
  Downloader.Execute MinParallelSize (Pandownload.execEnv env)
    (Pandownload.newDownloader dtu1) fs1 = Some res ->
  Downloader.execErr res = Some ErrNoWokers ->
  (Downloader.FileSize (Pandownload.fileInfo dtu) = 0 ->
   exists fs',
     Pandownload.download MinParallelSize filepath_Dir env dtu fs
     = Some (None, fs', dtu1)
     /\ fs' !! statePath = None
     /\ In Downloader.OnSuccess (Downloader.execEvents res))
  /\ (Downloader.FileSize (Pandownload.fileInfo dtu) <> 0 ->
      exists fs',
        Pandownload.download MinParallelSize filepath_Dir env dtu fs
        = Some (Some ErrNoWokers, fs', dtu1)).
Proof.
  intros statePath dtu1 Hopen Hexec Herr.
  unfold Pandownload.download. cbv zeta.
  change (Pandownload.setInstanceStatePath
            (Pandownload.SavePath dtu +:+ Pandownload.DownloadSuffix) dtu)
    with dtu1.
  rewrite Hopen. cbv beta iota. rewrite Hexec. cbv beta iota.
  unfold Pandownload.finishDownload. rewrite Herr.
  rewrite bool_decide_eq_true_2 by reflexivity. cbn [andb].
  change (Pandownload.fileInfo dtu1) with (Pandownload.fileInfo dtu).
  split.
  - intros Hsize. rewrite Hsize. cbn. eexists. split; [reflexivity|].
    destruct (Execute_result _ _ _ _ _ Hexec) as [(path & He & _)|[He|(fs2 & Hfin)]];
      [congruence | congruence |].
    rewrite Herr in Hfin. unfold Downloader.finishExecute in Hfin.
    rewrite bool_decide_eq_true_2 in Hfin by reflexivity.
    change (Downloader.FileSize (Downloader.fileInfo (Pandownload.newDownloader dtu1)))
      with (Downloader.FileSize (Pandownload.fileInfo dtu)) in Hfin.
    rewrite Hsize in Hfin. cbn in Hfin.
    injection Hfin as Hfs Hev. split.
    + rewrite Hfs. unfold Downloader.removeInstanceState. apply lookup_delete_eq.
    + destruct (Downloader.execEvents res) as [|ev evs]; cbn in Hev; [discriminate|].
      subst evs. right. left. reflexivity.
  - intros Hsize.
    destruct (Z.eqb_spec (Downloader.FileSize (Pandownload.fileInfo dtu)) 0) as [?|_];
      [contradiction|].
    repeat case_match; simplify_eq; eauto.
Qed.

(** C10, as the code has it.  An error met before the engine runs (the
    directory, or the opening of the destination) is returned with the
    files untouched.  When the engine fails, and this is not the success of
    a file of size 0, the error is returned after this: if [file.Stat]
    succeeds and reports size 0, [os.Remove] is called on the destination,
    which is gone when the removal succeeds and stays when it fails; a
    destination of any other size, or one that cannot be inspected, is left
    as it is. *)
Theorem download_error_and_empty_file (MinParallelSize : Z)
    (filepath_Dir : string -> string) (env : Pandownload.DownloadEnv)
    (dtu : Pandownload.DownloadTaskUnit) (fs : FileSystem) :
  let dtu1 :=
    Pandownload.setInstanceStatePath
      (Pandownload.SavePath dtu +:+ Pandownload.DownloadSuffix) dtu in
  (forall e,
     Pandownload.openDestination filepath_Dir env dtu1 fs = inl e ->
     Pandownload.download MinParallelSize filepath_Dir env dtu fs
     = Some (Some e, fs, dtu1))
  /\ (forall fs1 res e,
        Pandownload.openDestination filepath_Dir env dtu1 fs = inr fs1 ->
        Downloader.Execute MinParallelSize (Pandownload.execEnv env)
          (Pandownload.newDownloader dtu1) fs1 = Some res ->
        Downloader.execErr res = Some e ->
        ~ (e = ErrNoWokers /\ Downloader.FileSize (Pandownload.fileInfo dtu) = 0) ->
        exists fs',
          Pandownload.download MinParallelSize filepath_Dir env dtu fs
          = Some (Some e, fs', dtu1)
          /\ (Pandownload.fileStatErr env = None ->
              Downloader.execFs res !! Pandownload.SavePath dtu = Some 0 ->
              (Pandownload.removeErr env = None ->
               fs' = delete (Pandownload.SavePath dtu) (Downloader.execFs res))
              /\ (Pandownload.removeErr env <> None -> fs' = Downloader.execFs res))
          /\ (Downloader.execFs res !! Pandownload.SavePath dtu <> Some 0 ->
              fs' = Downloader.execFs res)
          /\ (Pandownload.fileStatErr env <> None -> fs' = Downloader.execFs res)).
Proof.
  intros dtu1. unfold Pandownload.download. cbv zeta.
  change (Pandownload.setInstanceStatePath
            (Pandownload.SavePath dtu +:+ Pandownload.DownloadSuffix) dtu)
    with dtu1.
  split.
  - intros e ->. reflexivity.
  - intros fs1 res e Hopen Hexec Herr Hnot.
    rewrite Hopen. cbv beta iota. rewrite Hexec. cbv beta iota.
    unfold Pandownload.finishDownload. rewrite Herr.
    change (Pandownload.fileInfo dtu1) with (Pandownload.fileInfo dtu).
    change (Pandownload.SavePath dtu1) with (Pandownload.SavePath dtu).
    assert (bool_decide (e = ErrNoWokers)
            && (Downloader.FileSize (Pandownload.fileInfo dtu) =? 0) = false) as ->.
    { apply andb_false_iff.
      destruct (decide (e = ErrNoWokers)) as [He|He].
      - right. apply Z.eqb_neq. intros Hz. apply Hnot. now split.
      - left. now apply bool_decide_eq_false_2. }
    destruct (Pandownload.fileStatErr env) as [se|] eqn:Hstat.
    { eexists. split; [reflexivity|]. repeat split; intros; congruence. }
    destruct (decide (Downloader.execFs res !! Pandownload.SavePath dtu = Some 0))
      as [Hz|Hz].
    + rewrite (bool_decide_eq_true_2 _ Hz).
      destruct (Pandownload.removeErr env) as [re|] eqn:Hrem;
        (eexists; split; [reflexivity|]); repeat split; intros; congruence.
    + rewrite (bool_decide_eq_false_2 _ Hz).
      eexists. split; [reflexivity|]. repeat split; intros; congruence.
Qed.

(** *** Sample runs *)

Lemma download_zero_workers_witness :
  exists fs',
    Pandownload.download 131072 (fun s => s)
      (sampleEnv None (Some ErrNoWokers) 0 None) (sampleUnit 0) ∅
    = Some (None, fs',
            Pandownload.setInstanceStatePath "/d/f.cloudpan189-downloading"
              (sampleUnit 0))
    /\ fs' !! "/d/f.cloudpan189-downloading" = None.
Proof.
  edestruct (download_zero_workers 131072 (fun s => s)
               (sampleEnv None (Some ErrNoWokers) 0 None) (sampleUnit 0) ∅)
    as [H _].
  - reflexivity.
  - reflexivity.
  - reflexivity.
  - destruct (H eq_refl) as (fs' & Hd & Hs & _).
    exists fs'. split; assumption.
Defined.

Lemma download_error_and_empty_file_witness :
  exists fs',
    Pandownload.download 131072 (fun s => s)
      (sampleEnv None (Some (ErrorString "unexpected EOF")) 0 None)
      (sampleUnit (10 * MiB)) ∅
    = Some (Some (ErrorString "unexpected EOF"), fs',
            Pandownload.setInstanceStatePath "/d/f.cloudpan189-downloading"
              (sampleUnit (10 * MiB)))
    /\ fs' !! "/d/f" = None.
Proof.
  edestruct (download_error_and_empty_file 131072 (fun s => s)
               (sampleEnv None (Some (ErrorString "unexpected EOF")) 0 None)
               (sampleUnit (10 * MiB)) ∅)
    as [_ H].
  edestruct H as (fs' & Hd & Hrm & _).
  - reflexivity.
  - reflexivity.
  - reflexivity.
  - intros [He _]. discriminate He.
  - exists fs'. split; [exact Hd|].
    destruct (Hrm eq_refl) as [Hdel _]; [reflexivity|].
    rewrite (Hdel eq_refl). apply lookup_delete_eq.
Defined.

(** C10, as it is written, fails on two runs.  In the first the destination
    exists, is empty and cannot be opened for writing: [download] returns
    the error and the empty file is still there.  In the second the engine
    fails, the destination is empty and [os.Remove] fails: the error is
    returned and the empty file is still there. *)
Lemma download_error_leaves_empty_file :
  (exists e fs' dtu',
     Pandownload.download 131072 (fun s => s)
       (sampleEnv (Some (PathError "open" "/d/f")) None 0 None)
       (sampleUnit (10 * MiB)) {["/d/f" := 0]}
     = Some (Some e, fs', dtu')
     /\ fs' !! "/d/f" = Some 0)
  /\ (exists e fs' dtu',
        Pandownload.download 131072 (fun s => s)
          (sampleEnv None (Some (ErrorString "unexpected EOF")) 0
             (Some (PathError "remove" "/d/f")))
          (sampleUnit (10 * MiB)) ∅
        = Some (Some e, fs', dtu')
        /\ fs' !! "/d/f" = Some 0).
Proof.
  split; do 3 eexists; split; reflexivity.
Qed.

(** ** The candidates of the load balancer *)

Lemma probeOne_adds (cfg : Downloader.Config) (fileSize : Z)
    (client : string -> Downloader.ReqResult) (m : string)
    (acc acc' : list Downloader.LoadBalancerResponse) :
  Downloader.probeOne cfg fileSize client m acc = Some acc' ->
  acc' = acc \/ exists x, acc' = acc ++ [x] /\ accepted cfg fileSize client m x.
Proof.
  unfold Downloader.probeOne, Downloader.DefaultDURLCheckFunc,
    Downloader.handleLoadBalancer.
  intros H.
  destruct (client m) as [resp|resp e] eqn:Hreq; [|simplify_eq; now left].
  destruct ((Z.quot (Downloader.StatusCode resp) 100 =? 4)
            || (Z.quot (Downloader.StatusCode resp) 100 =? 5)) eqn:Hclass;
    [simplify_eq; now left|].
  apply orb_false_iff in Hclass as [H4 H5].
  apply Z.eqb_neq in H4, H5.
  destruct (Z.eqb_spec fileSize (Downloader.ContentLength resp)) as [Hlen|];
    cbn [negb] in H; [|simplify_eq; now left].
  destruct (Downloader.Request resp) as [u|] eqn:Hu; [|simplify_eq; now left].
  simplify_eq. right. eexists. split; [reflexivity|].
  exists resp, u. repeat split; auto.
Qed.

Lemma probeAll_adds (cfg : Downloader.Config) (fileSize : Z)
    (client : string -> Downloader.ReqResult) (mirrors : list string)
    (order : list nat) :
  forall acc l,
    Downloader.probeAll cfg fileSize client mirrors order acc = Some l ->
    exists added,
      l = acc ++ added
      /\ Forall (fun x => exists m, m ∈ mirrors /\ accepted cfg fileSize client m x)
           added.
Proof.
  induction order as [|i rest IH]; intros acc l H; cbn in H.
  - simplify_eq. exists []. split; [now rewrite app_nil_r | constructor].
  - destruct (mirrors !! i) as [m|] eqn:Hm; [|now apply IH].
    destruct (Downloader.probeOne cfg fileSize client m acc) as [acc'|] eqn:Hp;
      [|discriminate].
    destruct (IH _ _ H) as (added & -> & Hall).
    destruct (probeOne_adds _ _ _ _ _ _ Hp) as [->|(x & -> & Hx)].
    + now exists added.
    + exists (x :: added). split; [now rewrite <- app_assoc|].
      constructor; [|exact Hall].
      exists m. split; [|exact Hx]. eapply list_elem_of_lookup_2; eauto.
Qed.



Lemma SequentialGet_round (l : Downloader.LoadBalancerResponseList) :
  (0 < length (Downloader.lbr l))%nat ->
  (Downloader.cursor l <= length (Downloader.lbr l))%nat ->
  let '(x, l') := Downloader.SequentialGet l in
  x = Downloader.lbr l !! (Downloader.cursor l mod length (Downloader.lbr l))%nat
  /\ Downloader.lbr l' = Downloader.lbr l
  /\ (Downloader.cursor l' <= length (Downloader.lbr l))%nat
  /\ (forall k,
        ((Downloader.cursor l' + k) mod length (Downloader.lbr l)
         = (Downloader.cursor l + S k) mod length (Downloader.lbr l))%nat).
Proof.
  intros Hlen Hcur. unfold Downloader.SequentialGet.
  destruct (Downloader.lbr l) as [|y ys] eqn:Hl; [cbn in Hlen; lia|].
  rewrite <- Hl in *. cbn [Downloader.lbr Downloader.cursor].
  destruct (Nat.leb_spec (length (Downloader.lbr l)) (Downloader.cursor l)) as [Hge|Hlt].
  - assert (Downloader.cursor l = length (Downloader.lbr l)) as -> by lia.
    rewrite Nat.Div0.mod_same. repeat split; [lia|].
    intros k. replace (length (Downloader.lbr l) + S k)%nat
      with (S k + 1 * length (Downloader.lbr l))%nat by lia.
    now rewrite Nat.Div0.mod_add.
  - rewrite Nat.mod_small by lia. repeat split; [lia|].
    intros k. f_equal. lia.
Qed.

Lemma sequentialGets_round (n : nat) :
  forall l : Downloader.LoadBalancerResponseList,
    (0 < length (Downloader.lbr l))%nat ->
    (Downloader.cursor l <= length (Downloader.lbr l))%nat ->
    fst (sequentialGets n l)
    = map (fun k => Downloader.lbr l
                      !! ((Downloader.cursor l + k) mod length (Downloader.lbr l))%nat)
        (seq 0 n).
Proof.
  induction n as [|n IH]; intros l Hlen Hcur; [reflexivity|].
  cbn [sequentialGets].
  pose proof (SequentialGet_round l Hlen Hcur) as Hstep.
  destruct (Downloader.SequentialGet l) as [x l1].
  destruct Hstep as (-> & Hl & Hc & Hk).
  specialize (IH l1). rewrite Hl in IH. specialize (IH Hlen Hc).
  destruct (sequentialGets n l1) as [xs l2]. cbn [fst] in *.
  cbn [seq map]. rewrite Nat.add_0_r. f_equal.
  rewrite IH, <- seq_shift, map_map.
  apply map_ext. intros k. now rewrite Hk.
Qed.

Lemma spawnWorkers_gets (der : Downloader.DownloaderT) (ranges : Transfer.RangeList) :
  forall k l acc,
    snd (Downloader.spawnWorkers der k ranges l acc)
    = snd (sequentialGets (length ranges) l).
Proof.
  induction ranges as [|r rest IH]; intros k l acc; [reflexivity|].
  cbn [Downloader.spawnWorkers sequentialGets length].
  destruct (Downloader.SequentialGet l) as [x l1].
  specialize (IH (S k) l1).
  destruct (sequentialGets (length rest) l1) as [xs l2] eqn:Hs. cbn [snd] in *.
  repeat case_match; apply IH.
Qed.

Lemma spawnWorkers_urls (der : Downloader.DownloaderT) (ranges : Transfer.RangeList) :
  forall k l acc,
    (forall w, w ∈ acc ->
       exists j, (if 0 <? Downloader.familyId der
                  then Downloader.AppFamilyGetFileDownloadUrl (Downloader.panClient der)
                         (Downloader.familyId der)
                         (Downloader.FileId (Downloader.fileInfo der)) j
                  else Downloader.AppGetFileDownloadUrl (Downloader.panClient der)
                         (Downloader.FileId (Downloader.fileInfo der)) j)
                 = (Downloader.wURL w, None)) ->
    forall w, w ∈ fst (Downloader.spawnWorkers der k ranges l acc) ->
      exists j, (if 0 <? Downloader.familyId der
                 then Downloader.AppFamilyGetFileDownloadUrl (Downloader.panClient der)
                        (Downloader.familyId der)
                        (Downloader.FileId (Downloader.fileInfo der)) j
                 else Downloader.AppGetFileDownloadUrl (Downloader.panClient der)
                        (Downloader.FileId (Downloader.fileInfo der)) j)
                = (Downloader.wURL w, None).
Proof.
  induction ranges as [|r rest IH]; intros k l acc Hacc w; [apply Hacc|].
  cbn [Downloader.spawnWorkers].
  destruct (Downloader.SequentialGet l) as [x l1].
  destruct x as [lb|]; [|now apply IH].
  match goal with
  | |- context [let '(_, _) := ?c in _] => destruct c as [durl apierr] eqn:Hurl
  end.
  destruct apierr as [e|]; [now apply IH|].
  apply IH. intros w' [Hw'| ->%list_elem_of_singleton]%elem_of_app; [now apply Hacc|].
  exists k. exact Hurl.
Qed.

(** C7, as the code has it.  Whatever the mirrors answer and in whatever
    order, the list of [checkLoadBalancers] starts with the entry that is
    appended before the probes, whose URL is the fixed string "der.durl",
    and its cursor is at the start.  [SequentialGet] hands out the entries
    in turn, the k-th call giving the entry at [k mod length]; [Execute]
    makes one such call per range, and the URL of each worker is the one the
    remote service resolved for it, not the one of the entry. *)
Theorem checkLoadBalancers_first_and_round_robin (cfg : Downloader.Config)
    (fileSize : Z) (client : string -> Downloader.ReqResult)
    (mirrors : list string) (order : list nat)
    (l : Downloader.LoadBalancerResponseList) :
  Downloader.checkLoadBalancers cfg fileSize client mirrors order = Some l ->
  Downloader.lbr l !! 0%nat = Some (Downloader.mkLoadBalancerResponse "der.durl")
  /\ Downloader.cursor l = 0%nat
  /\ (forall n,
        fst (sequentialGets n l)
        = map (fun k => Downloader.lbr l !! (k mod length (Downloader.lbr l))%nat)
            (seq 0 n))
  /\ (forall der ranges,
        snd (Downloader.spawnWorkers der 0 ranges l [])
        = snd (sequentialGets (length ranges) l)
        /\ forall w, w ∈ fst (Downloader.spawnWorkers der 0 ranges l []) ->
             exists j,
               (if 0 <? Downloader.familyId der
                then Downloader.AppFamilyGetFileDownloadUrl (Downloader.panClient der)
                       (Downloader.familyId der)
                       (Downloader.FileId (Downloader.fileInfo der)) j
                else Downloader.AppGetFileDownloadUrl (Downloader.panClient der)
                       (Downloader.FileId (Downloader.fileInfo der)) j)
               = (Downloader.wURL w, None)).
Proof.
  unfold Downloader.checkLoadBalancers. intros H.
  destruct (Downloader.probeAll _ _ _ _ _ _) as [l0|] eqn:Hp; [|discriminate].
  simplify_eq.
  destruct (probeAll_adds _ _ _ _ _ _ _ Hp) as (added & -> & _).
  cbn [Downloader.NewLoadBalancerResponseList Downloader.lbr Downloader.cursor].
  split; [reflexivity|]. split; [reflexivity|]. split.
  - intros n. rewrite sequentialGets_round; cbn; [reflexivity | lia | lia].
  - intros der ranges. split; [apply spawnWorkers_gets|].
    apply spawnWorkers_urls. intros w Hw. inversion Hw.
Qed.

Lemma checkLoadBalancers_first_and_round_robin_witness :
  Downloader.checkLoadBalancers cfg_4MiB_3 (10 * MiB) sampleNet sampleMirrors
    [2; 0; 1]%nat
  = Some (Downloader.mkLoadBalancerResponseList
            [Downloader.mkLoadBalancerResponse "der.durl";
             Downloader.mkLoadBalancerResponse "https://m1.example/f"] 0)
  /\ fst (sequentialGets 3
            (Downloader.mkLoadBalancerResponseList
               [Downloader.mkLoadBalancerResponse "der.durl";
                Downloader.mkLoadBalancerResponse "https://m1.example/f"] 0))
     = [Some (Downloader.mkLoadBalancerResponse "der.durl");
        Some (Downloader.mkLoadBalancerResponse "https://m1.example/f");
        Some (Downloader.mkLoadBalancerResponse "der.durl")].
Proof.
  split; [reflexivity|].
  destruct (checkLoadBalancers_first_and_round_robin cfg_4MiB_3 (10 * MiB)
              sampleNet sampleMirrors [2; 0; 1]%nat
              (Downloader.mkLoadBalancerResponseList
                 [Downloader.mkLoadBalancerResponse "der.durl";
                  Downloader.mkLoadBalancerResponse "https://m1.example/f"] 0))
    as (_ & _ & Hround & _); [reflexivity|].
  rewrite (Hround 3%nat). reflexivity.
Defined.

(** C7, as it is written, fails: in this run every worker downloads from
    the URL that the remote service resolved for the file, and the first
    entry of the list of candidates is not that URL but the fixed string
    "der.durl". *)
Lemma first_candidate_is_not_the_download_url :
  exists res l,
    Downloader.Execute 131072 (sampleExecEnv None (10 * MiB)) sampleDownloader ∅
    = Some res
    /\ map Downloader.wURL (Downloader.execWorkers res)
       = ["https://download.cloud.189.cn/file/1";
          "https://download.cloud.189.cn/file/1";
          "https://download.cloud.189.cn/file/1"]
    /\ Downloader.checkLoadBalancers (Downloader.config sampleDownloader)
         (10 * MiB) (Downloader.client (sampleExecEnv None (10 * MiB)))
         (Downloader.loadBalansers sampleDownloader) []
       = Some l
    /\ Downloader.lbURL <$> head (Downloader.lbr l) = Some "der.durl"
    /\ Downloader.lbURL <$> head (Downloader.lbr l)
       <> Some "https://download.cloud.189.cn/file/1".
Proof.
  do 2 eexists. split; [reflexivity|]. split; [reflexivity|].
  split; [reflexivity|]. split; [reflexivity|]. discriminate.
Qed.

(** ** The multi-part upload *)

Lemma startedCall_no_commit (wer : Uploader.worker) :
  ~ In Uploader.CallCommitFile (Uploader.startedCall wer).
Proof.
  unfold Uploader.startedCall. destruct (Uploader.uploadDone wer); cbn; [tauto|].
  intros [H|[]]. discriminate H.
Qed.

Lemma innerCall_no_commit (wer : Uploader.worker) (o : Uploader.UploadOutcome) :
  ~ In Uploader.CallCommitFile (snd (Uploader.innerCall wer o)).
Proof.
  unfold Uploader.innerCall.
  destruct (Uploader.uploadDone wer) eqn:Hd; cbn [snd];
    apply startedCall_no_commit.
Qed.

Lemma start_inv (precreate : option error) (ws : Uploader.workerList) :
  uploadInv (Uploader.start precreate ws).
Proof.
  unfold uploadInv, Uploader.start.
  destruct precreate; cbn;
    (split; [reflexivity || discriminate|]); (split; [reflexivity|]);
    intros [Hin|[]]; discriminate Hin.
Qed.

Lemma step_inv (parallel : Z) (s s' : Uploader.State) (st : Uploader.Step) :
  uploadInv s -> Uploader.step parallel s st = Some s' -> uploadInv s'.
Proof.
  intros (Hrun & Hup & Hcommit) Hstep.
  assert ((forall r, Uploader.pc s <> Uploader.Returned r) ->
          ~ In Uploader.CallCommitFile (Uploader.calls s)) as Hnot.
  { intros Hpc Hin. destruct (Hcommit Hin) as ((r' & Hr') & _).
    exact (Hpc r' Hr'). }
  destruct st as [|commit|w o|w|]; cbn in Hstep.
  - destruct (Uploader.pc s) eqn:Hpc; try discriminate.
    assert (~ In Uploader.CallCommitFile (Uploader.calls s)) as Hnc
      by (apply Hnot; intros r0; congruence).
    repeat case_match; simplify_eq; unfold uploadInv; cbn.
    all: split; [discriminate|]; split; [assumption|]; intros Hin; contradiction.
  - destruct (Uploader.pc s) eqn:Hpc; try discriminate.
    assert (~ In Uploader.CallCommitFile (Uploader.calls s)) as Hnc
      by (apply Hnot; intros r0; congruence).
    destruct (Uploader.running s) eqn:Hr; try discriminate.
    destruct (Uploader.uploadDeque s) eqn:Hd; simplify_eq.
    + unfold Uploader.finishUpload, uploadInv.
      destruct (Uploader.canceled s) eqn:Hc;
        [|destruct (forallb Uploader.uploadDone (Uploader.workers s)) eqn:Hall];
        cbn; rewrite ?Hr, ?Hd, ?Hc.
      all: split; [intros; reflexivity|]; split; [discriminate || assumption|].
      all: intros Hin; try contradiction.
      split; [eauto|]. split; [assumption | reflexivity].
    + unfold uploadInv; cbn.
      split; [discriminate|]. split; [assumption|].
      intros Hin; contradiction.
  - destruct (bool_decide (w ∈ Uploader.running s)) eqn:Hw; [|discriminate].
    apply bool_decide_eq_true_1 in Hw.
    assert (forall r, Uploader.pc s <> Uploader.Returned r) as Hpc.
    { intros r Hr. rewrite (Hrun r Hr) in Hw. inversion Hw. }
    destruct (Uploader.workers s !! w) as [wer|]; [|discriminate].
    pose proof (innerCall_no_commit wer o) as Hcs.
    destruct (Uploader.innerCall wer o) as [[[done terr] wer1] cs]. cbn [snd] in Hcs.
    assert (~ In Uploader.CallCommitFile (Uploader.calls s ++ cs)) as Hnc.
    { rewrite in_app_iff. intros [Hin|Hin]; [exact (Hnot Hpc Hin) | tauto]. }
    destruct terr as [[[|] e|e]|]; simplify_eq; unfold uploadInv; cbn.
    all: split; [intros r Hr; exfalso; exact (Hpc r Hr)|].
    all: split; [first [discriminate | assumption]|].
    all: intros Hin; contradiction.
  - destruct (bool_decide (w ∈ Uploader.running s)) eqn:Hw; [|discriminate].
    apply bool_decide_eq_true_1 in Hw.
    assert (forall r, Uploader.pc s <> Uploader.Returned r) as Hpc.
    { intros r Hr. rewrite (Hrun r Hr) in Hw. inversion Hw. }
    destruct (Uploader.canceled s) eqn:Hc; cbn in Hstep; [|discriminate].
    destruct (Uploader.workers s !! w) as [wer|]; simplify_eq.
    unfold uploadInv; cbn.
    split; [intros r Hr; exfalso; exact (Hpc r Hr)|].
    split; [discriminate|].
    rewrite in_app_iff. intros [Hin|Hin];
      [exact (False_ind _ (Hnot Hpc Hin))
      | exact (False_ind _ (startedCall_no_commit wer Hin))].
  - simplify_eq. unfold uploadInv; cbn.
    split; [assumption|]. split; [discriminate|]. assumption.
Qed.

Lemma runSchedule_inv (parallel : Z) (sched : list Uploader.Step) :
  forall s, uploadInv s -> uploadInv (Uploader.runSchedule parallel s sched).
Proof.
  induction sched as [|st rest IH]; intros s Hs; [exact Hs|].
  cbn. apply IH.
  destruct (Uploader.step parallel s st) as [s'|] eqn:Hstep; cbn; [|exact Hs].
  eapply step_inv; eauto.
Qed.

(** Once [upload] has returned nothing moves any more. *)
Lemma runSchedule_returned (parallel : Z) (sched : list Uploader.Step) :
  forall s r,
    Uploader.pc s = Uploader.Returned r -> Uploader.running s = [] ->
    Uploader.pc (Uploader.runSchedule parallel s sched) = Uploader.Returned r
    /\ Uploader.calls (Uploader.runSchedule parallel s sched) = Uploader.calls s
    /\ Uploader.workers (Uploader.runSchedule parallel s sched) = Uploader.workers s.
Proof.
  induction sched as [|st rest IH]; intros s r Hpc Hrun; [cbn; auto|].
  change (Uploader.runSchedule parallel s (st :: rest))
    with (Uploader.runSchedule parallel
            (default s (Uploader.step parallel s st)) rest).
  assert (exists s1, default s (Uploader.step parallel s st) = s1
                     /\ Uploader.pc s1 = Uploader.Returned r
                     /\ Uploader.running s1 = []
                     /\ Uploader.calls s1 = Uploader.calls s
                     /\ Uploader.workers s1 = Uploader.workers s)
    as (s1 & -> & Hpc1 & Hrun1 & Hc1 & Hw1).
  { destruct st as [|commit|w o|w|]; cbn; rewrite ?Hpc, ?Hrun; cbn; eauto 10. }
  destruct (IH s1 r Hpc1 Hrun1) as (Hp & Hc & Hw).
  rewrite Hp, Hc, Hw, Hc1, Hw1. auto.
Qed.

(** C1: under every schedule of the goroutines and every answer of the
    remote calls, [CommitFile] has been called only if [upload] has
    returned with every worker's [uploadDone] true and the queue empty; and
    when the queue has drained (the queue is empty, no goroutine is left
    and [upload] is at [wg.Wait()]) with some [uploadDone] false, [upload]
    returns at its next step without a call to [CommitFile], and none is
    made later; what it returns is [uperr] or [context.Canceled] when the
    job was cancelled and nil otherwise. *)
Theorem upload_commits_only_when_all_done (parallel : Z)
    (precreate : option error) (ws : Uploader.workerList)
    (sched : list Uploader.Step) :
  let s := Uploader.upload parallel precreate ws sched in
  (In Uploader.CallCommitFile (Uploader.calls s) ->
   (exists r, Uploader.pc s = Uploader.Returned r)
   /\ forallb Uploader.uploadDone (Uploader.workers s) = true
   /\ Uploader.uploadDeque s = [] /\ Uploader.running s = [])
  /\ (Uploader.pc s = Uploader.Waiting ->
      Uploader.running s = [] -> Uploader.uploadDeque s = [] ->
      forallb Uploader.uploadDone (Uploader.workers s) = false ->
      forall commit rest,
        let s' := Uploader.runSchedule parallel s (Uploader.MainWait commit :: rest) in
        Uploader.pc s'
        = Uploader.Returned
            (if Uploader.canceled s
             then Some (default ContextCanceled (Uploader.uperr s)) else None)
        /\ ~ In Uploader.CallCommitFile (Uploader.calls s')
        /\ Uploader.workers s' = Uploader.workers s).
Proof.
  intros s.
  assert (uploadInv s) as Hinv by (apply runSchedule_inv, start_inv).
  destruct Hinv as (Hrun & Hup & Hcommit).
  split.
  - intros Hin. destruct (Hcommit Hin) as ((r & Hr) & Hall & Hd).
    repeat split; eauto.
  - intros Hpc Hr Hd Hall commit rest s'.
    assert (~ In Uploader.CallCommitFile (Uploader.calls s)) as Hnc.
    { intros Hin. destruct (Hcommit Hin) as ((r & Hr') & _). congruence. }
    subst s'.
    change (Uploader.runSchedule parallel s (Uploader.MainWait commit :: rest))
      with (Uploader.runSchedule parallel
              (default s (Uploader.step parallel s (Uploader.MainWait commit))) rest).
    cbn [Uploader.step]. rewrite Hpc, Hr, Hd. cbn [default from_option].
    unfold id. set (s1 := Uploader.finishUpload commit s).
    assert (Uploader.pc s1
            = Uploader.Returned
                (if Uploader.canceled s
                 then Some (default ContextCanceled (Uploader.uperr s)) else None)
            /\ Uploader.calls s1 = Uploader.calls s
            /\ Uploader.workers s1 = Uploader.workers s
            /\ Uploader.running s1 = []) as (Hpc1 & Hc1 & Hw1 & Hr1).
    { subst s1. unfold Uploader.finishUpload. rewrite Hall.
      destruct (Uploader.canceled s) eqn:Hc; cbn; rewrite ?Hr.
      - destruct (Uploader.uperr s); auto.
      - rewrite (Hup eq_refl). auto. }
    destruct (runSchedule_returned parallel rest s1 _ Hpc1 Hr1) as (Hp & Hc & Hw).
    rewrite Hp, Hc, Hw, Hc1, Hw1. auto.
Qed.

(** *** Sample runs of the upload *)

Example upload_all_done_commits :
  let s := Uploader.upload 2 None sampleWorkers scheduleAllDone in
  Uploader.calls s
  = [Uploader.CallPrecreate; Uploader.CallUploadFile 2 4 8;
     Uploader.CallUploadFile 1 0 4; Uploader.CallCommitFile]
  /\ Uploader.pc s = Uploader.Returned None
  /\ map Uploader.uploadDone (Uploader.workers s) = [true; true].
Proof. vm_compute. repeat split; reflexivity. Qed.

Lemma upload_commits_only_when_all_done_witness :
  let s := Uploader.upload 2 None sampleWorkers scheduleNotDone in
  let s' := Uploader.runSchedule 2 s [Uploader.MainWait None; Uploader.Cancel] in
  map Uploader.uploadDone (Uploader.workers s) = [false; true]
  /\ Uploader.pc s' = Uploader.Returned None
  /\ ~ In Uploader.CallCommitFile (Uploader.calls s')
  /\ Uploader.workers s' = Uploader.workers s.
Proof.
  split; [reflexivity|].
  apply (proj2 (upload_commits_only_when_all_done 2 None sampleWorkers
                  scheduleNotDone)); reflexivity.
Defined.

(** * Further properties of the code *)

(** ** Sizes of upload parts *)

Lemma quot_999 (fileSize : Z) :
  0 <= fileSize ->
  exists q r, Z.quot fileSize 999 = q /\ fileSize = 999 * q + r /\ 0 <= r < 999 /\ 0 <= q.
Proof.
  intros H. rewrite Z.quot_div_nonneg by lia.
  exists (fileSize / 999), (fileSize mod 999).
  pose proof (Z.div_mod fileSize 999 ltac:(lia)).
  pose proof (Z.mod_pos_bound fileSize 999 ltac:(lia)).
  pose proof (Z.div_pos fileSize 999 H ltac:(lia)).
  repeat split; lia.
Qed.

Lemma getBlockSize_cases (MB fileSize : Z) :
  0 < MB -> 0 <= fileSize <= Int64.max_int64 ->
  (fileSize < 1000 * (4 * MB)
   /\ Panupload.getBlockSize MB fileSize = 4 * MB)
  \/ (1000 * (4 * MB) <= fileSize
      /\ exists q r, fileSize = 999 * q + r /\ 0 <= r < 999
                     /\ Panupload.getBlockSize MB fileSize = q + 1).
Proof.
  intros HMB Hf. unfold Panupload.getBlockSize, Panupload.MinUploadBlockSize.
  rewrite (Z.quot_div_nonneg fileSize (4 * MB)) by lia.
  destruct (Z.ltb_spec 999 (fileSize / (4 * MB))) as [Hbig|Hsmall].
  - right.
    assert (1000 * (4 * MB) <= fileSize) as Hge.
    { assert (1000 <= fileSize / (4 * MB)) as H1 by lia.
      pose proof (Z.mul_div_le fileSize (4 * MB) ltac:(lia)). nia. }
    split; [exact Hge|].
    destruct (quot_999 fileSize ltac:(lia)) as (q & r & -> & Hq & Hr & Hq0).
    exists q, r. repeat split; try lia.
    unfold Int64.add. apply wrap_in_range.
    unfold Int64.in_range, Int64.min_int64, Int64.max_int64 in *. lia.
  - left. split; [|reflexivity].
    apply Z.nle_gt. intros Hge.
    assert (1000 <= fileSize / (4 * MB)); [|lia].
    apply Z.div_le_lower_bound; lia.
Qed.

(** X1: for a file of size 0 or more, [getBlockSize] gives a part size of
    at least [MinUploadBlockSize], large enough for the file to hold at
    most 999 whole parts; the file is shorter than 1000 parts. *)
Theorem getBlockSize_bounds (MB fileSize : Z) :
  0 < MB -> 0 <= fileSize <= Int64.max_int64 ->
  let blockSize := Panupload.getBlockSize MB fileSize in
  Panupload.MinUploadBlockSize MB <= blockSize
  /\ Z.quot fileSize blockSize <= 999
  /\ fileSize < 1000 * blockSize.
Proof.
  intros HMB Hf blockSize. subst blockSize. unfold Panupload.MinUploadBlockSize.
  destruct (getBlockSize_cases MB fileSize HMB Hf)
    as [[Hlt ->]|[Hge (q & r & Hq & Hr & ->)]].
  - split; [lia|]. split; [|lia].
    rewrite Z.quot_div_nonneg by lia.
    assert (fileSize / (4 * MB) < 1000); [|lia].
    apply Z.div_lt_upper_bound; lia.
  - assert (4 * MB <= q + 1) by nia.
    split; [lia|]. split; [|nia].
    rewrite Z.quot_div_nonneg by lia.
    assert (fileSize / (q + 1) < 999); [|lia].
    apply Z.div_lt_upper_bound; nia.
Qed.

Lemma getBlockSize_bounds_witness :
  Panupload.MinUploadBlockSize 1048576 <= Panupload.getBlockSize 1048576 5368709120
  /\ Z.quot 5368709120 (Panupload.getBlockSize 1048576 5368709120) <= 999
  /\ 5368709120 < 1000 * Panupload.getBlockSize 1048576 5368709120.
Proof.
  apply (getBlockSize_bounds 1048576 5368709120); [lia|].
  unfold Int64.max_int64. lia.
Defined.

(** X2: a file longer than 999 and shorter than 1000 minimal parts keeps
    the minimal part size, so that it does not fit into 999 parts. *)
Theorem getBlockSize_thousandth_part (MB fileSize : Z) :
  0 < MB ->
  999 * Panupload.MinUploadBlockSize MB < fileSize
    < 1000 * Panupload.MinUploadBlockSize MB ->
  fileSize <= Int64.max_int64 ->
  Panupload.getBlockSize MB fileSize = Panupload.MinUploadBlockSize MB
  /\ 999 * Panupload.getBlockSize MB fileSize < fileSize.
Proof.
  unfold Panupload.MinUploadBlockSize. intros HMB Hf Hmax.
  assert (0 <= fileSize <= Int64.max_int64) as Hrange by (split; [lia | exact Hmax]).
  destruct (getBlockSize_cases MB fileSize HMB Hrange)
    as [[Hlt ->]|[Hge _]]; [split; [reflexivity | lia] | lia].
Qed.

Lemma getBlockSize_thousandth_part_witness :
  Panupload.getBlockSize 1048576 4192000000 = Panupload.MinUploadBlockSize 1048576
  /\ 999 * Panupload.getBlockSize 1048576 4192000000 < 4192000000.
Proof.
  apply (getBlockSize_thousandth_part 1048576 4192000000);
    unfold Panupload.MinUploadBlockSize, Int64.max_int64; lia.
Defined.

(** X3: [getBlockSize] never gives a smaller part size for a larger file. *)
Theorem getBlockSize_monotone (MB a b : Z) :
  0 < MB -> 0 <= a -> a <= b -> b <= Int64.max_int64 ->
  Panupload.getBlockSize MB a <= Panupload.getBlockSize MB b.
Proof.
  intros HMB Ha Hab Hb.
  assert (a <= Int64.max_int64) as Ha' by (etransitivity; eassumption).
  destruct (getBlockSize_cases MB a HMB (conj Ha Ha'))
    as [[Hlta ->]|[Hgea (qa & ra & Hqa & Hra & ->)]];
  destruct (getBlockSize_cases MB b HMB (conj (Z.le_trans _ _ _ Ha Hab) Hb))
    as [[Hltb ->]|[Hgeb (qb & rb & Hqb & Hrb & ->)]]; nia.
Qed.

Lemma getBlockSize_monotone_witness :
  Panupload.getBlockSize 1048576 4194304000 <= Panupload.getBlockSize 1048576 5368709120.
Proof.
  apply (getBlockSize_monotone 1048576 4194304000 5368709120);
    unfold Int64.max_int64; lia.
Defined.

(** ** Shares of the parallelism *)

Lemma AverageParallel_spec (parallel downloadLoad : Z) :
  1 <= Config.AverageParallel parallel downloadLoad
  /\ Config.AverageParallel parallel downloadLoad <= Z.max 1 parallel
  /\ Config.AverageParallel parallel downloadLoad * Z.max 1 downloadLoad
     <= Z.max parallel (Z.max 1 downloadLoad).
Proof.
  unfold Config.AverageParallel.
  destruct (Z.ltb_spec downloadLoad 1) as [Hl|Hl]; [lia|].
  destruct (Z.ltb_spec (Z.quot parallel downloadLoad) 1) as [Hp|Hp]; [lia|].
  assert (0 <= parallel) as Hpar.
  { destruct (Z.le_gt_cases 0 parallel) as [|Hneg]; [assumption|].
    pose proof (Z.quot_opp_l parallel downloadLoad ltac:(lia)) as Ho.
    pose proof (Z.quot_pos (- parallel) downloadLoad ltac:(lia) ltac:(lia)). lia. }
  rewrite Z.quot_div_nonneg in * by lia.
  pose proof (Z.mul_div_le parallel downloadLoad ltac:(lia)).
  assert (parallel / downloadLoad <= parallel).
  { apply Z.div_le_upper_bound; nia. }
  split; [lia|]. split; [lia|]. nia.
Qed.

(** X4: [AverageParallel] is at least 1 and at most the larger of 1 and
    [parallel]; multiplied by the load (taken as 1 when it is below 1) it
    does not exceed the larger of [parallel] and the load. *)
Theorem AverageParallel_bounds (parallel downloadLoad : Z) :
  1 <= Config.AverageParallel parallel downloadLoad
  /\ Config.AverageParallel parallel downloadLoad <= Z.max 1 parallel
  /\ Config.AverageParallel parallel downloadLoad * Z.max 1 downloadLoad
     <= Z.max parallel (Z.max 1 downloadLoad).
Proof. apply AverageParallel_spec. Qed.

(** ** Rates as text *)

Lemma lastIndexByte_segment (sep : Ascii.ascii) (t : string) :
  Config.lastIndexByte sep t = None ->
  forall s, Config.lastIndexByte sep (s +:+ String sep t) = Some (String.length s).
Proof.
  intros Ht s. induction s as [|a s IH]; simpl.
  - rewrite Ht. now rewrite Ascii.eqb_refl.
  - now rewrite IH.
Qed.

Lemma substring_prefix (s t : string) :
  String.substring 0 (String.length s) (s +:+ t) = s.
Proof.
  induction s as [|a s IH]; simpl.
  - now destruct t.
  - now rewrite IH.
Qed.

(** X5: [stripPerSecond] cuts a string at its last "/": when no "/" occurs
    after the one that follows [s], the result is [s]. *)
Theorem stripPerSecond_last_segment (s t : string) :
  Config.lastIndexByte Config.slash t = None ->
  Config.stripPerSecond (s +:+ String Config.slash t) = s.
Proof.
  intros Ht. unfold Config.stripPerSecond, Config.LastIndex.
  rewrite (lastIndexByte_segment _ _ Ht).
  destruct (Z.ltb_spec (Z.of_nat (String.length s)) 0) as [|_]; [lia|].
  rewrite Nat2Z.id. apply substring_prefix.
Qed.

Lemma stripPerSecond_last_segment_witness :
  Config.stripPerSecond ("1.50MB/min" +:+ String Config.slash "s") = "1.50MB/min".
Proof.
  apply (stripPerSecond_last_segment "1.50MB/min" "s"). reflexivity.
Defined.

(** X6: [stripPerSecond] gives back what [showMaxRate] was made from: the
    converted size for a size above 0, and the text for "no limit", which
    holds no "/", for any other size. *)
Theorem stripPerSecond_showMaxRate (ConvertFileSize : Z -> Z -> string) (size : Z) :
  Config.stripPerSecond (Config.showMaxRate ConvertFileSize size)
  = if size <=? 0 then "不限制" else ConvertFileSize size 2.
Proof.
  unfold Config.showMaxRate.
  destruct (size <=? 0); [reflexivity|].
  apply (stripPerSecond_last_segment (ConvertFileSize size 2) "s"). reflexivity.
Qed.

(** ** The latest release *)

Lemma tryServer_spec (get : Panupdate.Answer -> option Panupdate.ReleaseInfo)
    (answers : nat -> Panupdate.Answer) (n : nat) :
  forall idx sleeps,
    let '(r, sleeps') := Panupdate.tryServer get answers n idx sleeps in
    (r = None <-> forall i, (i < n)%nat -> get (answers (idx + i)%nat) = None)
    /\ (r = None -> sleeps' = (sleeps + n)%nat)
    /\ (sleeps <= sleeps' <= sleeps + n)%nat
    /\ (forall info, r = Some info ->
          exists i, (i < n)%nat /\ get (answers (idx + i)%nat) = Some info
                    /\ sleeps' = (sleeps + i)%nat
                    /\ forall j, (j < i)%nat -> get (answers (idx + j)%nat) = None).
Proof.
  induction n as [|n IH]; intros idx sleeps; cbn.
  - repeat split; try lia; try discriminate; intros; lia.
  - destruct (get (answers idx)) as [info|] eqn:Hget.
    + split.
      { split; [discriminate|]. intros H. specialize (H O ltac:(lia)).
        rewrite Nat.add_0_r in H. congruence. }
      split; [discriminate|]. split; [lia|].
      intros info' [= <-]. exists O. rewrite Nat.add_0_r.
      repeat split; try lia; auto; intros; lia.
    + specialize (IH (S idx) (S sleeps)).
      destruct (Panupdate.tryServer get answers n (S idx) (S sleeps)) as [r sleeps'].
      destruct IH as (Hnone & Hs & Hle & Hsome).
      split.
      { rewrite Hnone. split.
        - intros H [|i] Hi; [now rewrite Nat.add_0_r|].
          replace (idx + S i)%nat with (S idx + i)%nat by lia. apply H. lia.
        - intros H i Hi. replace (S idx + i)%nat with (idx + S i)%nat by lia.
          apply H. lia. }
      split; [intros Hr; rewrite (Hs Hr); lia|]. split; [lia|].
      intros info Hr. destruct (Hsome info Hr) as (i & Hi & Hg & Hsl & Hbefore).
      exists (S i). replace (idx + S i)%nat with (S idx + i)%nat by lia.
      repeat split; try lia; auto.
      intros [|j] Hj; [now rewrite Nat.add_0_r|].
      replace (idx + S j)%nat with (S idx + j)%nat by lia. apply Hbefore. lia.
Qed.

(** X7: [GetLatestReleaseInfo] returns no release exactly when none of the
    three answers of the tickstep server is usable and, unless that server
    is the preferred one, none of the three answers of GitHub either: with
    tickstep preferred, GitHub does not stand in for it.  It sleeps once
    per unusable answer, six times at most. *)
Theorem GetLatestReleaseInfo_none (PreferUpdateSrv : string)
    (tickstep github : nat -> Panupdate.Answer) :
  let '(releaseInfo, sleeps) :=
    Panupdate.GetLatestReleaseInfo PreferUpdateSrv tickstep github in
  (releaseInfo = None <->
   (forall i, (i < 3)%nat -> Panupdate.getReleaseFromTicstep (tickstep i) = None)
   /\ (PreferUpdateSrv = "tickstep"
       \/ forall i, (i < 3)%nat -> Panupdate.getReleaseFromGithub (github i) = None))
  /\ (sleeps <= 6)%nat.
Proof.
  unfold Panupdate.GetLatestReleaseInfo.
  pose proof (tryServer_spec Panupdate.getReleaseFromTicstep tickstep 3 0 0) as Hts.
  destruct (Panupdate.tryServer Panupdate.getReleaseFromTicstep tickstep 3 0 0)
    as [ts sleeps1].
  pose proof (tryServer_spec Panupdate.getReleaseFromGithub github 3 0 sleeps1) as Hgh.
  destruct (Panupdate.tryServer Panupdate.getReleaseFromGithub github 3 0 sleeps1)
    as [gh sleeps2].
  destruct Hts as (Hts & _ & Hs1 & _). destruct Hgh as (Hgh & _ & Hs2 & _).
  cbn [Nat.add] in Hts, Hgh.
  split; [|lia].
  destruct (String.eqb_spec PreferUpdateSrv "tickstep") as [Hp|Hp].
  - rewrite Hts. tauto.
  - destruct gh as [info|].
    + split; [discriminate|]. intros [_ [?|H]]; [contradiction|].
      apply Hgh in H. discriminate.
    + rewrite Hts. split; [intros H; split; [exact H|right; now apply Hgh]|tauto].
Qed.

(** X8: the release that [GetLatestReleaseInfo] returns is the first usable
    answer of the tickstep server when that server is preferred; otherwise
    it is the first usable answer of GitHub if there is one, and the first
    usable answer of the tickstep server if there is none. *)
Theorem GetLatestReleaseInfo_first (PreferUpdateSrv : string)
    (tickstep github : nat -> Panupdate.Answer) (info : Panupdate.ReleaseInfo) :
  fst (Panupdate.GetLatestReleaseInfo PreferUpdateSrv tickstep github) = Some info ->
  (exists i, (i < 3)%nat
     /\ Panupdate.getReleaseFromTicstep (tickstep i) = Some info
     /\ (forall j, (j < i)%nat -> Panupdate.getReleaseFromTicstep (tickstep j) = None)
     /\ (PreferUpdateSrv = "tickstep"
         \/ forall j, (j < 3)%nat -> Panupdate.getReleaseFromGithub (github j) = None))
  \/ (PreferUpdateSrv <> "tickstep"
      /\ exists i, (i < 3)%nat
           /\ Panupdate.getReleaseFromGithub (github i) = Some info
           /\ forall j, (j < i)%nat -> Panupdate.getReleaseFromGithub (github j) = None).
Proof.
  unfold Panupdate.GetLatestReleaseInfo.
  pose proof (tryServer_spec Panupdate.getReleaseFromTicstep tickstep 3 0 0) as Hts.
  destruct (Panupdate.tryServer Panupdate.getReleaseFromTicstep tickstep 3 0 0)
    as [ts sleeps1].
  pose proof (tryServer_spec Panupdate.getReleaseFromGithub github 3 0 sleeps1) as Hgh.
  destruct (Panupdate.tryServer Panupdate.getReleaseFromGithub github 3 0 sleeps1)
    as [gh sleeps2].
  destruct Hts as (_ & _ & _ & Hts). destruct Hgh as (Hghn & _ & _ & Hgh).
  cbn [Nat.add fst] in *.
  destruct (String.eqb_spec PreferUpdateSrv "tickstep") as [Hp|Hp]; intros Hr.
  - left. destruct (Hts info Hr) as (i & Hi & Hg & _ & Hb). exists i. auto.
  - destruct gh as [g|].
    + right. split; [exact Hp|]. destruct (Hgh info Hr) as (i & Hi & Hg & _ & Hb).
      exists i. auto.
    + left. destruct (Hts info Hr) as (i & Hi & Hg & _ & Hb). exists i.
      repeat split; auto. right. now apply Hghn.
Qed.

Lemma GetLatestReleaseInfo_first_witness :
  (exists i, (i < 3)%nat
     /\ Panupdate.getReleaseFromTicstep (sampleTickstep i) = Some sampleRelease
     /\ (forall j, (j < i)%nat ->
           Panupdate.getReleaseFromTicstep (sampleTickstep j) = None)
     /\ ("github" = "tickstep"
         \/ forall j, (j < 3)%nat ->
              Panupdate.getReleaseFromGithub (sampleGithub j) = None))
  \/ ("github" <> "tickstep"
      /\ exists i, (i < 3)%nat
           /\ Panupdate.getReleaseFromGithub (sampleGithub i) = Some sampleRelease
           /\ forall j, (j < i)%nat ->
                Panupdate.getReleaseFromGithub (sampleGithub j) = None).
Proof.
  apply (GetLatestReleaseInfo_first "github" sampleTickstep sampleGithub
           sampleRelease).
  reflexivity.
Defined.

(** ** The commands *)

Lemma fileInfoLoop_spec (PathJoin : Z -> string -> string) (Clean : string -> string)
    (AppFileInfoByPath : nat -> Z -> string -> error + Command.FileEntry)
    (familyId : Z) (paths : list string) :
  forall idx fileInfoList failedPaths,
    let '(l, f) :=
      Command.fileInfoLoop PathJoin Clean AppFileInfoByPath familyId idx paths
        fileInfoList failedPaths in
    (length l + length f = length fileInfoList + length failedPaths + length paths)%nat
    /\ (forall fe, fe ∈ fileInfoList -> fe ∈ l)
    /\ (forall p, p ∈ failedPaths -> p ∈ f)
    /\ (forall i p, paths !! i = Some p ->
          match AppFileInfoByPath (idx + i)%nat familyId (Clean (PathJoin familyId p)) with
          | inr fe => fe ∈ l
          | inl _ => Clean (PathJoin familyId p) ∈ f
          end).
Proof.
  induction paths as [|p rest IH]; intros idx fileInfoList failedPaths; cbn.
  - repeat split; auto; try lia. intros i p H. rewrite lookup_nil in H. discriminate.
  - destruct (AppFileInfoByPath idx familyId (Clean (PathJoin familyId p)))
      as [e|fe] eqn:Hlook.
    + specialize (IH (S idx) fileInfoList (failedPaths ++ [Clean (PathJoin familyId p)])).
      destruct (Command.fileInfoLoop _ _ _ _ _ _ _ _) as [l f].
      destruct IH as (Hlen & Hl & Hf & Hall).
      rewrite length_app in Hlen. cbn in Hlen.
      split; [lia|]. split; [exact Hl|].
      split; [intros q Hq; apply Hf, elem_of_app; now left|].
      intros [|i] q Hq; cbn in Hq.
      * simplify_eq. rewrite Nat.add_0_r, Hlook.
        apply Hf, elem_of_app. right. now apply list_elem_of_singleton.
      * replace (idx + S i)%nat with (S idx + i)%nat by lia. now apply Hall.
    + specialize (IH (S idx) (fileInfoList ++ [fe]) failedPaths).
      destruct (Command.fileInfoLoop _ _ _ _ _ _ _ _) as [l f].
      destruct IH as (Hlen & Hl & Hf & Hall).
      rewrite length_app in Hlen. cbn in Hlen.
      split; [lia|].
      split; [intros q Hq; apply Hl, elem_of_app; now left|].
      split; [exact Hf|].
      intros [|i] q Hq; cbn in Hq.
      * simplify_eq. rewrite Nat.add_0_r, Hlook.
        apply Hl, elem_of_app. right. now apply list_elem_of_singleton.
      * replace (idx + S i)%nat with (S idx + i)%nat by lia. now apply Hall.
Qed.

(** X9: [GetAppFileInfoByPaths] accounts for every path it is given: with
    at least one path it returns no error, the entries found and the paths
    that failed are together as many as the paths given, and the i-th path
    is among the failed ones (joined and cleaned) when its lookup fails
    and its entry is among the entries when it succeeds. *)
Theorem GetAppFileInfoByPaths_accounts (PathJoin : Z -> string -> string)
    (Clean : string -> string)
    (AppFileInfoByPath : nat -> Z -> string -> error + Command.FileEntry)
    (familyId : Z) (paths : list string) :
  paths <> [] ->
  let '(fileInfoList, failedPaths, err) :=
    Command.GetAppFileInfoByPaths PathJoin Clean AppFileInfoByPath familyId paths in
  err = None
  /\ (length fileInfoList + length failedPaths = length paths)%nat
  /\ (forall i p, paths !! i = Some p ->
        match AppFileInfoByPath i familyId (Clean (PathJoin familyId p)) with
        | inr fe => fe ∈ fileInfoList
        | inl _ => Clean (PathJoin familyId p) ∈ failedPaths
        end).
Proof.
  intros Hne. unfold Command.GetAppFileInfoByPaths.
  destruct paths as [|p0 rest]; [contradiction|].
  cbn [length Nat.leb].
  pose proof (fileInfoLoop_spec PathJoin Clean AppFileInfoByPath familyId
                (p0 :: rest) 0 [] []) as H.
  destruct (Command.fileInfoLoop _ _ _ _ _ _ _ _) as [l f].
  destruct H as (Hlen & _ & _ & Hall).
  split; [reflexivity|]. split; [exact Hlen|]. exact Hall.
Qed.

Lemma GetAppFileInfoByPaths_accounts_witness :
  let '(fileInfoList, failedPaths, err) :=
    Command.GetAppFileInfoByPaths (fun _ p => "/cloud/" +:+ p) (fun p => p)
      sampleLookup 0 ["a"; "b"] in
  err = None
  /\ (length fileInfoList + length failedPaths = length ["a"; "b"])%nat
  /\ (forall i p, ["a"; "b"] !! i = Some p ->
        match sampleLookup i 0 ("/cloud/" +:+ p) with
        | inr fe => fe ∈ fileInfoList
        | inl _ => "/cloud/" +:+ p ∈ failedPaths
        end).
Proof.
  apply (GetAppFileInfoByPaths_accounts (fun _ p => "/cloud/" +:+ p) (fun p => p)
           sampleLookup 0 ["a"; "b"]).
  discriminate.
Defined.

Lemma countListing_spec (load : Z) (visits : list Command.Visit) :
  1 <= load <= Int64.max_int64 ->
  forall c, 0 <= c < load ->
    Command.countListing load c visits
    = Z.min load (c + Z.of_nat (length (filter (fun v => isFileVisit v = true) visits))).
Proof.
  intros Hload. induction visits as [|v rest IH]; intros c Hc.
  - cbn. lia.
  - cbn [Command.countListing]. unfold Command.countVisit.
    destruct v as [e|fd].
    + rewrite filter_cons_False by (cbn; discriminate). apply IH. lia.
    + destruct (Downloader.IsFolder (Command.entity fd)) eqn:Hfold.
      * rewrite filter_cons_False by (cbn; rewrite Hfold; discriminate).
        apply IH. lia.
      * rewrite filter_cons_True by (cbn; now rewrite Hfold).
        unfold Int64.add. rewrite wrap_in_range
          by (unfold Int64.in_range, Int64.min_int64, Int64.max_int64 in *; lia).
        cbn [length].
        destruct (Z.leb_spec load (c + 1)) as [Hge|Hlt].
        -- lia.
        -- rewrite IH by lia. lia.
Qed.

Lemma countLoad_spec (load : Z) (listings : list (list Command.Visit)) :
  1 <= load <= Int64.max_int64 ->
  forall c, 0 <= c < load ->
    Command.countLoad load c listings = Z.min load (c + fileCount listings).
Proof.
  intros Hload. unfold fileCount.
  induction listings as [|visits rest IH]; intros c Hc.
  - cbn. lia.
  - cbn [Command.countLoad concat].
    rewrite (countListing_spec load visits Hload c Hc).
    rewrite filter_app, length_app, Nat2Z.inj_add.
    set (n := Z.of_nat (length (filter (fun v => isFileVisit v = true) visits))).
    assert (0 <= n) by (subst n; lia).
    destruct (Z.leb_spec load (Z.min load (c + n))) as [Hge|Hlt].
    + lia.
    + rewrite IH by lia. lia.
Qed.

(** X10: with a load limit of at least 1, the number of files that
    [RunDownload] counts before it starts is the number of files that the
    listings of its paths hold, and the limit when they hold more: folders
    and failed entries are not counted, and the counting stops at the
    limit. *)
Theorem countLoad_is_capped_file_count (load : Z)
    (listings : list (list Command.Visit)) :
  1 <= load <= Int64.max_int64 ->
  Command.countLoad load 0 listings = Z.min load (fileCount listings).
Proof.
  intros Hload. rewrite (countLoad_spec load listings Hload 0) by lia.
  reflexivity.
Qed.

Lemma countLoad_is_capped_file_count_witness :
  Command.countLoad 2 0 sampleVisits = Z.min 2 (fileCount sampleVisits).
Proof.
  apply (countLoad_is_capped_file_count 2 sampleVisits).
  unfold Int64.max_int64. lia.
Defined.

(** X11: when the options ask for a load limit and a parallelism of at
    least 1, [RunDownload] gives its units a parallelism between 1 and the
    one asked for; when the listings hold files, the load becomes the
    capped number of files, and the parallelism of one unit times that load
    does not exceed the larger of the parallelism asked for and the load;
    when they hold none, each unit gets the full parallelism. *)
Theorem downloadSettings_parallelism (KB MB : Z) (conf : Command.AppConfig)
    (windows : bool) (options : Command.DownloadOptions)
    (listings : list (list Command.Visit)) :
  1 <= Command.Load options <= Int64.max_int64 ->
  1 <= Command.Parallel options ->
  let '(options', cfg) := Command.downloadSettings KB MB conf windows options listings in
  Command.Parallel options' = Command.Parallel options
  /\ 1 <= Downloader.MaxParallel cfg <= Command.Parallel options
  /\ (0 < fileCount listings ->
      Command.Load options' = Z.min (Command.Load options) (fileCount listings)
      /\ Downloader.MaxParallel cfg * Command.Load options'
         <= Z.max (Command.Parallel options) (Command.Load options'))
  /\ (fileCount listings = 0 ->
      Command.Load options' = Command.Load options
      /\ Downloader.MaxParallel cfg = Command.Parallel options).
Proof.
  intros Hload Hpar. unfold Command.downloadSettings.
  cbn [Command.Parallel Command.Load Downloader.MaxParallel].
  destruct (Z.leb_spec (Command.Load options) 0) as [|_]; [lia|].
  destruct (Z.ltb_spec (Command.Parallel options) 1) as [|_]; [lia|].
  rewrite (countLoad_spec (Command.Load options) listings Hload 0 ltac:(lia)); rewrite Z.add_0_l.
  assert (0 <= fileCount listings) as Hfc by (unfold fileCount; lia).
  set (n := Z.min (Command.Load options) (fileCount listings)).
  destruct (Z.ltb_spec 0 n) as [Hpos|Hzero].
  - pose proof (AverageParallel_spec (Command.Parallel options) n) as (H1 & H2 & H3).
    rewrite (Z.max_r 1 n) in H3 by lia.
    split; [reflexivity|]. split; [lia|]. split; [intros _; split; [reflexivity|lia]|].
    intros Hz. lia.
  - split; [reflexivity|]. split; [lia|]. split; [intros Hp; lia|].
    intros _. split; reflexivity.
Qed.

Lemma downloadSettings_parallelism_witness :
  let '(options', cfg) :=
    Command.downloadSettings 1024 1048576 sampleAppConfig false sampleOptions
      sampleVisits in
  Command.Parallel options' = Command.Parallel sampleOptions
  /\ 1 <= Downloader.MaxParallel cfg <= Command.Parallel sampleOptions
  /\ (0 < fileCount sampleVisits ->
      Command.Load options'
      = Z.min (Command.Load sampleOptions) (fileCount sampleVisits)
      /\ Downloader.MaxParallel cfg * Command.Load options'
         <= Z.max (Command.Parallel sampleOptions) (Command.Load options'))
  /\ (fileCount sampleVisits = 0 ->
      Command.Load options' = Command.Load sampleOptions
      /\ Downloader.MaxParallel cfg = Command.Parallel sampleOptions).
Proof.
  apply (downloadSettings_parallelism 1024 1048576 sampleAppConfig false
           sampleOptions sampleVisits).
  - unfold Int64.max_int64. cbn. lia.
  - cbn. lia.
Defined.

(** ** The switch of the family cloud *)

Lemma findFamily_found (targetFamilyId : Z) (familyList : list Command.AppFamilyInfo)
    (info : Command.AppFamilyInfo) :
  Command.findFamily targetFamilyId familyList = Some info ->
  info ∈ familyList /\ Command.familyInfoId info = targetFamilyId.
Proof.
  induction familyList as [|f rest IH]; cbn; [discriminate|].
  destruct (Z.eqb_spec (Command.familyInfoId f) targetFamilyId) as [Heq|Hne].
  - intros [= <-]. split; [apply list_elem_of_here | exact Heq].
  - intros H. destruct (IH H) as [Hin Hid]. split; [now apply list_elem_of_further | exact Hid].
Qed.

(** X12: [RunSwitchFamilyList] either leaves the active user as it is, or
    makes active an entry of the list made of the personal cloud followed by
    the families that the remote service returned, the one with the asked
    id when an id was given; the family working directory is kept when the
    active id does not change and is reset to "/" when it does. *)
Theorem RunSwitchFamilyList_result (rootDir : Downloader.AppFileEntity)
    (remote : error + list Command.AppFamilyInfo) (typed : Command.Typed)
    (targetFamilyId : Z) (user : Command.PanUser) :
  let user' := Command.RunSwitchFamilyList rootDir remote typed targetFamilyId user in
  user' = user
  \/ exists familyInfoList info,
       remote = inr familyInfoList
       /\ info ∈ Command.personCloud :: familyInfoList
       /\ (0 <= targetFamilyId -> Command.familyInfoId info = targetFamilyId)
       /\ Command.ActiveFamilyId user' = Command.familyInfoId info
       /\ Command.ActiveFamilyInfo user' = info
       /\ (Command.familyInfoId info = Command.ActiveFamilyId user ->
           Command.FamilyWorkdir user' = Command.FamilyWorkdir user
           /\ Command.FamilyWorkdirFileEntity user'
              = Command.FamilyWorkdirFileEntity user)
       /\ (Command.familyInfoId info <> Command.ActiveFamilyId user ->
           Command.FamilyWorkdir user' = "/"
           /\ Command.FamilyWorkdirFileEntity user' = rootDir).
Proof.
  cbn zeta. unfold Command.RunSwitchFamilyList, Command.getFamilyOptionList.
  destruct remote as [e|familyInfoList]; [now left|].
  cbn [app].
  match goal with
  | |- context [match ?a with Some _ => _ | None => user end] =>
      destruct a as [info|] eqn:Hsel; [|now left]
  end.
  right. exists familyInfoList, info.
  assert (info ∈ Command.personCloud :: familyInfoList
          /\ (0 <= targetFamilyId -> Command.familyInfoId info = targetFamilyId))
    as [Hin Hid].
  { destruct (Z.ltb_spec targetFamilyId 0) as [Hneg|Hpos].
    - split; [|lia]. destruct typed as [| |n]; try discriminate.
      destruct ((0 <=? n) && (n <? _)); [|discriminate].
      eapply list_elem_of_lookup_2; eauto.
    - destruct (findFamily_found _ _ _ Hsel). auto. }
  split; [reflexivity|]. split; [exact Hin|]. split; [exact Hid|].
  destruct (Z.eqb_spec (Command.ActiveFamilyId user) (Command.familyInfoId info))
    as [Heq|Hne]; cbn; repeat split; auto; intros; congruence.
Qed.

(** X13: once the remote service has returned the list of families, a
    switch to the id 0 makes the personal cloud active, whatever the
    families are and whatever is typed. *)
Theorem RunSwitchFamilyList_personal (rootDir : Downloader.AppFileEntity)
    (familyInfoList : list Command.AppFamilyInfo) (typed : Command.Typed)
    (user : Command.PanUser) :
  let user' := Command.RunSwitchFamilyList rootDir (inr familyInfoList) typed 0 user in
  Command.ActiveFamilyId user' = 0
  /\ Command.ActiveFamilyInfo user' = Command.personCloud.
Proof.
  cbn. destruct (Command.ActiveFamilyId user =? 0); cbn; auto.
Qed.

(** ** The export of metadata *)

Lemma exportListing_spec (Marshal : Command.ImportExportFileItem -> option string)
    (visits : list Command.Visit) :
  forall lines totalCount,
    totalCount = Z.of_nat (length lines) ->
    Z.of_nat (length lines + length visits) <= Int64.max_int64 ->
    let '(lines', totalCount') := Command.exportListing Marshal lines totalCount visits in
    totalCount' = Z.of_nat (length lines')
    /\ (length lines' <= length lines + length visits)%nat
    /\ exists added,
         lines' = lines ++ added
         /\ Forall (fun line =>
                      exists fd jstr,
                        Command.VisitEntry fd ∈ visits
                        /\ Downloader.IsFolder (Command.entity fd) = false
                        /\ Marshal
                             (Command.mkImportExportFileItem (Command.FileMd5 fd)
                                (Downloader.FileSize (Command.entity fd))
                                (Command.Path fd) (Command.LastOpTime fd))
                           = Some jstr
                        /\ line = jstr +:+ String (Ascii.ascii_of_nat 10) EmptyString)
              added.
Proof.
  induction visits as [|v rest IH]; intros lines totalCount Hcount Hmax.
  - cbn. split; [exact Hcount|]. split; [lia|]. exists []. now rewrite app_nil_r.
  - cbn [Command.exportListing]. unfold Command.exportVisit.
    cbn [length] in Hmax.
    assert (forall lines1 totalCount1,
              (lines1, totalCount1) = (lines, totalCount) ->
              let '(lines', totalCount') :=
                Command.exportListing Marshal lines1 totalCount1 rest in
              totalCount' = Z.of_nat (length lines')
              /\ (length lines' <= length lines + S (length rest))%nat
              /\ exists added,
                   lines' = lines ++ added
                   /\ Forall (fun line =>
                        exists fd jstr,
                          Command.VisitEntry fd ∈ v :: rest
                          /\ Downloader.IsFolder (Command.entity fd) = false
                          /\ Marshal
                               (Command.mkImportExportFileItem (Command.FileMd5 fd)
                                  (Downloader.FileSize (Command.entity fd))
                                  (Command.Path fd) (Command.LastOpTime fd))
                             = Some jstr
                          /\ line = jstr +:+ String (Ascii.ascii_of_nat 10) EmptyString)
                        added) as Hskip.
    { intros lines1 totalCount1 [= -> ->].
      specialize (IH lines totalCount Hcount ltac:(lia)).
      destruct (Command.exportListing Marshal lines totalCount rest) as [l' c'].
      destruct IH as (Hc & Hl & added & -> & Hall).
      split; [exact Hc|]. split; [lia|]. exists added. split; [reflexivity|].
      eapply Forall_impl; [exact Hall|].
      intros line (fd & jstr & Hin & Hrest). exists fd, jstr.
      split; [now apply list_elem_of_further | exact Hrest]. }
    destruct v as [e|fd]; [exact (Hskip _ _ eq_refl)|].
    destruct (Downloader.IsFolder (Command.entity fd)) eqn:Hfold;
      [exact (Hskip _ _ eq_refl)|].
    destruct (Marshal _) as [jstr|] eqn:Hm.
    + assert (Int64.add totalCount 1 = totalCount + 1) as Hw.
      { unfold Int64.add. apply wrap_in_range.
        unfold Int64.in_range, Int64.min_int64, Int64.max_int64 in *. lia. }
      rewrite Hw.
      specialize (IH (lines ++ [jstr +:+ String (Ascii.ascii_of_nat 10) EmptyString])
                    (totalCount + 1)).
      rewrite length_app in IH. cbn [length] in IH.
      assert (Z.of_nat (length lines + 1 + length rest) <= Int64.max_int64) as Hmax'
        by (clear -Hmax; lia).
      assert (totalCount + 1 = Z.of_nat (length lines + 1)) as Hcount'
        by (clear -Hcount; lia).
      specialize (IH Hcount' Hmax').
      destruct (Command.exportListing Marshal _ _ rest) as [l' c'].
      destruct IH as (Hc & Hl & added & -> & Hall).
      split; [exact Hc|]. split; [cbn [length]; lia|].
      exists ((jstr +:+ String (Ascii.ascii_of_nat 10) EmptyString) :: added).
      split; [now rewrite <- app_assoc|].
      constructor.
      * exists fd, jstr. repeat split; auto. apply list_elem_of_here.
      * eapply Forall_impl; [exact Hall|].
        intros line (fd' & jstr' & Hin & Hrest). exists fd', jstr'.
        split; [now apply list_elem_of_further | exact Hrest].
    + split; [exact Hcount|]. split; [lia|]. exists []. split; [now rewrite app_nil_r|].
      constructor.
Qed.



(** ** The plan of a download, continued *)

(** X15: for a download without saved ranges [SelectParallel] gives between
    1 and the configured maximum of workers (1 when the maximum is below
    1), and never more workers than leave [MinParallelSize] bytes to each
    but the last.  The configured maximum is a Go [int], so it is at most
    [max_int64]. *)
Theorem SelectParallel_fresh (MinParallelSize : Z) (cfg : Downloader.Config)
    (maxParallel totalSize : Z) :
  0 < MinParallelSize ->
  0 <= totalSize <= Int64.max_int64 ->
  Downloader.MaxParallel cfg <= Int64.max_int64 ->
  let parallel :=
    Downloader.SelectParallel MinParallelSize cfg false maxParallel totalSize [] in
  1 <= parallel <= Z.max 1 (Downloader.MaxParallel cfg)
  /\ (parallel - 1) * MinParallelSize <= totalSize.
Proof.
  intros Hmin Ht Hmax. unfold Downloader.SelectParallel. cbn [length Nat.eqb negb].
  rewrite Z.quot_div_nonneg by lia.
  pose proof (Z.mul_div_le totalSize MinParallelSize Hmin) as Hq.
  assert (0 <= totalSize / MinParallelSize <= totalSize) as Hq2.
  { split; [apply Z.div_pos; lia|]. apply Z.div_le_upper_bound; nia. }
  destruct (Z.ltb_spec (totalSize / MinParallelSize) (Downloader.MaxParallel cfg))
    as [Hlt|Hge].
  - unfold Int64.add. rewrite wrap_in_range
      by (unfold Int64.in_range, Int64.min_int64, Int64.max_int64 in *; lia).
    destruct (Z.ltb_spec (totalSize / MinParallelSize + 1) 1); split; nia.
  - destruct (Z.ltb_spec (Downloader.MaxParallel cfg) 1); split; nia.
Qed.

Lemma SelectParallel_fresh_witness :
  1 <= Downloader.SelectParallel 131072 cfg_4MiB_3 false 3 300000 []
    <= Z.max 1 (Downloader.MaxParallel cfg_4MiB_3)
  /\ (Downloader.SelectParallel 131072 cfg_4MiB_3 false 3 300000 [] - 1) * 131072
     <= 300000.
Proof.
  apply (SelectParallel_fresh 131072 cfg_4MiB_3 3 300000); [lia| |].
  - unfold Int64.max_int64. lia.
  - vm_compute. discriminate.
Defined.

Lemma genRanges_length (n : nat) :
  forall gen acc,
    (length (fst (Downloader.genRanges n gen acc)) <= length acc + n)%nat.
Proof.
  induction n as [|n IH]; intros gen acc; cbn; [lia|].
  destruct (Transfer.GenRange gen) as [[i [r|]] gen']; cbn; [|lia].
  specialize (IH gen' (acc ++ [r])). rewrite length_app in IH. cbn in IH. lia.
Qed.

(** X16: in BlockSize mode, for a download without saved state, a file of
    size 0 or more, a parallelism of at least 1 and a configured block size
    above 0, the plan of [Execute] has a block size above 0 and a cache no
    larger than it; it holds at most [parallel] ranges; and when the block
    size is below the configured one, [parallel] blocks are more than the
    file. *)
Theorem planRanges_BlockSize_mode (cfg : Downloader.Config) (totalSize parallel : Z) :
  Downloader.Mode cfg = Transfer.RangeGenMode_BlockSize ->
  0 <= totalSize <= Int64.max_int64 ->
  1 <= parallel ->
  totalSize / parallel < Int64.max_int64 ->
  0 < Downloader.BlockSize cfg ->
  exists blockSize cacheSize ranges status,
    Downloader.planRanges cfg false totalSize
      (Transfer.SetTotalSize Transfer.NewDownloadStatus totalSize) parallel []
    = Some (inr (blockSize, cacheSize, ranges, status))
    /\ 0 < blockSize <= Downloader.BlockSize cfg
    /\ cacheSize = Z.min (Downloader.CacheSize cfg) blockSize
    /\ (length ranges <= Z.to_nat parallel)%nat
    /\ (blockSize < Downloader.BlockSize cfg -> totalSize < parallel * blockSize).
Proof.
  intros Hmode Ht Hp Hq Hb.
  unfold Downloader.planRanges, Downloader.SelectBlockSizeAndInitRangeGen.
  cbn [Transfer.rangeListGen Transfer.SetTotalSize Transfer.NewDownloadStatus
       Transfer.totalSize].
  rewrite Hmode.
  destruct (quot_in_range totalSize parallel Ht Hp) as [-> Hdiv].
  unfold Int64.add. rewrite wrap_in_range
    by (unfold Int64.in_range, Int64.min_int64, Int64.max_int64 in *; lia).
  set (blockSize := if Downloader.BlockSize cfg <? totalSize / parallel + 1
                    then Downloader.BlockSize cfg else totalSize / parallel + 1).
  assert (0 < blockSize <= Downloader.BlockSize cfg
          /\ (blockSize < Downloader.BlockSize cfg -> totalSize < parallel * blockSize))
    as (Hbs & Hcover).
  { subst blockSize.
    destruct (Z.ltb_spec (Downloader.BlockSize cfg) (totalSize / parallel + 1)).
    - split; [lia|]. lia.
    - split; [lia|]. intros _.
      pose proof (Z.mul_succ_div_gt totalSize parallel ltac:(lia)). lia. }
  unfold Downloader.assignRanges.
  cbn [length Nat.eqb negb Transfer.rangeListGen Transfer.SetRangeListGen].
  destruct (Z.ltb_spec parallel 0) as [|_]; [lia|].
  pose proof (genRanges_length (Z.to_nat parallel)
                (Transfer.NewRangeListGenBlockSize totalSize 0 blockSize) []) as Hlen.
  destruct (Downloader.genRanges _ _ _) as [rs gen']. cbn [fst length] in Hlen.
  do 4 eexists. split; [reflexivity|].
  split; [exact Hbs|]. split.
  - unfold Downloader.SelectCacheSize.
    destruct (Z.ltb_spec 0 blockSize); [|lia].
    destruct (Z.ltb_spec blockSize (Downloader.CacheSize cfg)); cbn; lia.
  - split; [lia | exact Hcover].
Qed.

Lemma planRanges_BlockSize_mode_witness :
  exists blockSize cacheSize ranges status,
    Downloader.planRanges cfg_4MiB_3 false (10 * MiB)
      (Transfer.SetTotalSize Transfer.NewDownloadStatus (10 * MiB)) 3 []
    = Some (inr (blockSize, cacheSize, ranges, status))
    /\ 0 < blockSize <= Downloader.BlockSize cfg_4MiB_3
    /\ cacheSize = Z.min (Downloader.CacheSize cfg_4MiB_3) blockSize
    /\ (length ranges <= Z.to_nat 3)%nat
    /\ (blockSize < Downloader.BlockSize cfg_4MiB_3 -> 10 * MiB < 3 * blockSize).
Proof.
  apply (planRanges_BlockSize_mode cfg_4MiB_3 (10 * MiB) 3).
  - reflexivity.
  - vm_compute. split; discriminate.
  - lia.
  - vm_compute. reflexivity.
  - vm_compute. reflexivity.
Defined.

(** X17: a download that resumes from saved ranges with a saved generator
    gets one worker per saved range from [SelectParallel], and its plan
    keeps the saved ranges and the saved status as they are, whatever the
    configured mode and block size. *)
Theorem planRanges_resumed (MinParallelSize : Z) (cfg : Downloader.Config)
    (fileSize : Z) (status : Transfer.DownloadStatus) (gen : Transfer.RangeListGen)
    (ranges : Transfer.RangeList) :
  ranges <> [] ->
  Transfer.rangeListGen status = Some gen ->
  let parallel :=
    Downloader.SelectParallel MinParallelSize cfg false (Downloader.MaxParallel cfg)
      (Transfer.totalSize status) ranges in
  parallel = Z.of_nat (length ranges)
  /\ exists cacheSize,
       Downloader.planRanges cfg false fileSize status parallel ranges
       = Some (inr (Transfer.blockSize gen, cacheSize, ranges, status)).
Proof.
  intros Hne Hgen parallel.
  assert (parallel = Z.of_nat (length ranges)) as Hp.
  { subst parallel. unfold Downloader.SelectParallel.
    destruct ranges as [|r rest]; [contradiction|]. cbn [length Nat.eqb negb].
    destruct (Z.ltb_spec (Z.of_nat (S (length rest))) 1); lia. }
  split; [exact Hp|].
  unfold Downloader.planRanges, Downloader.SelectBlockSizeAndInitRangeGen,
    Downloader.assignRanges.
  rewrite Hgen. cbn.
  destruct ranges as [|r rest]; [contradiction|]. cbn.
  eexists. destruct status as [t g]. cbn in *. subst g. reflexivity.
Qed.

Lemma planRanges_resumed_witness :
  Downloader.SelectParallel 131072 cfg_4MiB_3 false 3 (10 * MiB)
    [Transfer.mkRange 100 200; Transfer.mkRange 300 400]
  = 2
  /\ exists cacheSize,
       Downloader.planRanges cfg_4MiB_3 false (10 * MiB)
         (Transfer.mkDownloadStatus (10 * MiB)
            (Some (Transfer.NewRangeListGenBlockSize (10 * MiB) 400 1000)))
         (Downloader.SelectParallel 131072 cfg_4MiB_3 false 3 (10 * MiB)
            [Transfer.mkRange 100 200; Transfer.mkRange 300 400])
         [Transfer.mkRange 100 200; Transfer.mkRange 300 400]
       = Some (inr (1000, cacheSize,
                    [Transfer.mkRange 100 200; Transfer.mkRange 300 400],
                    Transfer.mkDownloadStatus (10 * MiB)
                      (Some (Transfer.NewRangeListGenBlockSize (10 * MiB) 400 1000)))).
Proof.
  apply (planRanges_resumed 131072 cfg_4MiB_3 (10 * MiB)
           (Transfer.mkDownloadStatus (10 * MiB)
              (Some (Transfer.NewRangeListGenBlockSize (10 * MiB) 400 1000)))
           (Transfer.NewRangeListGenBlockSize (10 * MiB) 400 1000)
           [Transfer.mkRange 100 200; Transfer.mkRange 300 400]).
  - discriminate.
  - reflexivity.
Defined.

Lemma spawnWorkers_sublist (der : Downloader.DownloaderT) (ranges : Transfer.RangeList) :
  forall k lbl acc,
    exists added,
      fst (Downloader.spawnWorkers der k ranges lbl acc) = acc ++ added
      /\ sublist (map (fun w => (Downloader.wID w, Downloader.wRange w)) added)
           (imap (fun i r => (Z.of_nat (k + i), r)) ranges).
Proof.
  induction ranges as [|r rest IH]; intros k lbl acc.
  - exists []. cbn. split; [now rewrite app_nil_r | constructor].
  - cbn [Downloader.spawnWorkers imap].
    destruct (Downloader.SequentialGet lbl) as [x lbl1].
    assert (forall acc1,
              acc1 = acc ->
              exists added,
                fst (Downloader.spawnWorkers der (S k) rest lbl1 acc1) = acc ++ added
                /\ sublist (map (fun w => (Downloader.wID w, Downloader.wRange w)) added)
                     ((Z.of_nat (k + 0), r)
                      :: imap ((fun i r0 => (Z.of_nat (k + i), r0)) ∘ S) rest))
      as Hskip.
    { intros acc1 ->. destruct (IH (S k) lbl1 acc) as (added & Heq & Hsub).
      exists added. split; [exact Heq|]. apply sublist_cons.
      erewrite imap_ext; [exact Hsub|].
      intros i y _. cbn. f_equal. lia. }
    destruct x as [lb|]; [|exact (Hskip _ eq_refl)].
    match goal with
    | |- context [let '(_, _) := ?c in _] => destruct c as [durl apierr]
    end.
    destruct apierr as [e|]; [exact (Hskip _ eq_refl)|].
    destruct (IH (S k) lbl1
                (acc ++ [Downloader.mkWorker (Z.of_nat k) (Downloader.familyId der)
                           (Downloader.FileId (Downloader.fileInfo der)) durl r]))
      as (added & Heq & Hsub).
    eexists (_ :: added). split; [rewrite Heq, <- app_assoc; reflexivity|].
    cbn [map Downloader.wID Downloader.wRange]. rewrite Nat.add_0_r.
    apply sublist_skip.
    erewrite imap_ext; [exact Hsub|].
    intros i y _. cbn. f_equal. lia.
Qed.

(** X18: the workers that [Execute] builds are workers for the planned
    ranges: in the order of the ranges, each with the index of its range as
    its id, at most one per range; a range whose URL cannot be resolved gets
    no worker. *)
Theorem spawnWorkers_ranges (der : Downloader.DownloaderT)
    (ranges : Transfer.RangeList) (lbl : Downloader.LoadBalancerResponseList) :
  sublist
    (map (fun w => (Downloader.wID w, Downloader.wRange w))
       (fst (Downloader.spawnWorkers der 0 ranges lbl [])))
    (imap (fun i r => (Z.of_nat i, r)) ranges).
Proof.
  destruct (spawnWorkers_sublist der ranges 0 lbl []) as (added & -> & Hsub).
  exact Hsub.
Qed.

(** X19: [Execute] triggers the success event exactly when it returns no
    error or returns [ErrNoWokers] for a file of size 0; it triggers the
    events in the order execute, success, finish; and when it returns
    before the monitor has run it triggers none, not even the finish
    event. *)
Theorem Execute_events (MinParallelSize : Z) (env : Downloader.ExecEnv)
    (der : Downloader.DownloaderT) (fs : FileSystem) (res : Downloader.ExecResult) :
  Downloader.Execute MinParallelSize env der fs = Some res ->
  (In Downloader.OnSuccess (Downloader.execEvents res) <->
   Downloader.execEvents res <> []
   /\ (Downloader.execErr res = None
       \/ (Downloader.execErr res = Some ErrNoWokers
           /\ Downloader.FileSize (Downloader.fileInfo der) = 0)))
  /\ (Downloader.execEvents res = []
      \/ Downloader.execEvents res = [Downloader.OnExecute; Downloader.OnFinish]
      \/ Downloader.execEvents res
         = [Downloader.OnExecute; Downloader.OnSuccess; Downloader.OnFinish])
  /\ (Downloader.execEvents res = [] ->
      Downloader.execWorkers res = []
      /\ exists e, Downloader.execErr res = Some e).
Proof.
  unfold Downloader.Execute, Downloader.initInstanceState. intros H.
  destruct (Downloader.checkLoadBalancers _ _ _ _ _) as [lbl|]; [|discriminate].
  destruct (Downloader.instanceStateOpenFails env).
  { simplify_eq. cbn. split; [|eauto]. split; [intros []|intros [Hne _]; congruence]. }
  destruct (fs !! Downloader.InstanceStatePath (Downloader.config der));
    cbv beta iota zeta in H.
  all: match type of H with
       | context [Downloader.planRanges ?a ?b ?c ?d ?e ?f] =>
           destruct (Downloader.planRanges a b c d e f)
             as [[e0|[[[bs cs] rs] st2]]|]
       end; try discriminate H.
  all: try (simplify_eq; cbn; split;
            [split; [intros []|intros [Hne _]; congruence] | eauto]; fail).
  all: destruct (Downloader.spawnWorkers _ _ _ _ _) as [ws lbl'];
    destruct (Downloader.monitorRun env ws st2) as [merr size];
    unfold Downloader.finishExecute in H;
    destruct merr as [e|];
    [destruct (decide (e = ErrNoWokers)) as [->|Hne];
     [rewrite bool_decide_eq_true_2 in H by reflexivity;
      destruct (Z.eqb_spec (Downloader.FileSize (Downloader.fileInfo der)) 0)
      |rewrite bool_decide_eq_false_2 in H by assumption]|];
    cbn in H; simplify_eq; cbn;
    (split; [split; [intros Hin|intros [_ Hor]]|split; [auto|discriminate]]).
  all: try (split; [discriminate|]; auto; fail).
  all: try (right; left; reflexivity).
  all: try (destruct Hin as [Hin|[Hin|[]]]; discriminate Hin).
  all: try (destruct Hor as [Hor|[Hor Hz]]; congruence).
Qed.

Lemma Execute_events_witness :
  exists res,
    Downloader.Execute 131072 (sampleExecEnv None (10 * MiB)) sampleDownloader ∅
    = Some res
    /\ (In Downloader.OnSuccess (Downloader.execEvents res) <->
        Downloader.execEvents res <> []
        /\ (Downloader.execErr res = None
            \/ (Downloader.execErr res = Some ErrNoWokers
                /\ Downloader.FileSize (Downloader.fileInfo sampleDownloader) = 0)))
    /\ (Downloader.execEvents res = []
        \/ Downloader.execEvents res = [Downloader.OnExecute; Downloader.OnFinish]
        \/ Downloader.execEvents res
           = [Downloader.OnExecute; Downloader.OnSuccess; Downloader.OnFinish])
    /\ (Downloader.execEvents res = [] ->
        Downloader.execWorkers res = []
        /\ exists e, Downloader.execErr res = Some e).
Proof.
  eexists. split; [vm_compute; reflexivity|].
  apply (Execute_events 131072 (sampleExecEnv None (10 * MiB)) sampleDownloader ∅).
  vm_compute. reflexivity.
Defined.

(** ** One download and its files, continued *)

Lemma append_neq (s t : string) : t <> "" -> s +:+ t <> s.
Proof.
  intros Ht. induction s as [|a s IH]; cbn; [exact Ht|].
  intros H. injection H as H. exact (IH H).
Qed.

Lemma state_path_neq (p : string) : p +:+ Pandownload.DownloadSuffix <> p.
Proof. apply append_neq. discriminate. Qed.

(** What [Execute] leaves of the files: it returns either before the
    monitor has run, with the files as the opening of the state file left
    them, or after it, with the output file written and the state file
    removed exactly when the download counts as a success. *)
Lemma Execute_files (MinParallelSize : Z) (env : Downloader.ExecEnv)
    (der : Downloader.DownloaderT) (fs : FileSystem) (res : Downloader.ExecResult) :
  Downloader.Execute MinParallelSize env der fs = Some res ->
  let state := Downloader.InstanceStatePath (Downloader.config der) in
  exists fs1,
    (fs1 = fs \/ fs1 = <[state := 0]> fs)
    /\ ((Downloader.execFs res = fs1
         /\ exists e, Downloader.execErr res = Some e /\ e <> ErrNoWokers)
        \/ exists size,
             (Downloader.execFs res
              = delete state (<[Downloader.writerPath der := size]> fs1)
              /\ (Downloader.execErr res = None
                  \/ Downloader.execErr res = Some ErrNoWokers
                     /\ Downloader.FileSize (Downloader.fileInfo der) = 0))
             \/ (Downloader.execFs res = <[Downloader.writerPath der := size]> fs1
                 /\ exists e, Downloader.execErr res = Some e
                    /\ ~ (e = ErrNoWokers
                          /\ Downloader.FileSize (Downloader.fileInfo der) = 0))).
Proof.
  unfold Downloader.Execute, Downloader.initInstanceState. intros H.
  destruct (Downloader.checkLoadBalancers _ _ _ _ _) as [lbl|]; [|discriminate].
  destruct (Downloader.instanceStateOpenFails env).
  { simplify_eq. cbn. exists fs. split; [auto|]. left. split; [reflexivity|].
    eexists. split; [reflexivity|discriminate]. }
  destruct (fs !! Downloader.InstanceStatePath (Downloader.config der));
    cbv beta iota zeta in H.
  all: match type of H with
       | context [Downloader.planRanges ?a ?b ?c ?d ?e ?f] =>
           destruct (Downloader.planRanges a b c d e f)
             as [[e0|[[[bs cs] rs] st2]]|] eqn:Hplan
       end; try discriminate H.
  all: try (apply planRanges_error in Hplan as ->; simplify_eq; cbn;
            eexists; split; [|left; split; [reflexivity|];
                              eexists; split; [reflexivity|discriminate]]; auto; fail).
  all: destruct (Downloader.spawnWorkers _ _ _ _ _) as [ws lbl'];
    destruct (Downloader.monitorRun env ws st2) as [merr size];
    unfold Downloader.finishExecute, Downloader.removeInstanceState in H;
    destruct merr as [e|];
    [destruct (decide (e = ErrNoWokers)) as [->|Hne];
     [rewrite bool_decide_eq_true_2 in H by reflexivity;
      destruct (Z.eqb_spec (Downloader.FileSize (Downloader.fileInfo der)) 0)
      |rewrite bool_decide_eq_false_2 in H by assumption]|];
    cbn in H; simplify_eq; cbn;
    (eexists; split;
     [|right; exists size;
       first [left; split; [reflexivity|]; auto; fail
             |right; split; [reflexivity|]; eexists; split; [reflexivity|]; tauto]];
     auto).
Qed.



Lemma download_success_files (MinParallelSize : Z) (filepath_Dir : string -> string)
    (env : Pandownload.DownloadEnv) (dtu dtu1 : Pandownload.DownloadTaskUnit)
    (fs fs1 : FileSystem) :
  Pandownload.download MinParallelSize filepath_Dir env dtu fs
  = Some (None, fs1, dtu1) ->
  fs1 !! (Pandownload.SavePath dtu +:+ Pandownload.DownloadSuffix) = None
  /\ is_Some (fs1 !! Pandownload.SavePath dtu)
  /\ dtu1 = Pandownload.setInstanceStatePath
              (Pandownload.SavePath dtu +:+ Pandownload.DownloadSuffix) dtu.
Proof.
  unfold Pandownload.download. intros H.
  pose proof (state_path_neq (Pandownload.SavePath dtu)) as Hneq.
  destruct (Pandownload.openDestination _ _ _ _) as [e|fs0]; [discriminate|].
  destruct (Downloader.Execute _ _ _ _) as [res|] eqn:Hexec; [|discriminate].
  apply Execute_files in Hexec. cbn in Hexec.
  destruct (Pandownload.finishDownload _ _ _ _) as [err' fs2] eqn:Hfin.
  simplify_eq.
  destruct Hexec as (fsa & _ & Hcases).
  unfold Pandownload.finishDownload in Hfin. cbn in Hfin.
  destruct Hcases as [[_ (e & He & Hne)]|[size [[Hfs Herr]|[_ (e & He & Hne)]]]].
  - rewrite He in Hfin.
    rewrite bool_decide_eq_false_2 in Hfin by assumption. cbn in Hfin.
    repeat case_match; simplify_eq.
  - assert (fs1 = Downloader.execFs res) as ->.
    { destruct Herr as [Herr|[Herr Hz]]; rewrite Herr in Hfin.
      - congruence.
      - rewrite bool_decide_eq_true_2 in Hfin by reflexivity.
        rewrite Hz in Hfin. cbn in Hfin. congruence. }
    rewrite Hfs. split; [apply lookup_delete_eq|].
    split; [|reflexivity].
    rewrite lookup_delete_ne by congruence.
    rewrite lookup_insert_eq. eauto.
  - rewrite He in Hfin.
    destruct (decide (e = ErrNoWokers)) as [->|Hne'].
    + rewrite bool_decide_eq_true_2 in Hfin by reflexivity.
      destruct (Z.eqb_spec
                  (Downloader.FileSize (Pandownload.fileInfo dtu)) 0) as [Hz|Hz];
        [exfalso; apply Hne; split; [reflexivity | exact Hz]|].
      cbn in Hfin. repeat case_match; simplify_eq.
    + rewrite bool_decide_eq_false_2 in Hfin by assumption. cbn in Hfin.
      repeat case_match; simplify_eq.
Qed.



(** X22: a run that gets past the skip and downloads without an error
    reports success exactly when the unit checks its files: with [NoCheck]
    set the result is not a success, carries no error and asks for no
    retry. *)
Theorem runDownload_completed (ApiCodeFileNotFoundCode MinParallelSize : Z)
    (filepath_Dir : string -> string) (env : Pandownload.DownloadEnv)
    (dtu dtu1 : Pandownload.DownloadTaskUnit) (fs fs1 : FileSystem) :
  Pandownload.IsOverwrite dtu = true
  \/ Pandownload.FileExist fs (Pandownload.SavePath dtu) = false ->
  Pandownload.download MinParallelSize filepath_Dir env dtu fs
  = Some (None, fs1, dtu1) ->
  exists r,
    Pandownload.runDownload ApiCodeFileNotFoundCode MinParallelSize filepath_Dir
      env dtu fs
    = Some (r, fs1, dtu1)
    /\ Pandownload.Succeed r = negb (Pandownload.NoCheck dtu)
    /\ Pandownload.NeedRetry r = false
    /\ Pandownload.Err r = None.
Proof.
  intros Hskip Hd.
  destruct (download_success_files _ _ _ _ _ _ _ Hd) as (_ & _ & Hdtu1).
  unfold Pandownload.runDownload.
  assert (negb (Pandownload.IsOverwrite dtu)
          && Pandownload.FileExist fs (Pandownload.SavePath dtu) = false) as ->
    by (destruct Hskip as [-> | ->]; [reflexivity | apply andb_false_r]).
  rewrite Hd. subst dtu1.
  unfold Pandownload.checkFileValid, Pandownload.checkFileValidWith,
    Pandownload.CheckFileValid. cbn.
  destruct (Pandownload.NoCheck dtu); cbn; eexists; repeat split.
Qed.

Lemma runDownload_completed_witness :
  exists r,
    Pandownload.runDownload 404 131072 (fun _ => "/d")
      (sampleEnv None None (10 * MiB) None)
      (Pandownload.mkDownloadTaskUnit cfg_4MiB_3 samplePan false false true
         "/cloud/f" "/d/f" 0 (Downloader.mkAppFileEntity "file-1" (10 * MiB) false))
      ∅
    = Some (r, {["/d/f" := 10 * MiB]},
            Pandownload.setInstanceStatePath "/d/f.cloudpan189-downloading"
              (Pandownload.mkDownloadTaskUnit cfg_4MiB_3 samplePan false false true
                 "/cloud/f" "/d/f" 0
                 (Downloader.mkAppFileEntity "file-1" (10 * MiB) false)))
    /\ Pandownload.Succeed r = negb true
    /\ Pandownload.NeedRetry r = false
    /\ Pandownload.Err r = None.
Proof.
  apply (runDownload_completed 404 131072 (fun _ => "/d")
           (sampleEnv None None (10 * MiB) None)
           (Pandownload.mkDownloadTaskUnit cfg_4MiB_3 samplePan false false true
              "/cloud/f" "/d/f" 0
              (Downloader.mkAppFileEntity "file-1" (10 * MiB) false))
           _ ∅ _).
  - right. reflexivity.
  - vm_compute. reflexivity.
Defined.

(** X23: when the directory of the destination is not a directory, or the
    destination cannot be opened, the run fails with the message of a
    failed download, leaves the files as they are and asks for a retry,
    whatever the cause: [download] returns a new error made by
    [fmt.Errorf], which is neither an [*os.PathError] nor an [ApiError]. *)
Theorem runDownload_init_failure (ApiCodeFileNotFoundCode MinParallelSize : Z)
    (filepath_Dir : string -> string) (env : Pandownload.DownloadEnv)
    (dtu : Pandownload.DownloadTaskUnit) (fs : FileSystem) (cause : error) :
  Pandownload.IsOverwrite dtu = true
  \/ Pandownload.FileExist fs (Pandownload.SavePath dtu) = false ->
  Pandownload.statDir env = Pandownload.StatNotDir
  \/ (Pandownload.openErr env = Some cause
      /\ (Pandownload.statDir env = Pandownload.StatIsDir
          \/ Pandownload.mkdirAllErr env = None)) ->
  exists r d,
    Pandownload.runDownload ApiCodeFileNotFoundCode MinParallelSize filepath_Dir
      env dtu fs
    = Some (r, fs, d)
    /\ Pandownload.Succeed r = false
    /\ Pandownload.NeedRetry r = true
    /\ Pandownload.ResultMessage r = Pandownload.StrDownloadFailed
    /\ (Pandownload.Err r
        = Some (ErrorfNotDir Pandownload.StrDownloadInitError
                  (filepath_Dir (Pandownload.SavePath dtu)))
        \/ Pandownload.Err r
           = Some (Errorf Pandownload.StrDownloadInitError cause)).
Proof.
  intros Hskip Hinit.
  unfold Pandownload.runDownload.
  assert (negb (Pandownload.IsOverwrite dtu)
          && Pandownload.FileExist fs (Pandownload.SavePath dtu) = false) as ->
    by (destruct Hskip as [-> | ->]; [reflexivity | apply andb_false_r]).
  unfold Pandownload.download, Pandownload.openDestination. cbn.
  destruct Hinit as [-> | [-> [-> | Hmk]]]; cbn.
  - do 2 eexists. split; [reflexivity|]. cbn. auto.
  - do 2 eexists. split; [reflexivity|]. cbn. auto.
  - destruct (Pandownload.statDir env); [| |rewrite Hmk].
    all: do 2 eexists; (split; [reflexivity|]); cbn; auto.
Qed.

Lemma runDownload_init_failure_witness :
  exists r d,
    Pandownload.runDownload 404 131072 (fun _ => "/d")
      (sampleEnv (Some (PathError "open" "/d/f")) None 0 None)
      (sampleUnit (10 * MiB)) ∅
    = Some (r, ∅, d)
    /\ Pandownload.Succeed r = false
    /\ Pandownload.NeedRetry r = true
    /\ Pandownload.ResultMessage r = Pandownload.StrDownloadFailed
    /\ (Pandownload.Err r
        = Some (ErrorfNotDir Pandownload.StrDownloadInitError "/d")
        \/ Pandownload.Err r
           = Some (Errorf Pandownload.StrDownloadInitError
                     (PathError "open" "/d/f"))).
Proof.
  apply (runDownload_init_failure 404 131072 (fun _ => "/d")
           (sampleEnv (Some (PathError "open" "/d/f")) None 0 None)
           (sampleUnit (10 * MiB)) ∅ (PathError "open" "/d/f")).
  - right. reflexivity.
  - right. split; [reflexivity|]. left. reflexivity.
Defined.

(** ** The unit as the executor runs it *)

Lemma appendFiles_spec (filepath_Join : string -> string -> string)
    (u : DownloadRun.TaskUnit) (fileList : list Command.FileEntry) :
  forall acc,
    DownloadRun.appendFiles filepath_Join u fileList acc
    = acc ++ map (fun fe => (DownloadRun.subUnit filepath_Join u fe,
                             DownloadRun.MaxRetry u))
               (filter (fun fe => Downloader.IsFolder (Command.entity fe) = false)
                  fileList).
Proof.
  induction fileList as [|fe rest IH]; intros acc; cbn [DownloadRun.appendFiles].
  - cbn. now rewrite app_nil_r.
  - destruct (Downloader.IsFolder (Command.entity fe)) eqn:Hf.
    + rewrite filter_cons_False by congruence. apply IH.
    + rewrite filter_cons_True by assumption. rewrite IH, <- app_assoc.
      reflexivity.
Qed.

(** X24: when [Run] has to look the file up (no file information yet, or
    a retry) and the look-up fails, it downloads nothing and queues
    nothing: the result is a failure with the [ApiError] of the look-up,
    and it asks for a retry unless the code is that of a file that was not
    found. *)
Theorem Run_lookup_failure (ApiCodeFileNotFoundCode MinParallelSize : Z)
    (filepath_Dir : string -> string) (filepath_Join : string -> string -> string)
    (env : DownloadRun.RunEnv) (u : DownloadRun.TaskUnit) (fs : FileSystem)
    (code : Z) :
  DownloadRun.fileInfoSet u = false \/ 0 < DownloadRun.Retry u ->
  DownloadRun.AppFileInfoByPath env (Pandownload.FamilyId (DownloadRun.dtu u))
    (Pandownload.FilePanPath (DownloadRun.dtu u)) = inl code ->
  exists out,
    DownloadRun.Run ApiCodeFileNotFoundCode MinParallelSize filepath_Dir
      filepath_Join env u fs = Some out
    /\ DownloadRun.files out = fs
    /\ DownloadRun.appended out = []
    /\ Pandownload.Succeed (DownloadRun.result out) = false
    /\ Pandownload.Err (DownloadRun.result out) = Some (ApiError code)
    /\ Pandownload.NeedRetry (DownloadRun.result out)
       = negb (code =? ApiCodeFileNotFoundCode).
Proof.
  intros Hlook Hanswer. unfold DownloadRun.Run.
  assert (negb (DownloadRun.fileInfoSet u) || (0 <? DownloadRun.Retry u) = true)
    as ->.
  { destruct Hlook as [-> | Hr]; [reflexivity|].
    apply orb_true_iff. right. apply Z.ltb_lt. exact Hr. }
  rewrite Hanswer. eexists. split; [reflexivity|]. cbn.
  unfold Pandownload.handleError. cbn.
  destruct (code =? ApiCodeFileNotFoundCode); cbn; auto.
Qed.

Lemma Run_lookup_failure_witness :
  exists out,
    DownloadRun.Run 404 131072 (fun _ => "/d") (fun a b => a +:+ b)
      (DownloadRun.mkRunEnv (fun _ _ => inl 500) None (fun _ _ => None)
         (sampleEnv None None 0 None))
      (DownloadRun.mkTaskUnit (sampleUnit 0) false "/d" 0 3)
      {["/d/g" := 7]}
    = Some out
    /\ DownloadRun.files out = {["/d/g" := 7]}
    /\ DownloadRun.appended out = []
    /\ Pandownload.Succeed (DownloadRun.result out) = false
    /\ Pandownload.Err (DownloadRun.result out) = Some (ApiError 500)
    /\ Pandownload.NeedRetry (DownloadRun.result out) = negb (500 =? 404).
Proof.
  apply (Run_lookup_failure 404 131072 (fun _ => "/d") (fun a b => a +:+ b)
           (DownloadRun.mkRunEnv (fun _ _ => inl 500) None (fun _ _ => None)
              (sampleEnv None None 0 None))
           (DownloadRun.mkTaskUnit (sampleUnit 0) false "/d" 0 3)
           {["/d/g" := 7]} 500).
  - left. reflexivity.
  - reflexivity.
Defined.



(** ** The multi-part upload, continued *)

(** X26: when [Precreate] fails, [upload] returns its error; no part is
    uploaded and nothing is committed, whatever the goroutines and the
    surroundings do. *)
Theorem upload_precreate_fails (parallel : Z) (e : error)
    (ws : Uploader.workerList) (sched : list Uploader.Step) :
  let s := Uploader.upload parallel (Some e) ws sched in
  Uploader.pc s = Uploader.Returned (Some e)
  /\ Uploader.calls s = [Uploader.CallPrecreate]
  /\ Uploader.workers s = ws.
Proof.
  exact (runSchedule_returned parallel sched (Uploader.start (Some e) ws)
           (Some e) eq_refl eq_refl).
Qed.

Lemma step_canceledInv (parallel : Z) (s s' : Uploader.State) (st : Uploader.Step) :
  canceledInv s -> Uploader.step parallel s st = Some s' -> canceledInv s'.
Proof.
  intros (Hc & Hnc & Hret) Hstep.
  destruct st as [|commit|w o|w|]; cbn in Hstep.
  - destruct (Uploader.pc s) eqn:Hpc; try discriminate.
    repeat case_match; simplify_eq; unfold canceledInv; cbn.
    all: split; [assumption|]; split; [assumption|]; discriminate.
  - destruct (Uploader.pc s) eqn:Hpc; try discriminate.
    destruct (Uploader.running s) eqn:Hr; try discriminate.
    destruct (Uploader.uploadDeque s) eqn:Hd; simplify_eq.
    + unfold Uploader.finishUpload, canceledInv. rewrite Hc. cbn.
      split; [reflexivity|]. split; [assumption|].
      intros r Heq. split; [assumption|].
      destruct (Uploader.uperr s); cbn in *; congruence.
    + unfold canceledInv; cbn.
      split; [assumption|]; split; [assumption|]; discriminate.
  - destruct (bool_decide (w ∈ Uploader.running s)) eqn:Hin; [|discriminate].
    apply bool_decide_eq_true in Hin.
    assert (forall r, Uploader.pc s <> Uploader.Returned r) as Hpc.
    { intros r Hr. destruct (Hret r Hr) as [Hrun _].
      rewrite Hrun in Hin. inversion Hin. }
    destruct (Uploader.workers s !! w) as [wer|]; [|discriminate].
    pose proof (innerCall_no_commit wer o) as Hic.
    destruct (Uploader.innerCall wer o) as [[[done terr] wer1] cs].
    cbn [snd] in Hic.
    repeat case_match; simplify_eq; unfold canceledInv; cbn.
    all: split; [reflexivity || assumption|].
    all: split; [rewrite in_app_iff; tauto|].
    all: intros r Hr; exfalso; exact (Hpc r Hr).
  - destruct (bool_decide (w ∈ Uploader.running s)) eqn:Hin; [|discriminate].
    apply bool_decide_eq_true in Hin.
    assert (forall r, Uploader.pc s <> Uploader.Returned r) as Hpc.
    { intros r Hr. destruct (Hret r Hr) as [Hrun _].
      rewrite Hrun in Hin. inversion Hin. }
    destruct (Uploader.canceled s); [|discriminate]. cbn in Hstep.
    destruct (Uploader.workers s !! w) as [wer|]; [|discriminate].
    pose proof (startedCall_no_commit wer) as Hsc.
    simplify_eq. unfold canceledInv; cbn.
    split; [reflexivity|]. split; [rewrite in_app_iff; tauto|].
    intros r Hr; exfalso; exact (Hpc r Hr).
  - simplify_eq. unfold canceledInv; cbn.
    split; [reflexivity|]. split; [assumption|]. exact Hret.
Qed.

Lemma runSchedule_canceledInv (parallel : Z) (sched : list Uploader.Step) :
  forall s, canceledInv s -> canceledInv (Uploader.runSchedule parallel s sched).
Proof.
  induction sched as [|st rest IH]; intros s Hs; [exact Hs|].
  cbn. apply IH.
  destruct (Uploader.step parallel s st) as [s'|] eqn:Hstep; cbn; [|exact Hs].
  eapply step_canceledInv; eauto.
Qed.

Lemma runSchedule_app (parallel : Z) (s : Uploader.State)
    (l1 l2 : list Uploader.Step) :
  Uploader.runSchedule parallel s (l1 ++ l2)
  = Uploader.runSchedule parallel (Uploader.runSchedule parallel s l1) l2.
Proof. unfold Uploader.runSchedule. apply foldl_app. Qed.



Lemma notDone_spec (ws : Uploader.workerList) :
  forall k i,
    In i (Uploader.notDone k ws) ->
    exists wer0, ws !! (i - k)%nat = Some wer0
                 /\ Uploader.uploadDone wer0 = false /\ (k <= i)%nat.
Proof.
  induction ws as [|wer rest IH]; intros k i Hin; [destruct Hin|].
  cbn [Uploader.notDone] in Hin.
  assert (In i (Uploader.notDone (S k) rest) ->
          exists wer0, (wer :: rest) !! (i - k)%nat = Some wer0
                       /\ Uploader.uploadDone wer0 = false /\ (k <= i)%nat)
    as Hrest.
  { intros H. destruct (IH (S k) i H) as (wer0 & Hl & Hd & Hle).
    exists wer0. replace (i - k)%nat with (S (i - S k)) by lia.
    cbn. repeat split; [exact Hl | exact Hd | lia]. }
  destruct (Uploader.uploadDone wer) eqn:Hd; [exact (Hrest Hin)|].
  destruct Hin as [<-|Hin]; [|exact (Hrest Hin)].
  exists wer. rewrite Nat.sub_diag. cbn. auto.
Qed.

Lemma start_partsInv (precreate : option error) (ws : Uploader.workerList) :
  partsInv ws (Uploader.start precreate ws).
Proof.
  unfold partsInv, Uploader.start.
  destruct precreate; cbn.
  - split; [eauto|]. split; [intros i []|].
    intros part offset last [H|[]]. discriminate H.
  - split; [eauto|]. split.
    + intros i Hin. rewrite app_nil_r in Hin.
      destruct (notDone_spec ws 0 i Hin) as (wer0 & Hl & Hd & _).
      rewrite Nat.sub_0_r in Hl. eauto.
    + intros part offset last [H|[]]. discriminate H.
Qed.

Lemma leave_In (w i : nat) (l : list nat) : In i (Uploader.leave w l) -> In i l.
Proof.
  unfold Uploader.leave. intros H.
  apply list_elem_of_In in H. apply list_elem_of_filter in H as [_ H].
  apply list_elem_of_In. exact H.
Qed.

Lemma startedCall_In (wer : Uploader.worker) (c : Uploader.Call) :
  In c (Uploader.startedCall wer) ->
  c = uploadCall wer /\ Uploader.uploadDone wer = false.
Proof.
  unfold Uploader.startedCall.
  destruct (Uploader.uploadDone wer); [intros []|].
  intros [<-|[]]. split; reflexivity.
Qed.

Lemma innerCall_parts (wer : Uploader.worker) (o : Uploader.UploadOutcome) :
  uploadCall (snd (fst (Uploader.innerCall wer o))) = uploadCall wer
  /\ snd (Uploader.innerCall wer o) = Uploader.startedCall wer.
Proof.
  unfold Uploader.innerCall.
  destruct (Uploader.uploadDone wer); cbn; split; reflexivity.
Qed.

Lemma step_partsInv (parallel : Z) (ws : Uploader.workerList)
    (s s' : Uploader.State) (st : Uploader.Step) :
  partsInv ws s -> Uploader.step parallel s st = Some s' -> partsInv ws s'.
Proof.
  intros (Hws & Hq & Hcalls) Hstep.
  assert (forall w wer part offset last,
            In w (Uploader.running s) ->
            Uploader.workers s !! w = Some wer ->
            In (Uploader.CallUploadFile part offset last)
              (Uploader.calls s ++ Uploader.startedCall wer) ->
            exists wer0, In wer0 ws /\ Uploader.uploadDone wer0 = false
                         /\ uploadCall wer0
                            = Uploader.CallUploadFile part offset last)
    as Hnew.
  { intros w wer part offset last Hin Hl Hc.
    apply in_app_iff in Hc as [Hc|Hc]; [exact (Hcalls _ _ _ Hc)|].
    apply startedCall_In in Hc as [Hc _].
    destruct (Hws w wer Hl) as (wer0 & Hl0 & Heq).
    destruct (Hq w) as (wer0' & Hl0' & Hd0); [apply in_app_iff; auto|].
    assert (wer0' = wer0) as -> by congruence.
    exists wer0. split; [|split; [exact Hd0 | congruence]].
    apply list_elem_of_In. eapply list_elem_of_lookup_2. exact Hl0. }
  assert (forall w wer wer1,
            Uploader.workers s !! w = Some wer ->
            uploadCall wer1 = uploadCall wer ->
            forall i wer', <[w := wer1]> (Uploader.workers s) !! i = Some wer' ->
              exists wer0, ws !! i = Some wer0 /\ uploadCall wer' = uploadCall wer0)
    as Hins.
  { intros w wer wer1 Hl Heq i wer' Hi.
    apply list_lookup_insert_Some in Hi as [(<- & <- & _)|(Hne & Hi)].
    - destruct (Hws w wer Hl) as (wer0 & Hl0 & Heq0).
      exists wer0. split; [exact Hl0 | congruence].
    - exact (Hws i wer' Hi). }
  destruct st as [|commit|w o|w|]; cbn in Hstep.
  - destruct (Uploader.pc s); try discriminate.
    destruct (Uploader.uploadDeque s) as [|e rest] eqn:Hd.
    + simplify_eq. unfold partsInv; cbn. split; [exact Hws|]. split; [|exact Hcalls].
      intros i Hin. apply Hq. exact Hin.
    + destruct (Uploader.gateOpen _ _); simplify_eq.
      unfold partsInv; cbn. split; [exact Hws|]. split; [|exact Hcalls].
      intros i Hin. apply Hq. cbn.
      rewrite !in_app_iff in *. cbn in Hin. tauto.
  - destruct (Uploader.pc s); try discriminate.
    destruct (Uploader.running s) eqn:Hr; try discriminate.
    destruct (Uploader.uploadDeque s) eqn:Hd; simplify_eq.
    + unfold Uploader.finishUpload.
      repeat case_match; unfold partsInv; cbn; rewrite ?Hd, ?Hr.
      all: split; [exact Hws|]; split; [intros i []|].
      all: intros part offset last Hin; try exact (Hcalls _ _ _ Hin).
      all: apply in_app_iff in Hin as [Hin|[Hin|[]]];
        [exact (Hcalls _ _ _ Hin) | discriminate Hin].
    + unfold partsInv; cbn. split; [exact Hws|].
      split; [|exact Hcalls]. intros i Hin. apply Hq.
      rewrite ?Hd, ?Hr. exact Hin.
  - destruct (bool_decide (w ∈ Uploader.running s)) eqn:Hin; [|discriminate].
    apply bool_decide_eq_true, list_elem_of_In in Hin.
    destruct (Uploader.workers s !! w) as [wer|] eqn:Hl; [|discriminate].
    destruct (innerCall_parts wer o) as [Hcall Hcs].
    destruct (Uploader.innerCall wer o) as [[[done terr] wer1] cs].
    cbn [fst snd] in Hcall, Hcs. subst cs.
    assert (forall wer2, uploadCall wer2 = uploadCall wer1 ->
                         uploadCall wer2 = uploadCall wer) as Hsame
      by (intros wer2 H2; congruence).
    clear Hcall.
    assert (forall i, In i (Uploader.uploadDeque s
                            ++ Uploader.leave w (Uploader.running s)) ->
                      exists wer0, ws !! i = Some wer0
                                   /\ Uploader.uploadDone wer0 = false) as Hq1.
    { intros i Hi. apply Hq. rewrite in_app_iff in *.
      destruct Hi as [Hi|Hi]; [auto | right; exact (leave_In _ _ _ Hi)]. }
    assert (forall i, In i ((Uploader.uploadDeque s ++ [w])
                            ++ Uploader.leave w (Uploader.running s)) ->
                      exists wer0, ws !! i = Some wer0
                                   /\ Uploader.uploadDone wer0 = false) as Hq2.
    { intros i Hi. apply Hq. rewrite !in_app_iff in *.
      destruct Hi as [[Hi|[<-|[]]]|Hi];
        [auto | auto | right; exact (leave_In _ _ _ Hi)]. }
    repeat case_match; simplify_eq; unfold partsInv; cbn.
    all: split; [eapply Hins; [exact Hl | apply Hsame; reflexivity]|].
    all: split; [assumption|].
    all: intros part offset last Hc; eapply Hnew; eauto.
  - destruct (bool_decide (w ∈ Uploader.running s)) eqn:Hin; [|discriminate].
    apply bool_decide_eq_true, list_elem_of_In in Hin.
    destruct (Uploader.canceled s); [|discriminate]. cbn in Hstep.
    destruct (Uploader.workers s !! w) as [wer|] eqn:Hl; [|discriminate].
    simplify_eq. unfold partsInv; cbn. split; [exact Hws|]. split.
    + intros i Hi. apply Hq. rewrite in_app_iff in *.
      destruct Hi as [Hi|Hi]; [auto | right; exact (leave_In _ _ _ Hi)].
    + intros part offset last Hc; eapply Hnew; eauto.
  - simplify_eq. unfold partsInv; cbn. auto.
Qed.

Lemma runSchedule_partsInv (parallel : Z) (ws : Uploader.workerList)
    (sched : list Uploader.Step) :
  forall s, partsInv ws s -> partsInv ws (Uploader.runSchedule parallel s sched).
Proof.
  induction sched as [|st rest IH]; intros s Hs; [exact Hs|].
  cbn. apply IH.
  destruct (Uploader.step parallel s st) as [s'|] eqn:Hstep; cbn; [|exact Hs].
  eapply step_partsInv; eauto.
Qed.

(** X28: under every schedule and every answer of the remote calls,
    [upload] calls [UploadFile] only for parts that were not done when it
    started, each time with the id, the offset and the end of the range of
    that part; a part that was done at the start is never uploaded again. *)
Theorem upload_only_parts_not_done (parallel : Z) (precreate : option error)
    (ws : Uploader.workerList) (sched : list Uploader.Step)
    (part offset last : Z) :
  In (Uploader.CallUploadFile part offset last)
    (Uploader.calls (Uploader.upload parallel precreate ws sched)) ->
  exists wer, In wer ws /\ Uploader.uploadDone wer = false
              /\ Uploader.id wer = part /\ Uploader.partOffset wer = offset
              /\ Transfer.End (Uploader.suRange (Uploader.splitUnit wer)) = last.
Proof.
  intros Hin.
  destruct (runSchedule_partsInv parallel ws sched _ (start_partsInv precreate ws))
    as (_ & _ & Hcalls).
  destruct (Hcalls part offset last Hin) as (wer & Hw & Hd & Hc).
  exists wer. unfold uploadCall in Hc. injection Hc as H1 H2 H3. auto.
Qed.

Lemma upload_only_parts_not_done_witness :
  exists wer, In wer sampleWorkers /\ Uploader.uploadDone wer = false
              /\ Uploader.id wer = 2 /\ Uploader.partOffset wer = 4
              /\ Transfer.End (Uploader.suRange (Uploader.splitUnit wer)) = 8.
Proof.
  apply (upload_only_parts_not_done 2 None sampleWorkers scheduleAllDone 2 4 8).
  vm_compute. auto.
Defined.

Lemma notDone_complete (ws : Uploader.workerList) :
  forall k i wer,
    ws !! i = Some wer -> Uploader.uploadDone wer = false ->
    In (k + i)%nat (Uploader.notDone k ws).
Proof.
  induction ws as [|w0 rest IH]; intros k i wer Hl Hd; [discriminate Hl|].
  cbn [Uploader.notDone]. destruct i as [|i]; cbn in Hl.
  - simplify_eq. rewrite Hd, Nat.add_0_r. left. reflexivity.
  - replace (k + S i)%nat with (S k + i)%nat by lia.
    destruct (Uploader.uploadDone w0); [|right]; eapply IH; eauto.
Qed.

Lemma notDone_calls (ws : list Uploader.worker) :
  forall k (pre : list Uploader.worker),
    length pre = k ->
    omap (fun i => uploadCall <$> (pre ++ ws) !! i) (Uploader.notDone k ws)
    = map uploadCall (filter (fun wer => Uploader.uploadDone wer = false) ws).
Proof.
  induction ws as [|w0 rest IH]; intros k pre Hk; [reflexivity|].
  cbn [Uploader.notDone].
  assert (omap (fun i => uploadCall <$> (pre ++ w0 :: rest) !! i)
            (Uploader.notDone (S k) rest)
          = map uploadCall
              (filter (fun wer => Uploader.uploadDone wer = false) rest)) as Hrest.
  { specialize (IH (S k) (pre ++ [w0])).
    rewrite <- app_assoc in IH. apply IH.
    rewrite length_app. cbn [length]. lia. }
  destruct (Uploader.uploadDone w0) eqn:Hd.
  - rewrite filter_cons_False by congruence. exact Hrest.
  - rewrite filter_cons_True by assumption. cbn [omap list_omap map].
    rewrite lookup_app_r by lia. replace (k - length pre)%nat with 0%nat by lia.
    cbn. rewrite Hrest. reflexivity.
Qed.

Lemma notDone_NoDup (ws : Uploader.workerList) :
  forall k, NoDup (Uploader.notDone k ws).
Proof.
  induction ws as [|w0 rest IH]; intros k; cbn [Uploader.notDone];
    [constructor|].
  destruct (Uploader.uploadDone w0); [apply IH|].
  constructor; [|apply IH].
  intros Hin. apply list_elem_of_In in Hin.
  destruct (notDone_spec rest (S k) k Hin) as (_ & _ & _ & Hle). lia.
Qed.

Lemma runSchedule_cons (parallel : Z) (s : Uploader.State) (st : Uploader.Step)
    (rest : list Uploader.Step) :
  Uploader.runSchedule parallel s (st :: rest)
  = Uploader.runSchedule parallel (default s (Uploader.step parallel s st)) rest.
Proof. reflexivity. Qed.

Lemma omap_ext_In {A B : Type} (f g : A -> option B) (l : list A) :
  (forall x, In x l -> f x = g x) -> omap f l = omap g l.
Proof.
  induction l as [|a l IH]; intros H; [reflexivity|].
  cbn. rewrite (H a) by (left; reflexivity).
  rewrite IH by (intros x Hx; apply H; right; exact Hx). reflexivity.
Qed.

Lemma gateOpen_empty (parallel : Z) : Uploader.gateOpen parallel 0 = true.
Proof.
  unfold Uploader.gateOpen.
  destruct (Z.leb_spec parallel 0); [reflexivity|].
  apply Z.ltb_lt. cbn. lia.
Qed.

(** The sequential schedule over a queue [l] of parts that are not done:
    each is uploaded once, in the order of the queue, and marked done; no
    other part changes. *)
Lemma sequential_queue (parallel n : Z) :
  forall (l : list nat) (s : Uploader.State),
    Uploader.pc s = Uploader.Queueing ->
    Uploader.running s = [] ->
    Uploader.uploadDeque s = l ->
    NoDup l ->
    (forall i, In i l ->
       exists wer, Uploader.workers s !! i = Some wer
                   /\ Uploader.uploadDone wer = false) ->
    let s' :=
      Uploader.runSchedule parallel s
        (flat_map
           (fun i => [Uploader.MainShift;
                      Uploader.WorkerDone i (Uploader.mkUploadOutcome true None n)])
           l) in
    Uploader.pc s' = Uploader.Queueing
    /\ Uploader.running s' = []
    /\ Uploader.uploadDeque s' = []
    /\ Uploader.canceled s' = Uploader.canceled s
    /\ Uploader.uperr s' = Uploader.uperr s
    /\ Uploader.calls s'
       = Uploader.calls s
         ++ omap (fun i => uploadCall <$> Uploader.workers s !! i) l
    /\ (forall i wer', Uploader.workers s' !! i = Some wer' ->
          Uploader.uploadDone wer' = false ->
          Uploader.workers s !! i = Some wer' /\ ~ In i l).
Proof.
  induction l as [|e rest IH]; intros s Hpc Hrun Hq Hnd Hparts.
  - cbn. rewrite app_nil_r. repeat split; auto.
  - destruct (Hparts e (or_introl eq_refl)) as (wer & Hl & Hd).
    apply NoDup_cons in Hnd as [Hnotin Hnd].
    cbn [flat_map app].
    rewrite 2 runSchedule_cons.
    set (s1 := default s (Uploader.step parallel s Uploader.MainShift)).
    assert (s1 = {| Uploader.workers := Uploader.workers s;
                    Uploader.uploadDeque := rest;
                    Uploader.running := [e];
                    Uploader.canceled := Uploader.canceled s;
                    Uploader.uperr := Uploader.uperr s;
                    Uploader.calls := Uploader.calls s;
                    Uploader.pc := Uploader.Queueing |}) as Hs1.
    { subst s1. cbn [Uploader.step]. rewrite Hpc, Hq, Hrun. cbn [length].
      rewrite gateOpen_empty. reflexivity. }
    set (s2 := default s1 _).
    assert (s2 = {| Uploader.workers :=
                      <[e := Uploader.setUploadDone true
                               (Uploader.setReaded
                                  (Int64.add
                                     (Uploader.readed (Uploader.splitUnit wer)) n)
                                  wer)]> (Uploader.workers s);
                    Uploader.uploadDeque := rest;
                    Uploader.running := [];
                    Uploader.canceled := Uploader.canceled s;
                    Uploader.uperr := Uploader.uperr s;
                    Uploader.calls := Uploader.calls s ++ [uploadCall wer];
                    Uploader.pc := Uploader.Queueing |}) as Hs2.
    { subst s2. rewrite Hs1. cbn.
      rewrite bool_decide_eq_true_2 by (apply list_elem_of_here).
      rewrite Hl. unfold Uploader.innerCall, Uploader.startedCall.
      rewrite Hd. cbn.
      destruct (decide (e <> e)) as [Hee|_]; [contradiction|]. reflexivity. }
    clearbody s2. subst s2. clear s1 Hs1.
    set (wer1 := Uploader.setUploadDone true _).
    assert (forall i, In i rest ->
              <[e := wer1]> (Uploader.workers s) !! i = Uploader.workers s !! i)
      as Hsame.
    { intros i Hi. apply list_lookup_insert_ne. intros ->.
      apply Hnotin, list_elem_of_In. exact Hi. }
    match goal with
    | |- context [Uploader.runSchedule parallel ?st _] =>
        destruct (IH st eq_refl eq_refl eq_refl Hnd)
          as (H1 & H2 & H3 & H4 & H5 & H6 & H7)
    end.
    { intros i Hi. cbn [Uploader.workers]. rewrite (Hsame i Hi).
      apply Hparts. right. exact Hi. }
    cbn [Uploader.workers Uploader.calls Uploader.canceled Uploader.uperr]
      in H4, H5, H6, H7.
    split; [exact H1|]. split; [exact H2|]. split; [exact H3|].
    split; [exact H4|]. split; [exact H5|]. split.
    + rewrite H6. cbn [omap list_omap].
      rewrite Hl. cbn [fmap option_fmap option_map].
      rewrite <- app_assoc. cbn [app]. do 2 f_equal.
      apply omap_ext_In. intros i Hi. rewrite (Hsame i Hi). reflexivity.
    + intros i wer' Hi Hdi.
      destruct (H7 i wer' Hi Hdi) as [Hi2 Hni].
      apply list_lookup_insert_Some in Hi2 as [(<- & <- & _)|(Hne & Hi2)];
        [discriminate Hdi|].
      split; [exact Hi2|]. intros [Heq|Hin]; [congruence | exact (Hni Hin)].
Qed.

(** X29: when [Precreate] succeeds, the parts are uploaded one after the
    other and every [UploadFile] answers "done" without an error, [upload]
    calls [Precreate], then [UploadFile] once for each part that was not
    done, in the order of the parts, then [CommitFile]; it returns what
    [CommitFile] returns and leaves every part done. *)
Theorem upload_sequential_commits (parallel n : Z) (commit : option error)
    (ws : list Uploader.worker) :
  let s := Uploader.upload parallel None ws (sequentialSchedule ws n commit) in
  Uploader.pc s = Uploader.Returned commit
  /\ Uploader.calls s
     = Uploader.CallPrecreate
       :: map uploadCall (filter (fun wer => Uploader.uploadDone wer = false) ws)
       ++ [Uploader.CallCommitFile]
  /\ forallb Uploader.uploadDone (Uploader.workers s) = true.
Proof.
  intros s. subst s. unfold Uploader.upload, sequentialSchedule.
  rewrite runSchedule_app.
  assert (forall i, In i (Uploader.notDone 0 ws) ->
            exists wer, Uploader.workers (Uploader.start None ws) !! i = Some wer
                        /\ Uploader.uploadDone wer = false) as Hparts.
  { intros i Hi. destruct (notDone_spec ws 0 i Hi) as (wer & Hl & Hd & _).
    rewrite Nat.sub_0_r in Hl. exists wer. cbn. auto. }
  pose proof (sequential_queue parallel n (Uploader.notDone 0 ws)
                (Uploader.start None ws) eq_refl eq_refl eq_refl
                (notDone_NoDup ws 0) Hparts) as Hseq.
  cbv zeta in Hseq.
  set (s1 := Uploader.runSchedule parallel (Uploader.start None ws) _) in *.
  destruct Hseq as (H1 & H2 & H3 & H4 & H5 & H6 & H7).
  cbn [Uploader.start Uploader.calls Uploader.workers Uploader.canceled
       Uploader.uperr] in H4, H5, H6, H7.
  pose proof (notDone_calls ws 0 [] eq_refl) as Hcalls.
  cbn [app] in Hcalls.
  pose proof (eq_trans H6 (f_equal (app [Uploader.CallPrecreate]) Hcalls)) as H6'.
  clear H6 Hcalls.
  assert (forallb Uploader.uploadDone (Uploader.workers s1) = true) as Hall.
  { apply forallb_forall. intros wer' Hin.
    destruct (Uploader.uploadDone wer') eqn:Hd; [reflexivity|].
    apply list_elem_of_In, list_elem_of_lookup_1 in Hin as [i Hi].
    destruct (H7 i wer' Hi Hd) as [Hws Hni].
    exfalso. apply Hni.
    exact (notDone_complete ws 0 i wer' Hws Hd). }
  rewrite 2 runSchedule_cons. cbn [Uploader.runSchedule foldl].
  cbn [Uploader.step]. rewrite H1, H3. cbn [default from_option]. unfold id.
  cbn [Uploader.step Uploader.pc Uploader.running Uploader.uploadDeque].
  rewrite H2. cbn [default from_option]. unfold id.
  unfold Uploader.finishUpload.
  cbn [Uploader.canceled Uploader.workers Uploader.calls Uploader.uperr].
  rewrite H4, Hall, H5, H6'. cbn.
  split; [destruct commit; reflexivity|]. split; [reflexivity | exact Hall].
Qed.
